(** * Dyksa subscription reminder: storage, routes and client-side derivations

    A shallow embedding of the parts of the application that decide its
    behaviour:

    - [shared/schema.ts]: the three tables and the insert schemas generated
      from them;
    - [server/storage.ts]: [DatabaseStorage], as functions over an explicit
      database value;
    - [server/routes.ts]: the request handlers, as functions from a database
      and a request to a response and a database;
    - [client/src/components/subscription-card.tsx]: [getDueText];
    - [client/src/pages/subscriptions.tsx]: [getTotalMonthlySpend] and
      [groupSubscriptionsByStatus];
    - [client/src/pages/analytics.tsx]: [getAverageSpend].

    JavaScript numbers are IEEE-754 binary64 values and are modelled by
    Rocq's primitive floats, whose operations are specified by
    [SpecFloat].  A value of a [decimal] column is its integer number of
    hundredths, or [NaN].  Timestamps are the integer millisecond counts
    of [Date.getTime()].  Strings are the texts the database holds, which
    have no NUL character. *)

From Stdlib Require Import ZArith Lia Ascii String Floats Uint63.
From stdpp Require Import base strings gmap list sorting pretty.

Local Open Scope Z_scope.

(** ** Values of a [decimal(10, 2)] column *)

Module Numeric.

(** A value of the column is a decimal with two fraction digits, kept
    here as its integer number of hundredths, or the not-a-number value
    the type has besides.  On the wire the value is text: the numeral with
    two fraction digits, or [NaN]. *)
Inductive t :=
  | Finite (hundredths : Z)
  | NaN.

(** The hundredths of a decimal; [NaN] has none and counts as [0]. *)
Definition hundredths (a : t) : Z :=
  match a with Finite c => c | NaN => 0 end.

(** A whole number of units: a decimal whose fraction digits are [00]. *)
Definition whole (a : t) : Prop :=
  match a with Finite c => c `mod` 100 = 0 | NaN => False end.

#[global] Instance whole_dec (a : t) : Decision (whole a) :=
  match a with Finite c => decide (c `mod` 100 = 0) | NaN => right (λ H, H) end.

End Numeric.

Coercion Numeric.Finite : Z >-> Numeric.t.

(** ** JavaScript numbers *)

Module Num.

Definition number := float.

(** The double whose value is the integer [z] (exact below [2^53]). *)
Definition of_Z (z : Z) : number :=
  match z with
  | Z0 => 0%float
  | Zpos _ => of_uint63 (Uint63.of_Z z)
  | Zneg p => (- of_uint63 (Uint63.of_Z (Zpos p)))%float
  end.

(** [parseFloat] on the text of a [decimal(10,2)] column.  The text of a
    decimal of [cents] hundredths is the numeral with two fraction digits
    that denotes [cents / 100], and [parseFloat] returns the double nearest
    to that rational.  Both [cents] and [100] are exact doubles, so the
    correctly rounded quotient is that same nearest double.  The text
    [NaN] reads as the number [NaN]. *)
Definition parseFloat (amount : Numeric.t) : number :=
  match amount with
  | Numeric.Finite cents => (of_Z cents / 100)%float
  | Numeric.NaN => PrimFloat.nan
  end.

(** The integer a number denotes, when it denotes one
    ([Number.isInteger]). *)
Definition to_Z (x : number) : option Z :=
  match Prim2SF x with
  | S754_zero _ => Some 0
  | S754_finite s m e =>
      let sm := cond_Zopp s (Zpos m) in
      if bool_decide (0 ≤ e) then Some (sm * 2 ^ e)
      else if bool_decide (Zpos m `mod` 2 ^ (- e) = 0)
           then Some (sm `div` 2 ^ (- e)) else None
  | _ => None
  end.

(** [x] is exactly the rational [cents / 100]. *)
Definition is_cents (x : number) (cents : Z) : Prop :=
  match Prim2SF x with
  | S754_zero _ => cents = 0
  | S754_finite s m e =>
      let sm := cond_Zopp s (Zpos m) in
      if bool_decide (0 ≤ e) then 100 * sm * 2 ^ e = cents
      else 100 * sm = cents * 2 ^ (- e)
  | _ => False
  end.

(** Left-to-right sum from [0], the shape of
    [xs.reduce((sum, x) => sum + x, 0)]. *)
Definition sum (xs : list number) : number :=
  fold_left (λ acc x, (acc + x)%float) xs 0%float.

End Num.

(** ** shared/schema.ts *)

Module Subscription.
(** A row of [subscriptions] ([typeof subscriptions.$inferSelect]). *)
Record t := mk {
  id : string;
  userId : string;
  name : string;
  amount : Numeric.t;          (* decimal(10,2) *)
  currency : string;
  billingPeriod : string;      (* monthly, yearly, weekly, quarterly, custom *)
  nextPaymentDate : Z;         (* timestamp, milliseconds *)
  reminderDays : Z;
  description : option string;
  emailNotifications : bool;
  pushNotifications : bool;
  isActive : bool;
  createdAt : option Z;
  updatedAt : option Z;
}.
End Subscription.

Module UserSettings.
(** A row of [user_settings]. *)
Record t := mk {
  id : string;
  userId : string;
  emailNotifications : bool;
  pushNotifications : bool;
  weeklySummary : bool;
  darkMode : bool;
  defaultCurrency : string;
  createdAt : option Z;
  updatedAt : option Z;
}.
End UserSettings.

(** Values that reach a handler in [req.body].  A [JDate] is a [Date]
    object, as a body parser that revives dates hands it over; a date
    written as text is a [JString]. *)
Inductive jsval :=
  | JUndefined
  | JNull
  | JBoolean (b : bool)
  | JNumber (x : Num.number)
  | JString (s : string)
  | JDate (time : option Z)      (* [None]: an Invalid Date *)
  | JObject.                     (* any other object or array *)

Module InsertSubscription.
(** Output of [insertSubscriptionSchema] and of its [.partial()]: the
    keys of the table without [id], [userId], [createdAt], [updatedAt];
    a key that is not supplied is [None].  [description] is nullable, so
    a supplied value is itself optional. *)
Record t := mk {
  name : option string;
  amount : option string;
  currency : option string;
  billingPeriod : option string;
  nextPaymentDate : option Z;
  reminderDays : option Z;
  description : option (option string);
  emailNotifications : option bool;
  pushNotifications : option bool;
  isActive : option bool;
}.
End InsertSubscription.

Module InsertUserSettings.
(** Output of [insertUserSettingsSchema]; every column has a default, so
    every key is optional. *)
Record t := mk {
  emailNotifications : option bool;
  pushNotifications : option bool;
  weeklySummary : option bool;
  darkMode : option bool;
  defaultCurrency : option string;
}.
End InsertUserSettings.

Module Zod.

(** [body[key]]: a key that is not there reads as [undefined]. *)
Definition field (body : gmap string jsval) (key : string) : jsval :=
  default JUndefined (body !! key).

(** Each parser returns [None] where zod raises a [ZodError]. *)
Definition z_string (v : jsval) : option string :=
  match v with JString s => Some s | _ => None end.

Definition z_boolean (v : jsval) : option bool :=
  match v with JBoolean b => Some b | _ => None end.

Definition z_date (v : jsval) : option Z :=
  match v with JDate (Some t) => Some t | _ => None end.

Definition INT32_MIN : Z := -2147483648.
Definition INT32_MAX : Z := 2147483647.

(** The schema of an [integer] column: an integer within 32 bits. *)
Definition z_int32 (v : jsval) : option Z :=
  match v with
  | JNumber x =>
      match Num.to_Z x with
      | Some n => if bool_decide (INT32_MIN ≤ n ≤ INT32_MAX) then Some n else None
      | None => None
      end
  | _ => None
  end.

Definition required {A} (p : jsval → option A) (v : jsval) : option (option A) :=
  Some <$> p v.

Definition optional {A} (p : jsval → option A) (v : jsval) : option (option A) :=
  match v with JUndefined => Some None | _ => Some <$> p v end.

Definition nullable {A} (p : jsval → option A) (v : jsval) : option (option A) :=
  match v with JNull => Some None | _ => Some <$> p v end.

(** The object schema built from the [subscriptions] table.  Columns that
    are [notNull] without a default are required keys ([req] decides how a
    required key is read: [required] for the schema itself, [optional] for
    its [.partial()]); the others are optional.  Keys outside the shape,
    among them the omitted [id], [userId], [createdAt] and [updatedAt],
    are stripped. *)
Definition subscription_shape
    (req : ∀ A, (jsval → option A) → jsval → option (option A))
    (body : gmap string jsval) : option InsertSubscription.t :=
  name ← req _ z_string (field body "name");
  amount ← req _ z_string (field body "amount");
  currency ← optional z_string (field body "currency");
  billingPeriod ← req _ z_string (field body "billingPeriod");
  nextPaymentDate ← req _ z_date (field body "nextPaymentDate");
  reminderDays ← optional z_int32 (field body "reminderDays");
  description ← optional (nullable z_string) (field body "description");
  emailNotifications ← optional z_boolean (field body "emailNotifications");
  pushNotifications ← optional z_boolean (field body "pushNotifications");
  isActive ← optional z_boolean (field body "isActive");
  Some (InsertSubscription.mk name amount currency billingPeriod
          nextPaymentDate reminderDays description emailNotifications
          pushNotifications isActive).

Definition insertSubscriptionSchema := subscription_shape (@required).
Definition insertSubscriptionSchema_partial := subscription_shape (@optional).

Definition insertUserSettingsSchema (body : gmap string jsval)
    : option InsertUserSettings.t :=
  emailNotifications ← optional z_boolean (field body "emailNotifications");
  pushNotifications ← optional z_boolean (field body "pushNotifications");
  weeklySummary ← optional z_boolean (field body "weeklySummary");
  darkMode ← optional z_boolean (field body "darkMode");
  defaultCurrency ← optional z_string (field body "defaultCurrency");
  Some (InsertUserSettings.mk emailNotifications pushNotifications
          weeklySummary darkMode defaultCurrency).

End Zod.

(** ** The database *)

Module Pg.

(** *** Input of a [numeric] value

    The amount reaches the database as the text the request carried, and
    PostgreSQL (16 and later) reads it with its [numeric] input: blanks
    around the number, a sign, then [NaN], or decimal digits with an
    optional point and an optional exponent, or an integer in base 16, 8
    or 2 after [0x], [0o] or [0b]; digits may be grouped by single
    underscores.  The value is then brought to the type of the column,
    [numeric(10, 2)]: rounded to two fraction digits, half away from zero,
    and refused when it then needs more than eight integer digits.  [None]
    is the error the statement fails with. *)

Definition code (c : ascii) : N := N_of_ascii c.

(** [isspace]: the blank, and tab to carriage return. *)
Definition is_space (c : ascii) : bool :=
  bool_decide (code c = 32 ∨ 9 ≤ code c ≤ 13)%N.

Definition digit (c : ascii) : option N :=
  if bool_decide (48 ≤ code c ≤ 57)%N then Some (code c - 48)%N else None.

Definition octal_digit (c : ascii) : option N :=
  if bool_decide (48 ≤ code c ≤ 55)%N then Some (code c - 48)%N else None.

Definition binary_digit (c : ascii) : option N :=
  if bool_decide (48 ≤ code c ≤ 49)%N then Some (code c - 48)%N else None.

Definition hex_digit (c : ascii) : option N :=
  if bool_decide (48 ≤ code c ≤ 57)%N then Some (code c - 48)%N
  else if bool_decide (97 ≤ code c ≤ 102)%N then Some (code c - 87)%N
  else if bool_decide (65 ≤ code c ≤ 70)%N then Some (code c - 55)%N
  else None.

Definition digits_value (base : N) (ds : list N) : N :=
  fold_left (λ acc d, acc * base + d)%N ds 0%N.

Fixpoint skip_spaces (cs : list ascii) : list ascii :=
  match cs with
  | c :: cs' => if is_space c then skip_spaces cs' else cs
  | [] => []
  end.

(** A leading sign: whether it is [-], and the text after it. *)
Definition sign (cs : list ascii) : bool * list ascii :=
  match cs with
  | c :: cs' =>
      if bool_decide (c = "+"%char) then (false, cs')
      else if bool_decide (c = "-"%char) then (true, cs')
      else (false, cs)
  | [] => (false, [])
  end.

(** The digits at the head of [cs], in the radix of [digit_of], and the
    text after them.  An underscore is passed over when a digit follows
    it, and is an error otherwise. *)
Fixpoint scan_digits (digit_of : ascii → option N) (cs : list ascii)
    : option (list N * list ascii) :=
  match cs with
  | [] => Some ([], [])
  | c :: cs' =>
      match digit_of c with
      | Some d =>
          '(ds, rest) ← scan_digits digit_of cs';
          Some (d :: ds, rest)
      | None =>
          if bool_decide (c = "_"%char) then
            match cs' with
            | c' :: _ =>
                if digit_of c' is Some _ then scan_digits digit_of cs' else None
            | [] => None
            end
          else Some ([], cs)
      end
  end.

(** The digits before and after the point of a decimal numeral, and the
    text after them; [have_dp] tells that the point has been passed.  A
    second point is an error, and so is an underscore next to the point. *)
Fixpoint scan_decimal (have_dp : bool) (cs : list ascii)
    : option (list N * list N * list ascii) :=
  match cs with
  | [] => Some ([], [], [])
  | c :: cs' =>
      match digit c with
      | Some d =>
          '(i, f, rest) ← scan_decimal have_dp cs';
          Some (if have_dp then (i, d :: f, rest) else (d :: i, f, rest))
      | None =>
          if bool_decide (c = "."%char) then
            if have_dp then None
            else
              match cs' with
              | c' :: _ =>
                  if bool_decide (c' = "_"%char) then None
                  else scan_decimal true cs'
              | [] => Some ([], [], [])
              end
          else if bool_decide (c = "_"%char) then
            match cs' with
            | c' :: _ => if digit c' is Some _ then scan_decimal have_dp cs' else None
            | [] => None
            end
          else Some ([], [], cs)
      end
  end.

(** The largest exponent the input takes. *)
Definition MAX_EXPONENT : N := 1073741823.

(** The most fraction digits a [numeric] value keeps. *)
Definition NUMERIC_DSCALE_MAX : Z := 16383.

(** An exponent part, [e] or [E], a sign and digits: its value, [0] when
    there is none, and the text after it. *)
Definition scan_exponent (cs : list ascii) : option (Z * list ascii) :=
  match cs with
  | c :: cs' =>
      if bool_decide (c = "e"%char ∨ c = "E"%char) then
        let '(negative, cs'') := sign cs' in
        match cs'' with
        | d :: _ =>
            if digit d is Some _ then
              '(ds, rest) ← scan_digits digit cs'';
              let e := digits_value 10 ds in
              if bool_decide (e ≤ MAX_EXPONENT)%N
              then Some (if negative then - Z.of_N e else Z.of_N e, rest)
              else None
            else None
        | [] => None
        end
      else Some (0, cs)
  | [] => Some (0, [])
  end.

(** [m * 10 ^ shift], rounded to an integer, a half going up.  [None]
    stands for a number that is not zero and is shifted by more than ten
    places: in hundredths it has more than ten digits whatever its own
    digits are, and the column does not take it. *)
Definition round_shift (m : N) (shift : Z) : option N :=
  if bool_decide (m = 0)%N then Some 0%N
  else if bool_decide (10 < shift) then None
  else if bool_decide (0 ≤ shift) then Some (m * 10 ^ Z.to_N shift)%N
  else
    let p := (10 ^ Z.to_N (- shift))%N in
    Some ((2 * m + p) `div` (2 * p))%N.

(** A decimal numeral at the head of [cs]: its absolute value in
    hundredths, rounded, and the text after it.  The numeral starts with a
    digit, or with a point that a digit follows; the value as written, its
    exponent applied, must not have more than [NUMERIC_DSCALE_MAX] fraction
    digits. *)
Definition decimal_magnitude (cs : list ascii) : option (N * list ascii) :=
  let '(have_dp, cs1) :=
    match cs with
    | c :: cs' => if bool_decide (c = "."%char) then (true, cs') else (false, cs)
    | [] => (false, [])
    end in
  match cs1 with
  | d :: _ =>
      if digit d is Some _ then
        '(i, f, rest) ← scan_decimal have_dp cs1;
        '(e, rest') ← scan_exponent rest;
        let dscale := Z.of_nat (length f) - e in
        if bool_decide (dscale ≤ NUMERIC_DSCALE_MAX) then
          cents ← round_shift (digits_value 10 (i ++ f)) (2 - dscale);
          Some (cents, rest')
        else None
      else None
  | [] => None
  end.

(** An integer in another base, after its prefix: at least one digit. *)
Definition integer_magnitude (digit_of : ascii → option N) (base : N)
    (cs : list ascii) : option (N * list ascii) :=
  '(ds, rest) ← scan_digits digit_of cs;
  match ds with
  | [] => None
  | _ => Some ((digits_value base ds * 100)%N, rest)
  end.

(** The number after the sign: the base is read off a prefix [0x], [0o]
    or [0b], in either case of the letter. *)
Definition magnitude (cs : list ascii) : option (N * list ascii) :=
  match cs with
  | zero :: x :: cs' =>
      if bool_decide (zero = "0"%char) then
        if bool_decide (x = "x"%char ∨ x = "X"%char)
        then integer_magnitude hex_digit 16 cs'
        else if bool_decide (x = "o"%char ∨ x = "O"%char)
        then integer_magnitude octal_digit 8 cs'
        else if bool_decide (x = "b"%char ∨ x = "B"%char)
        then integer_magnitude binary_digit 2 cs'
        else decimal_magnitude cs
      else decimal_magnitude cs
  | _ => decimal_magnitude cs
  end.

(** [NaN], in any case of its letters, without a sign; an infinity, which
    the input reads too, does not fit the column. *)
Definition not_a_number (cs : list ascii) : option Numeric.t :=
  match cs with
  | n :: a :: n' :: rest =>
      if bool_decide ((n = "n"%char ∨ n = "N"%char)
                      ∧ (a = "a"%char ∨ a = "A"%char)
                      ∧ (n' = "n"%char ∨ n' = "N"%char))
         && forallb is_space rest
      then Some Numeric.NaN else None
  | _ => None
  end.

Definition numeric_in (text : string) : option Numeric.t :=
  let cs := skip_spaces (String.list_ascii_of_string text) in
  let '(negative, number) := sign cs in
  match number with
  | c :: _ =>
      if bool_decide (is_Some (digit c) ∨ c = "."%char) then
        '(cents, rest) ← magnitude number;
        if forallb is_space rest && bool_decide (cents < 10000000000)%N
        then Some (Numeric.Finite
                     (if negative then - Z.of_N cents else Z.of_N cents))
        else None
      else not_a_number cs
  | [] => None
  end.

(** *** Input of a [timestamp] value

    A date reaches the database as the text [toISOString()] gives, which
    has a year of four digits from year 0 to year 9999 and a signed year
    of six digits outside; the database reads the years 1 to 9999 of it.
    [None] is the error for a date outside them. *)

(** [0001-01-01T00:00:00.000Z] and [9999-12-31T23:59:59.999Z]. *)
Definition TIMESTAMP_MIN : Z := -62135596800000.
Definition TIMESTAMP_MAX : Z := 253402300799999.

Definition timestamp_in (time : Z) : option Z :=
  if bool_decide (TIMESTAMP_MIN ≤ time ≤ TIMESTAMP_MAX) then Some time else None.

(** The three tables.  Of [users] only the primary keys matter here: the
    other tables reference them. *)
Record Db := mkDb {
  users : list string;
  subscriptions : list Subscription.t;
  userSettings : list UserSettings.t;
}.

End Pg.


(** ** server/storage.ts *)

Module Storage.
Import Pg.

(** [orderBy(subscriptions.nextPaymentDate)]: ascending by date. *)
Definition date_le (a b : Subscription.t) : Prop :=
  Subscription.nextPaymentDate a ≤ Subscription.nextPaymentDate b.

#[global] Instance date_le_dec : RelDecision date_le :=
  λ a b, decide (Subscription.nextPaymentDate a ≤ Subscription.nextPaymentDate b).

Definition orderBy_nextPaymentDate (rows : list Subscription.t) : list Subscription.t :=
  merge_sort date_le rows.

(** [where(and(eq(id, id), eq(userId, userId)))], shared by the three
    operations that address one subscription. *)
Definition by_id (id userId : string) (s : Subscription.t) : Prop :=
  Subscription.id s = id ∧ Subscription.userId s = userId.

#[global] Instance by_id_dec id userId s : Decision (by_id id userId s) :=
  and_dec _ _.

Definition getSubscriptions (db : Db) (userId : string) : list Subscription.t :=
  orderBy_nextPaymentDate
    (filter (λ s, Subscription.userId s = userId ∧ Subscription.isActive s = true)
       (subscriptions db)).

(** The largest [bigint], the type a [LIMIT] is read as. *)
Definition BIGINT_MAX : Z := 9223372036854775807.

(** [.limit(limit)]; [limit] is the argument of the call, after the
    default of the parameter.  The query builder writes the clause for a
    number that is at least [0] and leaves it out for any other ([NaN], a
    negative number); the database reads the number as a [bigint], and
    the query fails ([None]) for a number that is not one: a fraction, an
    infinity, an integer above [BIGINT_MAX].  (The number travels as its
    decimal text, which above [2^53] may name a neighbouring integer; no
    table has that many rows.) *)
Definition limit_rows (limit : Num.number) (rows : list Subscription.t)
    : option (list Subscription.t) :=
  if (0 <=? limit)%float then
    n ← Num.to_Z limit;
    if bool_decide (n ≤ BIGINT_MAX) then Some (take (Z.to_nat n) rows) else None
  else Some rows.

Definition getUpcomingSubscriptions (db : Db) (now : Z) (userId : string)
    (limit : Num.number) : option (list Subscription.t) :=
  limit_rows limit
    (orderBy_nextPaymentDate
       (filter (λ s, Subscription.userId s = userId
                     ∧ Subscription.isActive s = true
                     ∧ now ≤ Subscription.nextPaymentDate s)
          (subscriptions db))).

Definition getSubscription (db : Db) (id userId : string) : option Subscription.t :=
  head (filter (by_id id userId) (subscriptions db)).

(** [insert(subscriptions).values(subscription).returning()].  [uuid] is
    the value [gen_random_uuid()] yields for this row and [now] the
    server's clock.  [None] is a rejected statement: a missing value for a
    [notNull] column without default, an amount the numeric input or the
    column refuses, a date the timestamp input refuses, a duplicate
    primary key, or a [userId] that is not a user. *)
Definition createSubscription (db : Db) (uuid : string) (now : Z)
    (subscription : InsertSubscription.t) (userId : string)
    : option (Subscription.t * Db) :=
  name ← InsertSubscription.name subscription;
  amount_text ← InsertSubscription.amount subscription;
  amount ← numeric_in amount_text;
  billingPeriod ← InsertSubscription.billingPeriod subscription;
  date ← InsertSubscription.nextPaymentDate subscription;
  nextPaymentDate ← timestamp_in date;
  if decide (uuid ∈ Subscription.id <$> subscriptions db) then None
  else if decide (userId ∈ users db) then
    let newSubscription :=
      Subscription.mk uuid userId name amount
        (default "USD" (InsertSubscription.currency subscription))
        billingPeriod nextPaymentDate
        (default 3 (InsertSubscription.reminderDays subscription))
        (default None (InsertSubscription.description subscription))
        (default true (InsertSubscription.emailNotifications subscription))
        (default true (InsertSubscription.pushNotifications subscription))
        (default true (InsertSubscription.isActive subscription))
        (Some now) (Some now) in
    Some (newSubscription,
          mkDb (users db) (subscriptions db ++ [newSubscription]) (userSettings db))
  else None.

(** [set({ ...subscription, updatedAt: new Date() })] on one row: keys that
    are not supplied keep their value. *)
Definition set_subscription (now : Z) (v : InsertSubscription.t)
    (amount : option Numeric.t) (s : Subscription.t) : Subscription.t :=
  Subscription.mk (Subscription.id s) (Subscription.userId s)
    (default (Subscription.name s) (InsertSubscription.name v))
    (default (Subscription.amount s) amount)
    (default (Subscription.currency s) (InsertSubscription.currency v))
    (default (Subscription.billingPeriod s) (InsertSubscription.billingPeriod v))
    (default (Subscription.nextPaymentDate s) (InsertSubscription.nextPaymentDate v))
    (default (Subscription.reminderDays s) (InsertSubscription.reminderDays v))
    (default (Subscription.description s) (InsertSubscription.description v))
    (default (Subscription.emailNotifications s) (InsertSubscription.emailNotifications v))
    (default (Subscription.pushNotifications s) (InsertSubscription.pushNotifications v))
    (default (Subscription.isActive s) (InsertSubscription.isActive v))
    (Subscription.createdAt s) (Some now).

(** [update(subscriptions).set(...).where(...).returning()].  The values
    of the statement are read before any row is looked for: [None] is an
    amount or a date that the database refuses. *)
Definition updateSubscription (db : Db) (now : Z) (id userId : string)
    (subscription : InsertSubscription.t) : option (option Subscription.t * Db) :=
  amount ← match InsertSubscription.amount subscription with
            | None => Some None
            | Some text => Some <$> numeric_in text
            end;
  nextPaymentDate ← match InsertSubscription.nextPaymentDate subscription with
                     | None => Some None
                     | Some date => Some <$> timestamp_in date
                     end;
  let set := set_subscription now subscription amount in
  Some (head (set <$> filter (by_id id userId) (subscriptions db)),
        mkDb (users db)
          ((λ s, if decide (by_id id userId s) then set s else s) <$> subscriptions db)
          (userSettings db)).

(** [set({ isActive: false, updatedAt: new Date() })] on one row. *)
Definition set_inactive (now : Z) (s : Subscription.t) : Subscription.t :=
  Subscription.mk (Subscription.id s) (Subscription.userId s)
    (Subscription.name s) (Subscription.amount s) (Subscription.currency s)
    (Subscription.billingPeriod s) (Subscription.nextPaymentDate s)
    (Subscription.reminderDays s) (Subscription.description s)
    (Subscription.emailNotifications s) (Subscription.pushNotifications s)
    false (Subscription.createdAt s) (Some now).

Definition deleteSubscription (db : Db) (now : Z) (id userId : string) : bool * Db :=
  let rowCount := length (filter (by_id id userId) (subscriptions db)) in
  (bool_decide (0 < rowCount)%nat,
   mkDb (users db)
     ((λ s, if decide (by_id id userId s) then set_inactive now s else s)
        <$> subscriptions db)
     (userSettings db)).

Definition getUserSettings (db : Db) (userId : string) : option UserSettings.t :=
  head (filter (λ r, UserSettings.userId r = userId) (userSettings db)).

(** [set({ ...settings, updatedAt: new Date() })] on one settings row. *)
Definition set_settings (now : Z) (v : InsertUserSettings.t) (r : UserSettings.t)
    : UserSettings.t :=
  UserSettings.mk (UserSettings.id r) (UserSettings.userId r)
    (default (UserSettings.emailNotifications r) (InsertUserSettings.emailNotifications v))
    (default (UserSettings.pushNotifications r) (InsertUserSettings.pushNotifications v))
    (default (UserSettings.weeklySummary r) (InsertUserSettings.weeklySummary v))
    (default (UserSettings.darkMode r) (InsertUserSettings.darkMode v))
    (default (UserSettings.defaultCurrency r) (InsertUserSettings.defaultCurrency v))
    (UserSettings.createdAt r) (Some now).

(** [insert(userSettings).values({ ...settings, userId })
      .onConflictDoUpdate({ target: userSettings.userId, set: ... })]:
    when the user has a row it is updated, otherwise a row is inserted with
    the column defaults for the keys that are not supplied. *)
Definition upsertUserSettings (db : Db) (uuid : string) (now : Z)
    (userId : string) (settings : InsertUserSettings.t)
    : option (UserSettings.t * Db) :=
  match filter (λ r, UserSettings.userId r = userId) (userSettings db) with
  | existing :: _ =>
      Some (set_settings now settings existing,
            mkDb (users db) (subscriptions db)
              ((λ r, if decide (UserSettings.userId r = userId)
                     then set_settings now settings r else r) <$> userSettings db))
  | [] =>
      if decide (uuid ∈ UserSettings.id <$> userSettings db) then None
      else if decide (userId ∈ users db) then
        let userSetting :=
          UserSettings.mk uuid userId
            (default true (InsertUserSettings.emailNotifications settings))
            (default true (InsertUserSettings.pushNotifications settings))
            (default false (InsertUserSettings.weeklySummary settings))
            (default false (InsertUserSettings.darkMode settings))
            (default "USD" (InsertUserSettings.defaultCurrency settings))
            (Some now) (Some now) in
        Some (userSetting,
              mkDb (users db) (subscriptions db) (userSettings db ++ [userSetting]))
      else None
  end.

End Storage.

(** ** server/routes.ts *)

(** The statistics object of [GET /api/stats] (the client's [Stats]). *)
Record Stats := mkStats {
  totalSubscriptions : Num.number;
  monthlySpend : Num.number;
  yearlySpend : Num.number;
}.

Module Routes.
Import Pg.

(** What a handler sends: [res.status(s).json(body)], the error object
    [res.status(s).json({ message })] (with [errors] next to it for a
    [ZodError]), or [res.status(s).send()]. *)
Inductive response (A : Type) :=
  | Json (status : Z) (body : A)
  | Message (status : Z) (message : string)
  | Empty (status : Z).
Arguments Json {A} status body.
Arguments Message {A} status message.
Arguments Empty {A} status.

(** [userId] below is [req.user.claims.sub], the authenticated caller. *)

Definition get_subscriptions (db : Db) (userId : string)
    : response (list Subscription.t) :=
  Json 200 (Storage.getSubscriptions db userId).

(** [limit] is [parseInt(req.query.limit)], a number that may be [NaN],
    negative or beyond any integer type; it is [None] when the query has
    no [limit], or an empty one. *)
Definition get_upcoming (db : Db) (now : Z) (userId : string)
    (limit : option Num.number) : response (list Subscription.t) :=
  match Storage.getUpcomingSubscriptions db now userId (default 10%float limit) with
  | Some upcomingSubscriptions => Json 200 upcomingSubscriptions
  | None => Message 500 "Failed to fetch upcoming subscriptions"
  end.

Definition get_subscription (db : Db) (userId id : string)
    : response Subscription.t :=
  match Storage.getSubscription db id userId with
  | None => Message 404 "Subscription not found"
  | Some subscription => Json 200 subscription
  end.

Definition post_subscriptions (db : Db) (uuid : string) (now : Z)
    (userId : string) (body : gmap string jsval)
    : response Subscription.t * Db :=
  match Zod.insertSubscriptionSchema body with
  | None => (Message 400 "Invalid subscription data", db)
  | Some validatedData =>
      match Storage.createSubscription db uuid now validatedData userId with
      | Some (subscription, db') => (Json 201 subscription, db')
      | None => (Message 500 "Failed to create subscription", db)
      end
  end.

Definition put_subscription (db : Db) (now : Z) (userId id : string)
    (body : gmap string jsval) : response Subscription.t * Db :=
  match Zod.insertSubscriptionSchema_partial body with
  | None => (Message 400 "Invalid subscription data", db)
  | Some validatedData =>
      match Storage.updateSubscription db now id userId validatedData with
      | Some (Some subscription, db') => (Json 200 subscription, db')
      | Some (None, db') => (Message 404 "Subscription not found", db')
      | None => (Message 500 "Failed to update subscription", db)
      end
  end.

(** The handler of [DELETE /api/subscriptions/:id] around the call of the
    store: [deleted] is what the call returned, [None] when it threw and
    the [catch] branch answers. *)
Definition delete_handler (db : Db) (deleted : option (bool * Db))
    : response unit * Db :=
  match deleted with
  | Some (true, db') => (Empty 204, db')
  | Some (false, db') => (Message 404 "Subscription not found", db')
  | None => (Message 500 "Failed to delete subscription", db)
  end.

(** The statement of [deleteSubscription] breaks no constraint of the
    schema, so that a store that answers returns from it. *)
Definition delete_subscription (db : Db) (now : Z) (userId id : string)
    : response unit * Db :=
  delete_handler db (Some (Storage.deleteSubscription db now id userId)).



Definition put_settings (db : Db) (uuid : string) (now : Z) (userId : string)
    (body : gmap string jsval) : response UserSettings.t * Db :=
  match Zod.insertUserSettingsSchema body with
  | None => (Message 400 "Invalid settings data", db)
  | Some validatedData =>
      match Storage.upsertUserSettings db uuid now userId validatedData with
      | Some (settings, db') => (Json 200 settings, db')
      | None => (Message 500 "Failed to update settings", db)
      end
  end.

(** The two reductions of the statistics route, over the rows
    [getSubscriptions] returned. *)
Definition stats_monthlySpend (subscriptions : list Subscription.t) : Num.number :=
  fold_left (λ sum sub, (sum + Num.parseFloat (Subscription.amount sub))%float)
    (filter (λ sub, Subscription.billingPeriod sub = "monthly") subscriptions)
    0%float.

Definition stats_yearlySpend (subscriptions : list Subscription.t) : Num.number :=
  fold_left
    (λ sum sub,
       let amount := Num.parseFloat (Subscription.amount sub) in
       let period := Subscription.billingPeriod sub in
       if decide (period = "monthly") then (sum + amount * 12)%float
       else if decide (period = "yearly") then (sum + amount)%float
       else if decide (period = "weekly") then (sum + amount * 52)%float
       else if decide (period = "quarterly") then (sum + amount * 4)%float
       else (sum + amount)%float)
    subscriptions 0%float.

Definition stats_of (subscriptions : list Subscription.t) : Stats :=
  mkStats (Num.of_Z (Z.of_nat (length subscriptions)))
    (stats_monthlySpend subscriptions)
    (stats_yearlySpend subscriptions).

Definition get_stats (db : Db) (userId : string) : response Stats :=
  Json 200 (stats_of (Storage.getSubscriptions db userId)).

End Routes.

(** ** Days until a payment

    The computation the card and the subscriptions page share. *)

(** On the client a date is read back with [new Date(...).getTime()], an
    integer number of milliseconds.  Differences of two such counts and
    their quotients by a day are computed on integers here: below [2^53]
    the double arithmetic of the source is exact on the difference, and the
    rounded quotient has the same ceiling as the exact one. *)
Module Day.

Definition MS_PER_DAY : Z := 1000 * 60 * 60 * 24.

(** [Math.ceil(a / b)] for a positive [b]. *)
Definition ceil_div (a b : Z) : Z := - ((- a) `div` b).

(** [Math.ceil((paymentDate.getTime() - now.getTime()) / (1000*60*60*24))]. *)
Definition diffDays (now paymentDate : Z) : Z :=
  ceil_div (paymentDate - now) MS_PER_DAY.

End Day.

(** ** client/src/components/subscription-card.tsx *)

Module SubscriptionCard.

Record DueText := mkDueText { text : string; urgent : bool }.

Definition getDueText (now : Z) (subscription : Subscription.t) : DueText :=
  let paymentDate := Subscription.nextPaymentDate subscription in
  let diffDays := Day.diffDays now paymentDate in
  if decide (diffDays < 0) then mkDueText "Overdue" true
  else if decide (diffDays = 0) then mkDueText "Due today" true
  else if decide (diffDays = 1) then mkDueText "Due tomorrow" true
  else if decide (diffDays ≤ 7) then
    mkDueText ("Due in " +:+ pretty diffDays +:+ " days") false
  else
    mkDueText ("Due in " +:+ pretty (Day.ceil_div diffDays 7) +:+ " week"
                 +:+ (if decide (14 < diffDays) then "s" else ""))
      false.

End SubscriptionCard.

(** ** client/src/pages/subscriptions.tsx *)

Module SubscriptionsPage.

(** [subscriptions] is [None] while the query has no data. *)
Definition getTotalMonthlySpend (subscriptions : option (list Subscription.t))
    : Num.number :=
  match subscriptions with
  | None => 0%float
  | Some subscriptions =>
      fold_left (λ sum sub, (sum + Num.parseFloat (Subscription.amount sub))%float)
        (filter (λ sub, Subscription.billingPeriod sub = "monthly") subscriptions)
        0%float
  end.

Record Groups := mkGroups {
  active : list Subscription.t;
  upcoming : list Subscription.t;
}.

Definition groupSubscriptionsByStatus (now : Z)
    (subscriptions : option (list Subscription.t)) : Groups :=
  match subscriptions with
  | None => mkGroups [] []
  | Some subscriptions =>
      let upcoming :=
        filter (λ sub,
                  let diffDays := Day.diffDays now (Subscription.nextPaymentDate sub) in
                  diffDays ≤ 7 ∧ 0 ≤ diffDays) subscriptions in
      let active :=
        filter (λ sub,
                  let diffDays := Day.diffDays now (Subscription.nextPaymentDate sub) in
                  7 < diffDays ∨ diffDays < 0) subscriptions in
      mkGroups active upcoming
  end.

End SubscriptionsPage.

(** ** client/src/pages/analytics.tsx *)

Module Analytics.

(** [stats] is [None] while the query has no data. *)
Definition getAverageSpend (stats : option Stats) : Num.number :=
  match stats with
  | None => 0%float
  | Some stats =>
      if (totalSubscriptions stats =? 0)%float then 0%float
      else (monthlySpend stats / totalSubscriptions stats)%float
  end.

(** A quotient that reports a zero divisor, where the division of the
    language would answer an infinity or NaN. *)
Definition checked_div (x y : Num.number) : option Num.number :=
  if (y =? 0)%float then None else Some (x / y)%float.

(** [getAverageSpend] with its division made to report a zero divisor. *)
Definition getAverageSpend_checked (stats : option Stats) : option Num.number :=
  match stats with
  | None => Some 0%float
  | Some stats =>
      if (totalSubscriptions stats =? 0)%float then Some 0%float
      else checked_div (monthlySpend stats) (totalSubscriptions stats)
  end.

End Analytics.

(** ** Exact figures *)

(** The figures of the statistics as the specification words them, on
    exact integers: amounts in hundredths, summed without rounding. *)
Module Exact.

(** The multiplier table of the yearly figure; [custom], and any other
    text the column holds, counts once. *)
Definition multiplier (billingPeriod : string) : Z :=
  if decide (billingPeriod = "monthly") then 12
  else if decide (billingPeriod = "yearly") then 1
  else if decide (billingPeriod = "weekly") then 52
  else if decide (billingPeriod = "quarterly") then 4
  else 1.

Definition total (l : list Z) : Z := foldr Z.add 0 l.

(** The amount of a subscription in hundredths. *)
Definition cents (sub : Subscription.t) : Z :=
  Numeric.hundredths (Subscription.amount sub).

Definition monthly_cents (subscriptions : list Subscription.t) : Z :=
  total (cents
           <$> filter (λ sub, Subscription.billingPeriod sub = "monthly")
                 subscriptions).

Definition yearly_cents (subscriptions : list Subscription.t) : Z :=
  total ((λ sub, cents sub * multiplier (Subscription.billingPeriod sub))
           <$> subscriptions).

(** The sum of the absolute amounts, in hundredths. *)
Definition magnitude (subscriptions : list Subscription.t) : Z :=
  total ((λ sub, Z.abs (cents sub)) <$> subscriptions).

End Exact.

(** Integers in binary64: the number of binary digits of an integer and
    the canonical [spec_float] of an integer below [2^53]. *)
Module Binary64.

Definition digits (n : Z) : Z := Z.log2 (Z.abs n) + 1.

Definition of_int (n : Z) : spec_float :=
  match n with
  | Z0 => S754_zero false
  | _ => S754_finite (n <? 0) (Z.to_pos (Z.abs n * 2 ^ (53 - digits n)))
           (digits n - 53)
  end.

End Binary64.

(** ** Sample data *)

Module Examples.

Definition netflix_due (date : Z) : Subscription.t :=
  Subscription.mk "s1" "u1" "Netflix" 1599 "USD" "monthly" date 3 None
    true true true (Some 0) (Some 0).

Definition netflix : Subscription.t := netflix_due 432000000.

(** [netflix] after a soft delete at time [7]. *)
Definition netflix_deleted : Subscription.t := Storage.set_inactive 7 netflix.

Definition db_empty : Pg.Db := Pg.mkDb ["u1"] [] [].
Definition db_netflix : Pg.Db := Pg.mkDb ["u1"] [netflix] [].
Definition db_deleted : Pg.Db := Pg.mkDb ["u1"] [netflix_deleted] [].

(** [{ name: "Netflix", amount: "15.99", billingPeriod: "monthly",
       nextPaymentDate: <date 432000000> }]. *)
Definition netflix_body : gmap string jsval :=
  <["name" := JString "Netflix"]>
    (<["amount" := JString "15.99"]>
       (<["billingPeriod" := JString "monthly"]>
          (<["nextPaymentDate" := JDate (Some 432000000)]> ∅))).

(** The same request with an [isActive] key of its own. *)
Definition netflix_body_inactive : gmap string jsval :=
  <["isActive" := JBoolean false]> netflix_body.

(** A negative amount. *)
Definition refund_body : gmap string jsval :=
  <["amount" := JString "-5.00"]> netflix_body.

(** A billing period outside the five names. *)
Definition daily_body : gmap string jsval :=
  <["billingPeriod" := JString "daily"]> netflix_body.

(** A payment date sent as text, not as a date. *)
Definition text_date_body : gmap string jsval :=
  <["nextPaymentDate" := JString "2025-01-01"]> netflix_body.

Definition dark_mode_body : gmap string jsval :=
  <["darkMode" := JBoolean true]> ∅.

(** Rows of the given amounts (in hundredths) and periods. *)
Definition priced (amount : Z) (billingPeriod : string) : Subscription.t :=
  Subscription.mk "s" "u1" "Service" amount "USD" billingPeriod 0 3 None
    true true true (Some 0) (Some 0).

End Examples.

(** ** Reads of one user

    What the read operations return for [userId]: the four reads agree on
    two databases when every one of them answers the same on both. *)
Module View.

Definition reads_agree (userId : string) (db db' : Pg.Db) : Prop :=
  Storage.getSubscriptions db' userId = Storage.getSubscriptions db userId
  ∧ (∀ now limit,
       Storage.getUpcomingSubscriptions db' now userId limit
       = Storage.getUpcomingSubscriptions db now userId limit)
  ∧ (∀ id, Storage.getSubscription db' id userId
           = Storage.getSubscription db id userId)
  ∧ Storage.getUserSettings db' userId = Storage.getUserSettings db userId.

(** How an update treats one key of its body: a key that is left out
    keeps the [old] value, and a supplied key that reads as [a] makes [a]
    the [new] value. *)
Definition kept_or_set {A} (p : jsval → option A) (x : jsval) (old new : A) : Prop :=
  (x = JUndefined → new = old)
  ∧ (∀ a, x ≠ JUndefined → p x = Some a → new = a).

End View.

(** More sample data. *)
Module Samples.

(** Two active subscriptions of ["u1"], due at 500 and at 900, and one of
    ["u2"]. *)
Definition gym : Subscription.t :=
  Subscription.mk "s2" "u1" "Gym" 2500 "USD" "monthly" 900 3 None
    true true true (Some 0) (Some 0).
Definition news : Subscription.t :=
  Subscription.mk "s3" "u1" "News" 700 "USD" "weekly" 500 3 None
    true true true (Some 0) (Some 0).
Definition cloud : Subscription.t :=
  Subscription.mk "s4" "u2" "Cloud" 9900 "USD" "yearly" 700 3 None
    true true true (Some 0) (Some 0).

Definition db_two_users : Pg.Db := Pg.mkDb ["u1"; "u2"] [gym; news; cloud] [].

(** A table whose one row is due at time [0]. *)
Definition db_due_now : Pg.Db := Pg.mkDb ["u1"] [Examples.netflix_due 0] [].

(** [{ isActive: false }] and [{ isActive: true }]. *)
Definition deactivate_body : gmap string jsval := {["isActive" := JBoolean false]}.
Definition activate_body : gmap string jsval := {["isActive" := JBoolean true]}.

End Samples.

(** ** Constraints of the schema

    What [shared/schema.ts] declares of the tables: [id] is the primary
    key of [subscriptions] and of [user_settings], [user_settings.userId]
    is unique, both [userId] columns reference [users.id], and [amount] is
    a [decimal] of precision 10 and scale 2. *)
Module Constraints.

Definition holds (db : Pg.Db) : Prop :=
  NoDup (Subscription.id <$> Pg.subscriptions db)
  ∧ NoDup (UserSettings.id <$> Pg.userSettings db)
  ∧ NoDup (UserSettings.userId <$> Pg.userSettings db)
  ∧ Forall (λ s, Subscription.userId s ∈ Pg.users db) (Pg.subscriptions db)
  ∧ Forall (λ r, UserSettings.userId r ∈ Pg.users db) (Pg.userSettings db)
  ∧ Forall (λ s, Z.abs (Numeric.hundredths (Subscription.amount s)) < 10000000000)
      (Pg.subscriptions db).

#[global] Instance holds_dec (db : Pg.Db) : Decision (holds db) :=
  ltac:(unfold holds; exact _).

End Constraints.

(** ** Keys of the request schemas

    The keys [insertSubscriptionSchema] and [insertUserSettingsSchema]
    read: the columns of the table without the omitted [id], [userId],
    [createdAt] and [updatedAt]. *)
Module Shape.

Definition subscription_keys : list string :=
  ["name"; "amount"; "currency"; "billingPeriod"; "nextPaymentDate";
   "reminderDays"; "description"; "emailNotifications"; "pushNotifications";
   "isActive"].

Definition settings_keys : list string :=
  ["emailNotifications"; "pushNotifications"; "weeklySummary"; "darkMode";
   "defaultCurrency"].

End Shape.

(** ** client/src/pages/analytics.tsx: the breakdown by billing period *)

Module Breakdown.

(** The value kept for a period while the subscriptions are folded:
    [{ count, amount }]. *)
Record data := mkData { count : Num.number; amount : Num.number }.

(** A row of the result: [{ period, count, amount }]. *)
Record row := mkRow {
  period : string;
  row_count : Num.number;
  row_amount : Num.number;
}.

(** The five names the column comment of [billingPeriod] lists. *)
Definition periods : list string :=
  ["monthly"; "yearly"; "weekly"; "quarterly"; "custom"].

(** [acc[period]] on the accumulator, an object used as a map.  Its own
    keys are kept in the order they were added, the order [Object.entries]
    lists them in for keys that are not array indices.  The keys meant are
    period names such as the five above: a name that [Object.prototype]
    has a property for would read that property here. *)
Fixpoint get (acc : list (string * data)) (period : string) : option data :=
  match acc with
  | [] => None
  | (k, d) :: acc' => if decide (k = period) then Some d else get acc' period
  end.

(** [acc[period] = d]: an own key keeps its place, a new one goes last. *)
Fixpoint set (acc : list (string * data)) (period : string) (d : data)
    : list (string * data) :=
  match acc with
  | [] => [(period, d)]
  | (k, d') :: acc' =>
      if decide (k = period) then (k, d) :: acc' else (k, d') :: set acc' period d
  end.

(** One step of the [reduce]. *)
Definition step (acc : list (string * data)) (sub : Subscription.t)
    : list (string * data) :=
  let period := Subscription.billingPeriod sub in
  let acc := match get acc period with
             | None => set acc period (mkData 0%float 0%float)
             | Some _ => acc
             end in
  match get acc period with
  | Some d =>
      let d := mkData (count d + 1)%float (amount d) in
      set acc period
        (mkData (count d) (amount d + Num.parseFloat (Subscription.amount sub))%float)
  | None => acc
  end.

(** The subscriptions billed by [period], in the order of the list. *)
Definition of_period (period : string) (subscriptions : list Subscription.t)
    : list Subscription.t :=
  filter (λ sub, Subscription.billingPeriod sub = period) subscriptions.

(** [c.toUpperCase()] for a character of the ASCII range. *)
Definition toUpperCase (c : ascii) : ascii :=
  let n := N_of_ascii c in
  if bool_decide (97 ≤ n ≤ 122)%N then ascii_of_N (n - 32) else c.

(** [period.charAt(0).toUpperCase() + period.slice(1)]. *)
Definition capitalize (period : string) : string :=
  match period with
  | EmptyString => EmptyString
  | String c rest => String (toUpperCase c) rest
  end.

(** [subscriptions] is [None] while the query has no data. *)
Definition getBillingPeriodStats (subscriptions : option (list Subscription.t))
    : list row :=
  match subscriptions with
  | None => []
  | Some subscriptions =>
      let periods := fold_left step subscriptions [] in
      (λ '(period, d), mkRow (capitalize period) (count d) (amount d)) <$> periods
  end.

End Breakdown.

(** ** 32-bit integers

    The integers the bit operators of the language work on: [wrap] is the
    conversion [ToInt32] of an integer. *)
Module Int32.

Definition wrap (x : Z) : Z := (x + 2 ^ 31) `mod` 2 ^ 32 - 2 ^ 31.

(** [a << n], for [0 ≤ n < 32]. *)
Definition shl (a n : Z) : Z := wrap (Z.shiftl (wrap a) n).

(** [a & b]. *)
Definition and (a b : Z) : Z := wrap (Z.land (wrap a) (wrap b)).

End Int32.

(** ** client/src/components/subscription-card.tsx: the colour of a card *)

Module ServiceColor.

Definition colors : list string :=
  ["bg-red-500"; "bg-green-500"; "bg-blue-500"; "bg-yellow-500";
   "bg-purple-500"; "bg-pink-500"; "bg-indigo-500"; "bg-orange-500"].

(** The callback of the [reduce]; [b] is [b.charCodeAt(0)], a UTF-16 code
    unit.  The subtraction and the addition are on doubles, and exact: [a]
    and [a << 5] are 32-bit integers and [b] is below [2^16]. *)
Definition step (a b : Z) : Z :=
  let a := (Int32.shl a 5 - a) + b in
  Int32.and a a.

(** [name.split('').reduce(..., 0)], on the code units of [name]. *)
Definition hash (name : list Z) : Z := fold_left step name 0.

(** [colors[Math.abs(hash) % colors.length]]; [None] is the [undefined]
    an index outside the array reads. *)
Definition getServiceColor (name : list Z) : option string :=
  colors !! Z.to_nat (Z.abs (hash name) `mod` Z.of_nat (length colors)).

(** The polynomial [c0 * 31^(n-1) + ... + c(n-1)] of the code units. *)
Definition polynomial (name : list Z) : Z :=
  fold_left (λ a b, 31 * a + b) name 0.

End ServiceColor.

(** * Properties *)

(** ** Due dates *)

Lemma ceil_div_mul (k b : Z) : 0 < b → Day.ceil_div (k * b) b = k.
Proof.
  intros Hb. unfold Day.ceil_div.
  rewrite <- Z.mul_opp_l, Z.div_mul by lia. lia.
Qed.

Lemma diffDays_whole_days (now k : Z) :
  Day.diffDays now (now + k * Day.MS_PER_DAY) = k.
Proof.
  unfold Day.diffDays.
  replace (now + k * Day.MS_PER_DAY - now) with (k * Day.MS_PER_DAY) by lia.
  apply ceil_div_mul. reflexivity.
Qed.

(** The whole table of [getDueText], by the value of [diffDays]. *)
Lemma getDueText_table (now : Z) (s : Subscription.t) :
  let d := Day.diffDays now (Subscription.nextPaymentDate s) in
  let due := SubscriptionCard.getDueText now s in
  (d < 0 → due = SubscriptionCard.mkDueText "Overdue" true)
  ∧ (d = 0 → due = SubscriptionCard.mkDueText "Due today" true)
  ∧ (d = 1 → due = SubscriptionCard.mkDueText "Due tomorrow" true)
  ∧ (1 < d ≤ 7 →
     due = SubscriptionCard.mkDueText ("Due in " +:+ pretty d +:+ " days") false)
  ∧ (7 < d ≤ 14 →
     due = SubscriptionCard.mkDueText
             ("Due in " +:+ pretty (Day.ceil_div d 7) +:+ " week") false)
  ∧ (14 < d →
     due = SubscriptionCard.mkDueText
             ("Due in " +:+ pretty (Day.ceil_div d 7) +:+ " weeks") false).
Proof.
  intros d due. subst due. unfold SubscriptionCard.getDueText. fold d.
  repeat split; intros Hd; repeat case_decide; try lia; reflexivity.
Qed.

Example getDueText_examples (now : Z) :
  SubscriptionCard.getDueText now (Examples.netflix_due now)
  = SubscriptionCard.mkDueText "Due today" true
  ∧ SubscriptionCard.getDueText now (Examples.netflix_due (now + -1 * Day.MS_PER_DAY))
    = SubscriptionCard.mkDueText "Overdue" true
  ∧ SubscriptionCard.getDueText now (Examples.netflix_due (now + 5 * Day.MS_PER_DAY))
    = SubscriptionCard.mkDueText "Due in 5 days" false
  ∧ SubscriptionCard.getDueText now (Examples.netflix_due (now + 15 * Day.MS_PER_DAY))
    = SubscriptionCard.mkDueText "Due in 3 weeks" false.
Proof.
  unfold SubscriptionCard.getDueText. cbn [Examples.netflix_due Subscription.nextPaymentDate].
  rewrite !diffDays_whole_days.
  replace (Day.diffDays now now) with 0
    by (rewrite <- (diffDays_whole_days now 0) at 1; f_equal; lia).
  repeat split; reflexivity.
Qed.

(** C5, at the input where the code and the claim part: a payment date
    ten days after [now] gives [diffDays = 10], two weeks rounded up, and
    the plural is only added above fourteen days, so the label reads
    "Due in 2 week" where the claim says "Due in 2 weeks". *)
Theorem getDueText_ten_days (now : Z) (s : Subscription.t) :
  Subscription.nextPaymentDate s = now + 10 * Day.MS_PER_DAY →
  SubscriptionCard.getDueText now s
  = SubscriptionCard.mkDueText "Due in 2 week" false.
Proof.
  intros Hs.
  destruct (getDueText_table now s) as (_ & _ & _ & _ & Hweek & _).
  rewrite Hs, diffDays_whole_days in Hweek.
  rewrite Hweek by lia. reflexivity.
Qed.

Lemma getDueText_ten_days_witness :
  SubscriptionCard.getDueText 0 (Examples.netflix_due (10 * Day.MS_PER_DAY))
  = SubscriptionCard.mkDueText "Due in 2 week" false.
Proof. apply (getDueText_ten_days 0). reflexivity. Defined.

(** ** Grouping *)

Lemma due_this_week_complement (d : Z) : ¬ (d ≤ 7 ∧ 0 ≤ d) ↔ 7 < d ∨ d < 0.
Proof. lia. Qed.

(** C8: the two groups of [groupSubscriptionsByStatus] split the list:
    together they are a rearrangement of it (nothing omitted, nothing
    repeated), every member of [upcoming] has [0 <= diffDays <= 7] and is
    not in [active], and every member of [active] has [diffDays] outside
    that range and is not in [upcoming]. *)
Theorem groupSubscriptionsByStatus_partition
    (now : Z) (subscriptions : list Subscription.t) :
  let g := SubscriptionsPage.groupSubscriptionsByStatus now (Some subscriptions) in
  let d s := Day.diffDays now (Subscription.nextPaymentDate s) in
  SubscriptionsPage.upcoming g ++ SubscriptionsPage.active g ≡ₚ subscriptions
  ∧ Forall (λ s, 0 ≤ d s ≤ 7 ∧ s ∉ SubscriptionsPage.active g)
      (SubscriptionsPage.upcoming g)
  ∧ Forall (λ s, ¬ (0 ≤ d s ≤ 7) ∧ s ∉ SubscriptionsPage.upcoming g)
      (SubscriptionsPage.active g).
Proof.
  intros g d. subst g. cbn [SubscriptionsPage.groupSubscriptionsByStatus
    SubscriptionsPage.upcoming SubscriptionsPage.active].
  split; [|split].
  - erewrite (list_filter_iff (λ sub, 7 < _ ∨ _ < 0)).
    + apply filter_app_complement.
    + intros s. cbn. symmetry. apply due_this_week_complement.
  - apply Forall_forall. intros s [Hs _]%list_elem_of_filter. cbn in Hs.
    split; [unfold d; lia|].
    intros [Hs' _]%list_elem_of_filter. cbn in Hs'. lia.
  - apply Forall_forall. intros s [Hs _]%list_elem_of_filter. cbn in Hs.
    split; [unfold d; lia|].
    intros [Hs' _]%list_elem_of_filter. cbn in Hs'. lia.
Qed.

(** ** Average spend *)

Lemma number_positive_not_zero (t : Num.number) :
  (0 <? t)%float = true → (t =? 0)%float = false.
Proof.
  rewrite FloatAxioms.ltb_spec, FloatAxioms.eqb_spec.
  change (Prim2SF 0) with (S754_zero false).
  destruct (Prim2SF t) as [[]|[]| |[] m e]; cbn; congruence.
Qed.

(** C9: [getAverageSpend] is [0] without statistics and when
    [totalSubscriptions] is [0], it is [monthlySpend / totalSubscriptions]
    when [totalSubscriptions > 0], and its division never meets a zero
    divisor: computed with a division that reports one, it still returns
    its value, for every input. *)
Theorem getAverageSpend_guarded (stats : option Stats) :
  Analytics.getAverageSpend_checked stats = Some (Analytics.getAverageSpend stats)
  ∧ match stats with
    | None => Analytics.getAverageSpend stats = 0%float
    | Some st =>
        ((totalSubscriptions st =? 0)%float = true →
         Analytics.getAverageSpend stats = 0%float)
        ∧ ((0 <? totalSubscriptions st)%float = true →
           Analytics.getAverageSpend stats
           = (monthlySpend st / totalSubscriptions st)%float)
    end.
Proof.
  destruct stats as [st|]; cbn; [|done].
  unfold Analytics.checked_div.
  destruct (totalSubscriptions st =? 0)%float eqn:Hz.
  - split; [done|]. split; [done|].
    intros Hpos%number_positive_not_zero. congruence.
  - split; [done|]. split; [congruence|done].
Qed.

(** ** Reads of the subscription table *)

Lemma getSubscriptions_elem (db : Pg.Db) (userId : string) (s : Subscription.t) :
  s ∈ Storage.getSubscriptions db userId
  ↔ s ∈ Pg.subscriptions db
    ∧ Subscription.userId s = userId ∧ Subscription.isActive s = true.
Proof.
  unfold Storage.getSubscriptions, Storage.orderBy_nextPaymentDate.
  rewrite merge_sort_Permutation, list_elem_of_filter. tauto.
Qed.

(** What [.limit] answers is the rows, or the first of them. *)
Lemma limit_rows_Some (limit : Num.number) (rows upcoming : list Subscription.t) :
  Storage.limit_rows limit rows = Some upcoming →
  upcoming = rows ∨ ∃ n : nat, upcoming = take n rows.
Proof.
  unfold Storage.limit_rows. destruct (0 <=? limit)%float; [|intros [= <-]; by left].
  destruct (Num.to_Z limit) as [n|]; [|done]. cbn.
  case_bool_decide; [|done]. intros [= <-]. right. by eexists.
Qed.

Lemma limit_rows_subseteq (limit : Num.number) (rows upcoming : list Subscription.t) :
  Storage.limit_rows limit rows = Some upcoming → upcoming ⊆ rows.
Proof.
  intros [->|[n ->]]%limit_rows_Some; [done|]. apply subseteq_take.
Qed.

Lemma getUpcomingSubscriptions_elem (db : Pg.Db) (now : Z) (userId : string)
    (limit : Num.number) (upcoming : list Subscription.t) (s : Subscription.t) :
  Storage.getUpcomingSubscriptions db now userId limit = Some upcoming →
  s ∈ upcoming →
  s ∈ Pg.subscriptions db
  ∧ Subscription.userId s = userId ∧ Subscription.isActive s = true
  ∧ now ≤ Subscription.nextPaymentDate s.
Proof.
  unfold Storage.getUpcomingSubscriptions, Storage.orderBy_nextPaymentDate.
  intros Hrows%limit_rows_subseteq Hs. apply Hrows in Hs.
  rewrite merge_sort_Permutation, list_elem_of_filter in Hs. tauto.
Qed.

Lemma filter_none {A} (P : A → Prop) `{∀ x, Decision (P x)} (l : list A) :
  Forall (λ x, ¬ P x) l → filter P l = [].
Proof.
  induction 1 as [|x l Hx _ IH]; [done|].
  by rewrite filter_cons_False.
Qed.

Lemma filter_by_id_unique (l : list Subscription.t) (s : Subscription.t) :
  NoDup (Subscription.id <$> l) → s ∈ l →
  filter (Storage.by_id (Subscription.id s) (Subscription.userId s)) l = [s].
Proof.
  induction l as [|x l IH]; intros Hnd Hs; [by apply elem_of_nil in Hs|].
  rewrite fmap_cons in Hnd. apply NoDup_cons in Hnd as [Hx Hnd].
  apply elem_of_cons in Hs as [->|Hs].
  - rewrite filter_cons_True by done. f_equal.
    apply filter_none, Forall_forall. intros r Hr [Hid _].
    apply Hx, list_elem_of_fmap. eauto.
  - rewrite filter_cons_False; [by apply IH|].
    intros [Hid _]. apply Hx, list_elem_of_fmap. eauto.
Qed.

(** ** Soft delete *)

Lemma by_id_set_inactive (id userId : string) (now : Z) (s : Subscription.t) :
  Storage.by_id id userId (Storage.set_inactive now s) ↔ Storage.by_id id userId s.
Proof. done. Qed.

Lemma deleteSubscription_rows (db : Pg.Db) (now : Z) (id userId : string)
    (r : Subscription.t) :
  r ∈ Pg.subscriptions (Storage.deleteSubscription db now id userId).2 →
  Storage.by_id id userId r → Subscription.isActive r = false.
Proof.
  cbn. intros (x & -> & Hx)%list_elem_of_fmap Hr.
  case_decide; [done|]. contradiction.
Qed.

Lemma deleteSubscription_row (db : Pg.Db) (now : Z) (s : Subscription.t) :
  s ∈ Pg.subscriptions db →
  Storage.set_inactive now s
  ∈ Pg.subscriptions
      (Storage.deleteSubscription db now (Subscription.id s) (Subscription.userId s)).2.
Proof.
  intros Hs. cbn. apply list_elem_of_fmap. exists s. split; [|done].
  by rewrite decide_True.
Qed.

Lemma deleteSubscription_found (db : Pg.Db) (now : Z) (id userId : string)
    (s : Subscription.t) :
  s ∈ Pg.subscriptions db → Storage.by_id id userId s →
  (Storage.deleteSubscription db now id userId).1 = true.
Proof.
  intros Hs Hid. cbn. apply bool_decide_eq_true.
  assert (s ∈ filter (Storage.by_id id userId) (Pg.subscriptions db)) as Hin
    by by apply list_elem_of_filter.
  destruct (filter _ _); [by apply elem_of_nil in Hin|cbn; lia].
Qed.

Lemma deleted_not_listed (db : Pg.Db) (now : Z) (id userId : string)
    (r : Subscription.t) :
  r ∈ Storage.getSubscriptions (Storage.deleteSubscription db now id userId).2 userId →
  Subscription.id r ≠ id.
Proof.
  intros (Hr & Hu & Hactive)%getSubscriptions_elem Hid.
  apply deleteSubscription_rows in Hr; [congruence|done].
Qed.

(** C1, where the code and the claim part: [delete(id, u)] on a
    subscription of [u] returns [true] and leaves the row with
    [isActive = false], and afterwards no row with that id is in
    [list(u)], as the claim says; but a second [delete(id, u)] returns
    [true] again where the claim says [false], since the statement matches
    the row by [id] and [userId] only, without the test of [isActive] that
    both list queries make. *)
Theorem deleteSubscription_soft_delete
    (db : Pg.Db) (now now' : Z) (s : Subscription.t) :
  s ∈ Pg.subscriptions db →
  let id := Subscription.id s in
  let u := Subscription.userId s in
  let first := Storage.deleteSubscription db now id u in
  let second := Storage.deleteSubscription first.2 now' id u in
  first.1 = true
  ∧ Storage.set_inactive now s ∈ Pg.subscriptions first.2
  ∧ (∀ r, r ∈ Pg.subscriptions first.2 → Storage.by_id id u r →
          Subscription.isActive r = false)
  ∧ second.1 = true
  ∧ (∀ r, r ∈ Storage.getSubscriptions first.2 u → Subscription.id r ≠ id)
  ∧ (∀ r, r ∈ Storage.getSubscriptions second.2 u → Subscription.id r ≠ id).
Proof.
  intros Hs id u first second.
  pose proof (deleteSubscription_row db now s Hs) as Hrow.
  repeat split.
  - by apply (deleteSubscription_found db now id u s).
  - exact Hrow.
  - apply deleteSubscription_rows.
  - by apply (deleteSubscription_found _ now' id u (Storage.set_inactive now s)).
  - apply deleted_not_listed.
  - apply deleted_not_listed.
Qed.

Lemma deleteSubscription_soft_delete_witness :
  let first := Storage.deleteSubscription Examples.db_netflix 7 "s1" "u1" in
  let second := Storage.deleteSubscription first.2 8 "s1" "u1" in
  first.1 = true
  ∧ Examples.netflix_deleted ∈ Pg.subscriptions first.2
  ∧ (∀ r, r ∈ Pg.subscriptions first.2 → Storage.by_id "s1" "u1" r →
          Subscription.isActive r = false)
  ∧ second.1 = true
  ∧ (∀ r, r ∈ Storage.getSubscriptions first.2 "u1" → Subscription.id r ≠ "s1")
  ∧ (∀ r, r ∈ Storage.getSubscriptions second.2 "u1" → Subscription.id r ≠ "s1").
Proof.
  apply (deleteSubscription_soft_delete Examples.db_netflix 7 8 Examples.netflix).
  apply list_elem_of_singleton. reflexivity.
Defined.

(** The input at which C1 fails: for the active subscription ["s1"] of
    ["u1"], the first delete returns [true] and the second does not
    return [false]. *)
Lemma deleteSubscription_twice_counterexample :
  let first := Storage.deleteSubscription Examples.db_netflix 7 "s1" "u1" in
  let second := Storage.deleteSubscription first.2 8 "s1" "u1" in
  Examples.netflix ∈ Pg.subscriptions Examples.db_netflix
  ∧ Subscription.isActive Examples.netflix = true
  ∧ first.1 = true
  ∧ second.1 ≠ false.
Proof.
  cbv zeta. split; [apply list_elem_of_singleton; reflexivity|].
  split; [reflexivity|]. split; [reflexivity|]. vm_compute. discriminate.
Qed.

(** C2, where the code and the claim part: a subscription with
    [isActive = false] is in neither [list] nor [listUpcoming], but
    [get(id, userId)] still finds it, since [getSubscription] matches by
    [id] and [userId] only. *)
Theorem getSubscription_returns_inactive (db : Pg.Db) (s : Subscription.t) :
  NoDup (Subscription.id <$> Pg.subscriptions db) →
  s ∈ Pg.subscriptions db →
  Subscription.isActive s = false →
  Storage.getSubscription db (Subscription.id s) (Subscription.userId s) = Some s
  ∧ Routes.get_subscription db (Subscription.userId s) (Subscription.id s)
    = Routes.Json 200 s
  ∧ ¬ (s ∈ Storage.getSubscriptions db (Subscription.userId s))
  ∧ (∀ now limit upcoming,
       Storage.getUpcomingSubscriptions db now (Subscription.userId s) limit
       = Some upcoming →
       ¬ (s ∈ upcoming)).
Proof.
  intros Hnd Hs Hinactive.
  assert (Storage.getSubscription db (Subscription.id s) (Subscription.userId s)
          = Some s) as Hget.
  { unfold Storage.getSubscription. by rewrite filter_by_id_unique. }
  split; [exact Hget|]. split.
  - unfold Routes.get_subscription. by rewrite Hget.
  - split.
    + intros (_ & _ & Hactive)%getSubscriptions_elem. congruence.
    + intros now limit upcoming Hupcoming Hin.
      apply (getUpcomingSubscriptions_elem _ _ _ _ _ _ Hupcoming)
        in Hin as (_ & _ & Hactive & _).
      congruence.
Qed.

Lemma getSubscription_returns_inactive_witness :
  Storage.getSubscription Examples.db_deleted "s1" "u1" = Some Examples.netflix_deleted
  ∧ Routes.get_subscription Examples.db_deleted "u1" "s1"
    = Routes.Json 200 Examples.netflix_deleted
  ∧ ¬ (Examples.netflix_deleted ∈ Storage.getSubscriptions Examples.db_deleted "u1")
  ∧ (∀ now limit upcoming,
       Storage.getUpcomingSubscriptions Examples.db_deleted now "u1" limit
       = Some upcoming →
       ¬ (Examples.netflix_deleted ∈ upcoming)).
Proof.
  apply (getSubscription_returns_inactive Examples.db_deleted Examples.netflix_deleted).
  - apply NoDup_singleton.
  - apply list_elem_of_singleton. reflexivity.
  - reflexivity.
Defined.

(** ** Validation and creation *)

Example numeric_in_examples :
  Pg.numeric_in "15.99" = Some (Numeric.Finite 1599)
  ∧ Pg.numeric_in "-5.00" = Some (Numeric.Finite (-500))
  ∧ Pg.numeric_in "7" = Some (Numeric.Finite 700)
  ∧ Pg.numeric_in "1.005" = Some (Numeric.Finite 101)
  ∧ Pg.numeric_in "99999999.99" = Some (Numeric.Finite 9999999999)
  ∧ Pg.numeric_in "1e2" = Some (Numeric.Finite 10000)
  ∧ Pg.numeric_in " 5.00" = Some (Numeric.Finite 500)
  ∧ Pg.numeric_in ".5" = Some (Numeric.Finite 50)
  ∧ Pg.numeric_in "NaN" = Some Numeric.NaN
  ∧ Pg.numeric_in "nan " = Some Numeric.NaN
  ∧ Pg.numeric_in "-NaN" = None
  ∧ Pg.numeric_in "Infinity" = None
  ∧ Pg.numeric_in "99999999.995" = None
  ∧ Pg.numeric_in "100000000" = None
  ∧ Pg.numeric_in "1e" = None
  ∧ Pg.numeric_in "5 5" = None
  ∧ Pg.numeric_in "abc" = None
  ∧ Pg.numeric_in "" = None.
Proof. repeat split; vm_compute; reflexivity. Qed.

Lemma optional_isActive (v : jsval) (o : option bool) :
  Zod.optional Zod.z_boolean v = Some o →
  default true o = match v with JBoolean b => b | _ => true end.
Proof. destruct v; cbn; intros; simplify_eq; done. Qed.

Lemma insertSubscriptionSchema_isActive (body : gmap string jsval)
    (v : InsertSubscription.t) :
  Zod.insertSubscriptionSchema body = Some v →
  default true (InsertSubscription.isActive v)
  = match Zod.field body "isActive" with JBoolean b => b | _ => true end.
Proof.
  unfold Zod.insertSubscriptionSchema, Zod.subscription_shape.
  intros Hv. simplify_option_eq. cbn. by apply optional_isActive.
Qed.

(** What the schema of [create] needs of the four required keys. *)
Lemma insertSubscriptionSchema_required (body : gmap string jsval)
    (v : InsertSubscription.t) :
  Zod.insertSubscriptionSchema body = Some v →
  is_Some (Zod.z_string (Zod.field body "name"))
  ∧ is_Some (Zod.z_string (Zod.field body "amount"))
  ∧ is_Some (Zod.z_string (Zod.field body "billingPeriod"))
  ∧ is_Some (Zod.z_date (Zod.field body "nextPaymentDate")).
Proof.
  unfold Zod.insertSubscriptionSchema, Zod.subscription_shape, Zod.required.
  intros Hv. simplify_option_eq. eauto.
Qed.

Lemma optional_Some {A} (p : jsval → option A) (x : jsval) (o : option A) :
  Zod.optional p x = Some o → x = JUndefined ∨ is_Some (p x).
Proof.
  destruct x; cbn; intros Ho; eauto; right;
    (destruct (p _); [eauto|discriminate]).
Qed.

(** What the schema of [update] needs of the same keys: each is left out
    or well typed. *)
Lemma insertSubscriptionSchema_partial_supplied (body : gmap string jsval)
    (v : InsertSubscription.t) :
  Zod.insertSubscriptionSchema_partial body = Some v →
  (Zod.field body "name" = JUndefined
   ∨ is_Some (Zod.z_string (Zod.field body "name")))
  ∧ (Zod.field body "amount" = JUndefined
     ∨ is_Some (Zod.z_string (Zod.field body "amount")))
  ∧ (Zod.field body "billingPeriod" = JUndefined
     ∨ is_Some (Zod.z_string (Zod.field body "billingPeriod")))
  ∧ (Zod.field body "nextPaymentDate" = JUndefined
     ∨ is_Some (Zod.z_date (Zod.field body "nextPaymentDate"))).
Proof.
  unfold Zod.insertSubscriptionSchema_partial, Zod.subscription_shape.
  intros Hv. simplify_option_eq. eauto 10 using @optional_Some.
Qed.

Lemma schema_amount (req : ∀ A, (jsval → option A) → jsval → option (option A))
    (body : gmap string jsval) (v : InsertSubscription.t) (text : string) :
  (∀ A p x o, req A p x = Some o → Zod.optional p x = Some o ∨ Zod.required p x = Some o) →
  Zod.subscription_shape req body = Some v →
  Zod.field body "amount" = JString text →
  InsertSubscription.amount v = Some text.
Proof.
  unfold Zod.subscription_shape. intros Hreq Hv Htext.
  simplify_option_eq. cbn.
  match goal with H : req _ _ (Zod.field body "amount") = Some _ |- _ =>
    rewrite Htext in H; apply Hreq in H as [H|H]; cbn in H; by simplify_eq end.
Qed.

Lemma createSubscription_row (db db' : Pg.Db) (uuid : string) (now : Z)
    (v : InsertSubscription.t) (userId : string) (s : Subscription.t) :
  Storage.createSubscription db uuid now v userId = Some (s, db') →
  Subscription.id s = uuid
  ∧ Subscription.userId s = userId
  ∧ Subscription.createdAt s = Some now
  ∧ Subscription.updatedAt s = Some now
  ∧ Subscription.isActive s = default true (InsertSubscription.isActive v)
  ∧ ¬ (uuid ∈ Subscription.id <$> Pg.subscriptions db)
  ∧ Pg.subscriptions db' = Pg.subscriptions db ++ [s].
Proof.
  unfold Storage.createSubscription. intros Hc.
  simplify_option_eq. repeat case_decide; simplify_eq. done.
Qed.

(** A request the schema accepts is stored when the database reads its
    amount and its date, the generated id is new and the caller is a
    user. *)
Lemma post_subscriptions_accepts (db : Pg.Db) (uuid : string) (now : Z)
    (userId : string) (body : gmap string jsval) (text : string)
    (amount : Numeric.t) (date : Z) :
  is_Some (Zod.insertSubscriptionSchema body) →
  Zod.field body "amount" = JString text →
  Pg.numeric_in text = Some amount →
  Zod.field body "nextPaymentDate" = JDate (Some date) →
  Pg.TIMESTAMP_MIN ≤ date ≤ Pg.TIMESTAMP_MAX →
  ¬ (uuid ∈ Subscription.id <$> Pg.subscriptions db) →
  userId ∈ Pg.users db →
  ∃ s db',
    Routes.post_subscriptions db uuid now userId body = (Routes.Json 201 s, db')
    ∧ Subscription.amount s = amount
    ∧ Subscription.nextPaymentDate s = date.
Proof.
  intros [v Hv] Htext Hamount Hdate Hrange Hfresh Huser.
  unfold Routes.post_subscriptions. rewrite Hv.
  assert (InsertSubscription.amount v = Some text) as Hvamount.
  { apply (schema_amount (@Zod.required) body); [eauto|done..]. }
  unfold Zod.insertSubscriptionSchema, Zod.subscription_shape, Zod.required in Hv.
  assert (Pg.timestamp_in date = Some date) as Hstored.
  { unfold Pg.timestamp_in. by rewrite bool_decide_eq_true_2. }
  rewrite Hdate in Hv. unfold Storage.createSubscription.
  simplify_option_eq. cbn in *. simplify_eq.
  eexists _, _. split; done.
Qed.

(** C3, as the code has it: when the create endpoint answers with a
    subscription, the status is 201, the id is the one the server
    generated (not used by any row before), [createdAt] and [updatedAt]
    are the time of creation, the row has been added to the table, and
    [isActive] is the request's own [isActive] when it supplies a boolean
    one and [true] otherwise. *)
Theorem post_subscriptions_created (db db' : Pg.Db) (uuid : string) (now : Z)
    (userId : string) (body : gmap string jsval) (status : Z)
    (s : Subscription.t) :
  Routes.post_subscriptions db uuid now userId body = (Routes.Json status s, db') →
  status = 201
  ∧ Subscription.id s = uuid
  ∧ ¬ (uuid ∈ Subscription.id <$> Pg.subscriptions db)
  ∧ Subscription.userId s = userId
  ∧ Subscription.createdAt s = Some now
  ∧ Subscription.updatedAt s = Some now
  ∧ Pg.subscriptions db' = Pg.subscriptions db ++ [s]
  ∧ Subscription.isActive s
    = match Zod.field body "isActive" with JBoolean b => b | _ => true end.
Proof.
  unfold Routes.post_subscriptions. intros Hpost.
  destruct (Zod.insertSubscriptionSchema body) as [v|] eqn:Hv; [|done].
  destruct (Storage.createSubscription db uuid now v userId)
    as [[s' db'']|] eqn:Hc; [|done].
  simplify_eq.
  apply createSubscription_row in Hc as (? & ? & ? & ? & Hactive & ? & ?).
  rewrite (insertSubscriptionSchema_isActive body v Hv) in Hactive.
  done.
Qed.

Lemma post_subscriptions_created_witness :
  201 = 201
  ∧ Subscription.id Examples.netflix = "s1"
  ∧ ¬ ("s1" ∈ Subscription.id <$> Pg.subscriptions Examples.db_empty)
  ∧ Subscription.userId Examples.netflix = "u1"
  ∧ Subscription.createdAt Examples.netflix = Some 0
  ∧ Subscription.updatedAt Examples.netflix = Some 0
  ∧ Pg.subscriptions Examples.db_netflix
    = Pg.subscriptions Examples.db_empty ++ [Examples.netflix]
  ∧ Subscription.isActive Examples.netflix
    = match Zod.field Examples.netflix_body "isActive" with
      | JBoolean b => b
      | _ => true
      end.
Proof.
  apply (post_subscriptions_created Examples.db_empty Examples.db_netflix
           "s1" 0 "u1" Examples.netflix_body 201 Examples.netflix).
  vm_compute. reflexivity.
Defined.

(** C3 as stated fails for a request that carries [isActive: false]: it
    is accepted, and the subscription returned has [isActive = false]. *)
Lemma post_subscriptions_inactive_counterexample :
  let created :=
    Subscription.mk "s1" "u1" "Netflix" 1599 "USD" "monthly" 432000000 3 None
      true true false (Some 5) (Some 5) in
  Routes.post_subscriptions Examples.db_empty "s1" 5 "u1"
    Examples.netflix_body_inactive
  = (Routes.Json 201 created, Pg.mkDb ["u1"] [created] [])
  ∧ Subscription.isActive created = false.
Proof. split; vm_compute; reflexivity. Qed.

(** C4, as the code has it.  A create request in which [name], [amount],
    [billingPeriod] or [nextPaymentDate] is missing or not of its type
    (a string, a valid date) is answered 400 and the database is
    unchanged; so is an update request in which one of them is supplied
    and not of its type.  An amount that is a string the numeric input of
    the database refuses (text that is no number, a number of more than
    eight integer digits) fails in the store: the answer is an error and
    the database is unchanged.  The sign of the amount and the name of the
    billing period are not looked at. *)
Theorem writes_reject_ill_typed (db : Pg.Db) (uuid : string) (now : Z)
    (userId id : string) (body : gmap string jsval) :
  (Zod.z_string (Zod.field body "name") = None
   ∨ Zod.z_string (Zod.field body "amount") = None
   ∨ Zod.z_string (Zod.field body "billingPeriod") = None
   ∨ Zod.z_date (Zod.field body "nextPaymentDate") = None →
   Routes.post_subscriptions db uuid now userId body
   = (Routes.Message 400 "Invalid subscription data", db))
  ∧ ((Zod.field body "name" ≠ JUndefined
      ∧ Zod.z_string (Zod.field body "name") = None)
     ∨ (Zod.field body "amount" ≠ JUndefined
        ∧ Zod.z_string (Zod.field body "amount") = None)
     ∨ (Zod.field body "billingPeriod" ≠ JUndefined
        ∧ Zod.z_string (Zod.field body "billingPeriod") = None)
     ∨ (Zod.field body "nextPaymentDate" ≠ JUndefined
        ∧ Zod.z_date (Zod.field body "nextPaymentDate") = None) →
     Routes.put_subscription db now userId id body
     = (Routes.Message 400 "Invalid subscription data", db))
  ∧ (∀ text, Zod.field body "amount" = JString text →
       Pg.numeric_in text = None →
       (∃ status message,
          Routes.post_subscriptions db uuid now userId body
          = (Routes.Message status message, db) ∧ 400 ≤ status)
       ∧ (∃ status message,
            Routes.put_subscription db now userId id body
            = (Routes.Message status message, db) ∧ 400 ≤ status)).
Proof.
  split; [|split].
  - intros Hbad. unfold Routes.post_subscriptions.
    destruct (Zod.insertSubscriptionSchema body) as [v|] eqn:Hv; [|done].
    apply insertSubscriptionSchema_required in Hv
      as ([? Hn] & [? Ha] & [? Hp] & [? Hd]).
    destruct Hbad as [?|[?|[?|?]]]; congruence.
  - intros Hbad. unfold Routes.put_subscription.
    destruct (Zod.insertSubscriptionSchema_partial body) as [v|] eqn:Hv; [|done].
    apply insertSubscriptionSchema_partial_supplied in Hv
      as ([?|[? Hn]] & [?|[? Ha]] & [?|[? Hp]] & [?|[? Hd]]);
      destruct Hbad as [[]|[[]|[[]|[]]]]; congruence.
  - intros text Htext Hnum. split.
    + unfold Routes.post_subscriptions.
      destruct (Zod.insertSubscriptionSchema body) as [v|] eqn:Hv;
        [|eexists _, _; split; [done|lia]].
      assert (InsertSubscription.amount v = Some text) as Hamount.
      { apply (schema_amount (@Zod.required) body); [eauto|done..]. }
      unfold Storage.createSubscription. rewrite Hamount. cbn.
      destruct (InsertSubscription.name v); cbn;
        [rewrite Hnum; cbn|]; eexists _, _; (split; [done|lia]).
    + unfold Routes.put_subscription.
      destruct (Zod.insertSubscriptionSchema_partial body) as [v|] eqn:Hv;
        [|eexists _, _; split; [done|lia]].
      assert (InsertSubscription.amount v = Some text) as Hamount.
      { apply (schema_amount (@Zod.optional) body); [eauto|done..]. }
      unfold Storage.updateSubscription. rewrite Hamount, Hnum. cbn.
      eexists _, _; (split; [done|lia]).
Qed.

Lemma writes_reject_ill_typed_witness :
  Routes.post_subscriptions Examples.db_netflix "s2" 9 "u1" Examples.text_date_body
  = (Routes.Message 400 "Invalid subscription data", Examples.db_netflix)
  ∧ Routes.put_subscription Examples.db_netflix 9 "u1" "s1" Examples.text_date_body
    = (Routes.Message 400 "Invalid subscription data", Examples.db_netflix).
Proof.
  pose proof (writes_reject_ill_typed Examples.db_netflix "s2" 9 "u1" "s1"
                Examples.text_date_body) as (Hpost & Hput & _).
  split.
  - apply Hpost. right. right. right. reflexivity.
  - apply Hput. right. right. right. split; [discriminate|reflexivity].
Defined.

(** C4 as stated fails for a negative amount, and for a billing period
    outside the five names: each request is answered 201 and its row is
    stored. *)
Lemma post_subscriptions_negative_amount_counterexample :
  let refund :=
    Subscription.mk "s1" "u1" "Netflix" (-500) "USD" "monthly" 432000000 3 None
      true true true (Some 5) (Some 5) in
  let daily :=
    Subscription.mk "s1" "u1" "Netflix" 1599 "USD" "daily" 432000000 3 None
      true true true (Some 5) (Some 5) in
  Zod.field Examples.refund_body "amount" = JString "-5.00"
  ∧ Routes.post_subscriptions Examples.db_empty "s1" 5 "u1" Examples.refund_body
    = (Routes.Json 201 refund, Pg.mkDb ["u1"] [refund] [])
  ∧ Zod.field Examples.daily_body "billingPeriod" = JString "daily"
  ∧ Routes.post_subscriptions Examples.db_empty "s1" 5 "u1" Examples.daily_body
    = (Routes.Json 201 daily, Pg.mkDb ["u1"] [daily] []).
Proof. repeat split; vm_compute; reflexivity. Qed.

(** The amount is stored in whatever form the numeric input reads: with
    an exponent, with blanks around it, and as [NaN]. *)
Example post_subscriptions_amount_forms :
  let post text :=
    Routes.post_subscriptions Examples.db_empty "s1" 5 "u1"
      (<["amount" := JString text]> Examples.netflix_body) in
  let stored (amount : Numeric.t) :=
    Subscription.mk "s1" "u1" "Netflix" amount "USD" "monthly" 432000000 3 None
      true true true (Some 5) (Some 5) in
  post "1e2" = (Routes.Json 201 (stored 10000), Pg.mkDb ["u1"] [stored 10000] [])
  ∧ post " 5.00" = (Routes.Json 201 (stored 500), Pg.mkDb ["u1"] [stored 500] [])
  ∧ post "NaN"
    = (Routes.Json 201 (stored Numeric.NaN), Pg.mkDb ["u1"] [stored Numeric.NaN] [])
  ∧ post "12 dollars"
    = (Routes.Message 500 "Failed to create subscription", Examples.db_empty).
Proof. repeat split; vm_compute; reflexivity. Qed.

(** ** Settings *)

Lemma filter_fmap_update {A} (P : A → Prop) `{∀ x, Decision (P x)}
    (f : A → A) (l : list A) :
  (∀ x, P x → P (f x)) →
  filter P ((λ x, if decide (P x) then f x else x) <$> l) = f <$> filter P l.
Proof.
  intros Hf. induction l as [|x l IH]; [done|].
  rewrite fmap_cons. destruct (decide (P x)) as [Hx|Hx].
  - rewrite !filter_cons_True by auto. rewrite fmap_cons. by f_equal.
  - by rewrite !filter_cons_False.
Qed.





(** ** Binary64 arithmetic on integers

    The statistics add and multiply doubles.  The lemmas below follow
    [SpecFloat]'s rounding far enough to say when such an operation is
    exact: on integers, as long as operands and result stay below [2^53]. *)

Lemma digits2_pos_size (p : positive) : digits2_pos p = Pos.size p.
Proof. induction p; cbn; congruence. Qed.

Lemma Zdigits2_log2 (p : positive) : Zdigits2 (Z.pos p) = Z.log2 (Z.pos p) + 1.
Proof.
  cbn [Zdigits2]. rewrite digits2_pos_size.
  destruct p; cbn [Z.log2 Pos.size]; lia.
Qed.

Lemma Zdigits2_mul_pow2 (p q : positive) (n k : Z) :
  0 < n → 0 ≤ k → Z.pos p = n * 2 ^ k → Z.pos q = n →
  Zdigits2 (Z.pos p) = Zdigits2 (Z.pos q) + k.
Proof.
  intros Hn Hk Hp Hq. rewrite !Zdigits2_log2, Hp, Hq.
  rewrite Z.log2_mul_pow2 by lia. lia.
Qed.

Lemma iter_pos_shr_1_exact (p : positive) (c : Z) :
  0 ≤ c →
  SpecFloat.iter_pos shr_1 p {| shr_m := c * 2 ^ Z.pos p; shr_r := false; shr_s := false |}
  = {| shr_m := c; shr_r := false; shr_s := false |}.
Proof.
  assert (Hone : ∀ c, 0 ≤ c →
    shr_1 {| shr_m := c * 2; shr_r := false; shr_s := false |}
    = {| shr_m := c; shr_r := false; shr_s := false |}).
  { intros [|q|q] Hq; [done| |lia].
    replace (Z.pos q * 2) with (Z.pos q~0) by lia. done. }
  revert c. induction p as [p IH|p IH|]; intros c Hc; cbn [SpecFloat.iter_pos].
  - replace (c * 2 ^ Z.pos p~1) with (c * 2 ^ Z.pos p * 2 ^ Z.pos p * 2).
    + rewrite Hone, !IH by lia. done.
    + replace (Z.pos p~1) with (Z.pos p + Z.pos p + 1) by lia.
      rewrite !Z.pow_add_r, Z.pow_1_r by lia. ring.
  - replace (c * 2 ^ Z.pos p~0) with (c * 2 ^ Z.pos p * 2 ^ Z.pos p).
    + rewrite !IH by lia. done.
    + replace (Z.pos p~0) with (Z.pos p + Z.pos p) by lia.
      rewrite !Z.pow_add_r by lia. ring.
  - rewrite Z.pow_1_r. by apply Hone.
Qed.

Lemma fexp_normal (d : Z) : -1021 ≤ d → fexp prec emax d = d - 53.
Proof. unfold fexp, SpecFloat.emin, prec, emax. lia. Qed.

(** Rounding an integer below [2^53], given with trailing zeros enough to
    reach its canonical exponent, returns its canonical form. *)
Lemma binary_round_aux_int (s : bool) (p : positive) (n e : Z) :
  0 < n < 2 ^ 53 →
  e ≤ Binary64.digits n - 53 →
  Z.pos p = n * 2 ^ (- e) →
  binary_round_aux prec emax s (Z.pos p) e loc_Exact
  = S754_finite s (Z.to_pos (n * 2 ^ (53 - Binary64.digits n)))
      (Binary64.digits n - 53).
Proof.
  intros Hn He Hp.
  assert (1 ≤ Binary64.digits n ≤ 53) as Hd.
  { unfold Binary64.digits. rewrite Z.abs_eq by lia.
    pose proof (Z.log2_nonneg n).
    assert (Z.log2 n < 53) by (apply Z.log2_lt_pow2; lia). lia. }
  assert (Binary64.digits n = Z.log2 n + 1) as Hdn
    by (unfold Binary64.digits; rewrite Z.abs_eq by lia; done).
  set (d := Binary64.digits n) in *.
  assert (Zdigits2 (Z.pos p) + e = d) as Hdig.
  { rewrite Zdigits2_log2, Hp, Z.log2_mul_pow2 by lia. lia. }
  set (c := n * 2 ^ (53 - d)).
  assert (0 < c) as Hc by (apply Z.mul_pos_pos; [lia|apply Z.pow_pos_nonneg; lia]).
  assert (Zdigits2 c + (d - 53) = d) as Hdigc.
  { destruct c as [|q|q] eqn:Hq; [lia| |lia].
    rewrite Zdigits2_log2, <- Hq. unfold c.
    rewrite Z.log2_mul_pow2 by lia. lia. }
  assert (shr_fexp prec emax (Z.pos p) e loc_Exact
          = ({| shr_m := c; shr_r := false; shr_s := false |}, d - 53)) as Hshr.
  { unfold shr_fexp. rewrite Hdig, fexp_normal by lia. cbn [shr_record_of_loc].
    destruct (d - 53 - e) as [|k|k] eqn:Hk; [|cbn [shr]|lia].
    - cbn [shr]. f_equal; [|lia]. f_equal. rewrite Hp. unfold c.
      f_equal. f_equal. lia.
    - f_equal; [|lia].
      replace (Z.pos p) with (c * 2 ^ Z.pos k).
      + apply iter_pos_shr_1_exact. lia.
      + rewrite Hp. unfold c. rewrite <- Z.mul_assoc, <- Z.pow_add_r by lia.
        f_equal. f_equal. lia. }
  unfold binary_round_aux. rewrite Hshr.
  cbn [shr_m loc_of_shr_record round_nearest_even].
  unfold shr_fexp. rewrite Hdigc, fexp_normal, Z.sub_diag by lia.
  cbn [shr shr_record_of_loc shr_m].
  destruct c as [|q|q] eqn:Hq; [lia| |lia].
  rewrite (proj2 (Z.leb_le _ _)) by (unfold prec, emax; lia).
  done.
Qed.

Lemma shl_align_value (m : positive) (e e' : Z) :
  e' ≤ e →
  Z.pos (shl_align m e e').1 = Z.pos m * 2 ^ (e - e') ∧ (shl_align m e e').2 = e'.
Proof.
  intros He. unfold shl_align.
  destruct (e' - e) as [|k|k] eqn:Hk; cbn [fst snd]; [|lia|].
  - replace (e - e') with 0 by lia. split; lia.
  - split; [|done].
    rewrite (Pos.iter_swap_gen _ _ Z.pos xO (Z.mul 2)) by done.
    replace (e - e') with (Z.pos k) by lia.
    change (Pos.iter (Z.mul 2) (Z.pos m) k) with (Z.shiftl (Z.pos m) (Z.pos k)).
    by rewrite Z.shiftl_mul_pow2.
Qed.

Lemma shl_align_above (m : positive) (e e' : Z) :
  e ≤ e' → shl_align m e e' = (m, e).
Proof. intros He. unfold shl_align. destruct (e' - e) eqn:Hk; [done..|lia]. Qed.

Lemma digits_bounds (n : Z) :
  0 < n < 2 ^ 53 → Binary64.digits n = Z.log2 n + 1 ∧ 1 ≤ Binary64.digits n ≤ 53.
Proof.
  intros Hn. unfold Binary64.digits. rewrite Z.abs_eq by lia.
  pose proof (Z.log2_nonneg n).
  assert (Z.log2 n < 53) by (apply Z.log2_lt_pow2; lia). lia.
Qed.

(** The same for [binary_round], which first shifts left when the
    mantissa is short. *)
Lemma binary_round_int (s : bool) (p : positive) (n e : Z) :
  0 < n < 2 ^ 53 → e ≤ 0 → Z.pos p = n * 2 ^ (- e) →
  binary_round prec emax s p e
  = S754_finite s (Z.to_pos (n * 2 ^ (53 - Binary64.digits n)))
      (Binary64.digits n - 53).
Proof.
  intros Hn He Hp. destruct (digits_bounds n Hn) as [Hdn Hd].
  unfold binary_round.
  change (Z.pos (digits2_pos p)) with (Zdigits2 (Z.pos p)).
  assert (Zdigits2 (Z.pos p) + e = Binary64.digits n) as Hdig.
  { rewrite Zdigits2_log2, Hp, Z.log2_mul_pow2 by lia. lia. }
  rewrite Hdig, fexp_normal by lia.
  destruct (Z.le_gt_cases e (Binary64.digits n - 53)) as [Hle|Hgt].
  - rewrite shl_align_above by done. by apply binary_round_aux_int.
  - destruct (shl_align_value p e (Binary64.digits n - 53)) as [Hm He']; [lia|].
    destruct (shl_align p e (Binary64.digits n - 53)) as [m' e'].
    cbn [fst snd] in Hm, He'. subst e'.
    apply binary_round_aux_int; [done|lia|].
    rewrite Hm, Hp, <- Z.mul_assoc, <- Z.pow_add_r by lia.
    f_equal. f_equal. lia.
Qed.

Lemma binary_normalize_int (n : Z) :
  Z.abs n < 2 ^ 53 → binary_normalize prec emax n 0 false = Binary64.of_int n.
Proof.
  intros Hn. destruct n as [|p|p]; [done|..]; cbn [binary_normalize Binary64.of_int].
  - rewrite (binary_round_int false p (Z.pos p) 0) by lia. done.
  - rewrite (binary_round_int true p (Z.pos p) 0) by lia. done.
Qed.

(** [Num.of_Z] is the canonical form, below [2^53]. *)
Lemma of_Z_canonical (n : Z) :
  Z.abs n < 2 ^ 53 → Prim2SF (Num.of_Z n) = Binary64.of_int n.
Proof.
  intros Hn.
  assert (∀ p, Z.pos p < 2 ^ 53 →
            Prim2SF (of_uint63 (Uint63.of_Z (Z.pos p))) = Binary64.of_int (Z.pos p))
    as Hpos.
  { intros p Hp. rewrite of_uint63_spec, Uint63.of_Z_spec.
    rewrite Z.mod_small by (change wB with (2 ^ 63); lia).
    apply binary_normalize_int. lia. }
  destruct n as [|p|p]; cbn [Num.of_Z].
  - reflexivity.
  - apply Hpos. lia.
  - rewrite FloatAxioms.opp_spec, Hpos by lia. done.
Qed.

Lemma of_int_nonzero (n : Z) :
  n ≠ 0 →
  Binary64.of_int n
  = S754_finite (n <? 0) (Z.to_pos (Z.abs n * 2 ^ (53 - Binary64.digits n)))
      (Binary64.digits n - 53).
Proof. by destruct n. Qed.

Lemma digits_abs (n : Z) : Binary64.digits (Z.abs n) = Binary64.digits n.
Proof. unfold Binary64.digits. by rewrite Z.abs_idemp. Qed.

(** The mantissa of the canonical form, as an integer. *)
Lemma of_int_mantissa (n : Z) :
  n ≠ 0 → Z.abs n < 2 ^ 53 →
  Z.pos (Z.to_pos (Z.abs n * 2 ^ (53 - Binary64.digits n)))
  = Z.abs n * 2 ^ (53 - Binary64.digits n).
Proof.
  intros Hn Hb. destruct (digits_bounds (Z.abs n)) as [_ Hd]; [lia|].
  rewrite digits_abs in Hd. apply Z2Pos.id.
  apply Z.mul_pos_pos; [lia|apply Z.pow_pos_nonneg; lia].
Qed.

Lemma binary_normalize_scaled (n e : Z) :
  Z.abs n < 2 ^ 53 → e ≤ 0 →
  binary_normalize prec emax (n * 2 ^ (- e)) e false = Binary64.of_int n.
Proof.
  intros Hn He.
  assert (0 < 2 ^ (- e)) as Hpow by (apply Z.pow_pos_nonneg; lia).
  destruct n as [|q|q].
  - done.
  - destruct (Z.pos q * 2 ^ (- e)) as [|p|p] eqn:Hp; [lia| |lia].
    cbn [binary_normalize]. rewrite (binary_round_int false p (Z.pos q) e) by lia.
    done.
  - destruct (Z.neg q * 2 ^ (- e)) as [|p|p] eqn:Hp; [lia|lia|].
    cbn [binary_normalize]. rewrite (binary_round_int true p (Z.pos q) e) by lia.
    done.
Qed.

Lemma cond_Zopp_abs (n x : Z) : cond_Zopp (n <? 0) (Z.abs n * x) = n * x.
Proof. destruct (Z.ltb_spec n 0); cbn [cond_Zopp]; lia. Qed.

(** Sums of integers are exact while they stay below [2^53]. *)
Lemma SFadd_int (a b : Z) :
  Z.abs a < 2 ^ 53 → Z.abs b < 2 ^ 53 → Z.abs (a + b) < 2 ^ 53 →
  SFadd prec emax (Binary64.of_int a) (Binary64.of_int b) = Binary64.of_int (a + b).
Proof.
  intros Ha Hb Hab.
  destruct (decide (a = 0)) as [->|Ha0]; [by destruct b|].
  destruct (decide (b = 0)) as [->|Hb0]; [rewrite Z.add_0_r; by destruct a|].
  rewrite (of_int_nonzero a), (of_int_nonzero b) by done. cbn [SFadd].
  destruct (digits_bounds (Z.abs a)) as [_ Hda]; [lia|].
  destruct (digits_bounds (Z.abs b)) as [_ Hdb]; [lia|].
  rewrite digits_abs in Hda, Hdb.
  set (ez := Z.min (Binary64.digits a - 53) (Binary64.digits b - 53)).
  destruct (shl_align_value (Z.to_pos (Z.abs a * 2 ^ (53 - Binary64.digits a)))
              (Binary64.digits a - 53) ez) as [Hma _]; [lia|].
  destruct (shl_align_value (Z.to_pos (Z.abs b * 2 ^ (53 - Binary64.digits b)))
              (Binary64.digits b - 53) ez) as [Hmb _]; [lia|].
  rewrite Hma, Hmb, !of_int_mantissa by done.
  rewrite <- !Z.mul_assoc, <- !Z.pow_add_r by lia.
  replace (53 - Binary64.digits a + (Binary64.digits a - 53 - ez)) with (- ez) by lia.
  replace (53 - Binary64.digits b + (Binary64.digits b - 53 - ez)) with (- ez) by lia.
  rewrite !cond_Zopp_abs, <- Z.mul_add_distr_r.
  apply binary_normalize_scaled; lia.
Qed.

Lemma ltb_mul_pos (a b : Z) : 0 < b → (a * b <? 0) = (a <? 0).
Proof. intros Hb. destruct (Z.ltb_spec (a * b) 0), (Z.ltb_spec a 0); [done|nia..|done]. Qed.

(** Products of an integer and a positive integer are exact below [2^53]. *)
Lemma SFmul_int (a b : Z) :
  0 < b → Z.abs (a * b) < 2 ^ 53 →
  SFmul prec emax (Binary64.of_int a) (Binary64.of_int b) = Binary64.of_int (a * b).
Proof.
  intros Hb Hab.
  destruct (decide (a = 0)) as [->|Ha0]; [by destruct b|].
  assert (Z.abs a < 2 ^ 53 ∧ b < 2 ^ 53) as [Ha Hb'].
  { rewrite Z.abs_mul, (Z.abs_eq b) in Hab by lia.
    revert Hab. generalize (2 ^ 53). intros P HP. nia. }
  rewrite (of_int_nonzero a), (of_int_nonzero b), (of_int_nonzero (a * b)) by lia.
  cbn [SFmul].
  destruct (digits_bounds (Z.abs a)) as [Hla Hda]; [lia|].
  destruct (digits_bounds b) as [Hlb Hdb]; [lia|].
  destruct (digits_bounds (Z.abs (a * b))) as [Hlab Hdab]; [lia|].
  rewrite digits_abs in Hla, Hda, Hlab, Hdab.
  pose proof (Z.log2_mul_below (Z.abs a) b) as Hbelow.
  rewrite Z.abs_mul, (Z.abs_eq b) in Hlab by lia.
  rewrite (binary_round_aux_int _ _ (Z.abs (a * b))).
  - rewrite digits_abs, ltb_mul_pos, (proj2 (Z.ltb_ge b 0)) by lia.
    by rewrite xorb_false_r.
  - lia.
  - rewrite digits_abs. lia.
  - rewrite Pos2Z.inj_mul, !of_int_mantissa by lia.
    rewrite (Z.abs_eq b), Z.abs_mul, (Z.abs_eq b) by lia.
    replace (- (Binary64.digits a - 53 + (Binary64.digits b - 53)))
      with ((53 - Binary64.digits a) + (53 - Binary64.digits b)) by lia.
    rewrite Z.pow_add_r by lia. ring.
Qed.

Lemma of_int_100 : Binary64.of_int 100 = S754_finite false (100 * 2 ^ 46) (-46).
Proof. reflexivity. Qed.

(** Whole amounts survive the division by [100]. *)
Lemma SFdiv_int_100 (n : Z) :
  Z.abs (100 * n) < 2 ^ 53 →
  SFdiv prec emax (Binary64.of_int (100 * n)) (Binary64.of_int 100)
  = Binary64.of_int n.
Proof.
  intros Hn.
  destruct (decide (n = 0)) as [->|Hn0]; [done|].
  rewrite (of_int_nonzero (100 * n)), of_int_100, (of_int_nonzero n) by lia.
  cbn [SFdiv].
  destruct (digits_bounds (Z.abs (100 * n))) as [HlD HD]; [lia|].
  destruct (digits_bounds (Z.abs n)) as [Hln Hdn]; [lia|].
  rewrite digits_abs in HlD, HD, Hln, Hdn.
  set (D := Binary64.digits (100 * n)) in *.
  set (d := Binary64.digits n) in *.
  assert (d + 6 ≤ D ≤ d + 7) as HDd.
  { pose proof (Z.log2_mul_below 100 (Z.abs n)) as Hlo.
    pose proof (Z.log2_mul_above 100 (Z.abs n)) as Hhi.
    change (Z.log2 100) with 6 in Hlo, Hhi.
    rewrite Z.abs_mul in HlD. change (Z.abs 100) with 100 in HlD. lia. }
  set (m1 := Z.to_pos (Z.abs (100 * n) * 2 ^ (53 - D))).
  assert (Z.pos m1 = Z.abs n * 100 * 2 ^ (53 - D)) as Hm1.
  { unfold m1. rewrite of_int_mantissa by lia. rewrite Z.abs_mul.
    change (Z.abs 100) with 100. fold D. ring. }
  assert (Zdigits2 (Z.pos m1) = 53) as Hd1.
  { rewrite Zdigits2_log2, Hm1, Z.log2_mul_pow2 by lia.
    replace (Z.abs n * 100) with (Z.abs (100 * n)) by (rewrite Z.abs_mul; lia).
    lia. }
  unfold SFdiv_core_binary. rewrite Hd1.
  change (Zdigits2 (Z.pos (100 * 2 ^ 46))) with 53.
  replace (53 + (D - 53) - (53 + -46)) with (D - 7) by lia.
  rewrite fexp_normal by lia.
  replace (Z.min (D - 7 - 53) (D - 53 - -46)) with (D - 60) by lia.
  replace (D - 53 - -46 - (D - 60)) with 53 by lia.
  rewrite Z.shiftl_mul_pow2 by lia.
  assert (Z.pos m1 * 2 ^ 53 = Z.abs n * 2 ^ (60 - D) * Z.pos (100 * 2 ^ 46)) as Hm'.
  { rewrite Hm1. change (Z.pos (100 * 2 ^ 46)) with (100 * 2 ^ 46).
    replace (60 - D) with ((53 - D) + 7) by lia.
    rewrite Z.pow_add_r by lia. ring. }
  assert (Z.div_eucl (Z.pos m1 * 2 ^ 53) (Z.pos (100 * 2 ^ 46))
          = (Z.abs n * 2 ^ (60 - D), 0)) as Hdiv.
  { rewrite Hm'.
    pose proof (Z.div_mul (Z.abs n * 2 ^ (60 - D)) (Z.pos (100 * 2 ^ 46))) as Hq.
    pose proof (Z.mod_mul (Z.abs n * 2 ^ (60 - D)) (Z.pos (100 * 2 ^ 46))) as Hr.
    unfold Z.div, Z.modulo in Hq, Hr.
    destruct (Z.div_eucl _ _) as [q r]. cbn [fst snd] in Hq, Hr.
    rewrite Hq, Hr by done. done. }
  rewrite Hdiv.
  change (new_location (Z.pos (100 * 2 ^ 46)) 0) with loc_Exact.
  assert (0 < Z.abs n * 2 ^ (60 - D)) as Hqpos
    by (apply Z.mul_pos_pos; [lia|apply Z.pow_pos_nonneg; lia]).
  destruct (Z.abs n * 2 ^ (60 - D)) as [|q|q] eqn:Hq; [lia| |lia].
  rewrite (binary_round_aux_int _ q (Z.abs n)).
  - rewrite digits_abs. fold d.
    rewrite (Z.mul_comm 100 n), ltb_mul_pos, xorb_false_r by lia. done.
  - lia.
  - rewrite digits_abs. fold d. lia.
  - rewrite <- Hq. f_equal. f_equal. lia.
Qed.

(** Multiplying by [1] changes no double. *)
Lemma number_mul_1_r (x : Num.number) : (x * 1)%float = x.
Proof.
  apply Prim2SF_inj. rewrite FloatAxioms.mul_spec.
  change (Prim2SF 1) with (S754_finite false (2 ^ 52) (-52)).
  pose proof (Prim2SF_valid x) as Hvalid.
  destruct (Prim2SF x) as [[]|[]| |s m e]; try reflexivity.
  cbn [SpecFloat.valid_binary] in Hvalid.
  apply andb_prop in Hvalid as [Hcanon Hmax].
  apply Z.eqb_eq in Hcanon. apply Z.leb_le in Hmax.
  change (Z.pos (digits2_pos m)) with (Zdigits2 (Z.pos m)) in Hcanon.
  unfold SF64mul. cbn [SFmul]. rewrite xorb_false_r.
  assert (Zdigits2 (Z.pos (m * 2 ^ 52)) = Zdigits2 (Z.pos m) + 52) as Hdig.
  { rewrite !Zdigits2_log2, Pos2Z.inj_mul.
    change (Z.pos (2 ^ 52)) with (2 ^ 52). rewrite Z.log2_mul_pow2 by lia. lia. }
  unfold binary_round_aux, shr_fexp. rewrite Hdig.
  replace (Zdigits2 (Z.pos m) + 52 + (e + -52)) with (Zdigits2 (Z.pos m) + e) by lia.
  rewrite Hcanon. replace (e - (e + -52)) with 52 by lia.
  cbn [shr shr_record_of_loc]. rewrite Pos2Z.inj_mul.
  change (Z.pos (2 ^ 52)) with (2 ^ 52).
  rewrite (iter_pos_shr_1_exact 52 (Z.pos m)) by lia.
  cbn [shr_m loc_of_shr_record round_nearest_even].
  replace (e + -52 + 52) with e by lia.
  rewrite Hcanon, Z.sub_diag. cbn [shr shr_record_of_loc shr_m].
  by rewrite (proj2 (Z.leb_le _ _)).
Qed.

Lemma of_Z_add (a b : Z) :
  Z.abs a < 2 ^ 53 → Z.abs b < 2 ^ 53 → Z.abs (a + b) < 2 ^ 53 →
  (Num.of_Z a + Num.of_Z b)%float = Num.of_Z (a + b).
Proof.
  intros Ha Hb Hab. apply Prim2SF_inj.
  rewrite FloatAxioms.add_spec, !of_Z_canonical by done. by apply SFadd_int.
Qed.

Lemma of_Z_mul (a b : Z) :
  0 < b < 2 ^ 53 → Z.abs (a * b) < 2 ^ 53 →
  (Num.of_Z a * Num.of_Z b)%float = Num.of_Z (a * b).
Proof.
  intros Hb Hab.
  assert (Z.abs a < 2 ^ 53) as Ha.
  { rewrite Z.abs_mul, (Z.abs_eq b) in Hab by lia.
    revert Hab. generalize (2 ^ 53). intros P HP. nia. }
  apply Prim2SF_inj.
  rewrite FloatAxioms.mul_spec, !of_Z_canonical by lia. apply SFmul_int; lia.
Qed.

(** [parseFloat] is exact on an amount without hundredths. *)
Lemma parseFloat_whole (n : Z) :
  Z.abs (100 * n) < 2 ^ 53 → Num.parseFloat (100 * n) = Num.of_Z n.
Proof.
  intros Hn. unfold Num.parseFloat. apply Prim2SF_inj.
  change 100%float with (Num.of_Z 100).
  rewrite FloatAxioms.div_spec, !of_Z_canonical by lia. by apply SFdiv_int_100.
Qed.

Lemma is_cents_of_Z (n : Z) :
  Z.abs n < 2 ^ 53 → Num.is_cents (Num.of_Z n) (100 * n).
Proof.
  intros Hn. unfold Num.is_cents. rewrite of_Z_canonical by done.
  destruct (decide (n = 0)) as [->|Hn0]; [done|].
  rewrite of_int_nonzero by done.
  destruct (digits_bounds (Z.abs n)) as [_ Hd]; [lia|]. rewrite digits_abs in Hd.
  rewrite of_int_mantissa, cond_Zopp_abs by done.
  case_bool_decide as He.
  - replace (Binary64.digits n) with 53 by lia. cbn. lia.
  - replace (- (Binary64.digits n - 53)) with (53 - Binary64.digits n) by lia.
    ring.
Qed.

(** ** Statistics *)

Lemma fold_left_pointwise {A B} (f g : A → B → A) (l : list B) (a : A) :
  (∀ a x, f a x = g a x) → fold_left f l a = fold_left g l a.
Proof. intros Hfg. revert a. induction l as [|x l IH]; intros a; cbn; [done|]. by rewrite Hfg. Qed.

Lemma fold_left_fmap_sum {B} (t : B → Num.number) (l : list B) (a : Num.number) :
  fold_left (λ sum x, (sum + t x)%float) l a
  = fold_left (λ sum y, (sum + y)%float) (t <$> l) a.
Proof. revert a. induction l as [|x l IH]; intros a; cbn; [done|]. apply IH. Qed.

(** One step of the yearly reduction adds the amount times its
    multiplier. *)
Lemma yearly_step (sum : Num.number) (sub : Subscription.t) :
  (let amount := Num.parseFloat (Subscription.amount sub) in
   let period := Subscription.billingPeriod sub in
   if decide (period = "monthly") then (sum + amount * 12)%float
   else if decide (period = "yearly") then (sum + amount)%float
   else if decide (period = "weekly") then (sum + amount * 52)%float
   else if decide (period = "quarterly") then (sum + amount * 4)%float
   else (sum + amount)%float)
  = (sum + Num.parseFloat (Subscription.amount sub)
           * Num.of_Z (Exact.multiplier (Subscription.billingPeriod sub)))%float.
Proof.
  cbv zeta. unfold Exact.multiplier.
  repeat case_decide; try reflexivity;
    change (Num.of_Z 1) with 1%float; by rewrite number_mul_1_r.
Qed.

Lemma total_cons (x : Z) (l : list Z) : Exact.total (x :: l) = x + Exact.total l.
Proof. reflexivity. Qed.

Lemma magnitude_cons (s : Subscription.t) (l : list Subscription.t) :
  Exact.magnitude (s :: l) = Z.abs (Exact.cents s) + Exact.magnitude l.
Proof. reflexivity. Qed.

Lemma magnitude_nonneg (l : list Subscription.t) : 0 ≤ Exact.magnitude l.
Proof.
  induction l as [|x l IH]; [done|]. rewrite magnitude_cons. lia.
Qed.

Lemma magnitude_filter (P : Subscription.t → Prop) `{∀ x, Decision (P x)}
    (l : list Subscription.t) :
  Exact.magnitude (filter P l) ≤ Exact.magnitude l.
Proof.
  induction l as [|x l IH]; [done|].
  rewrite filter_cons. case_decide; rewrite !magnitude_cons; lia.
Qed.

(** A whole amount is a decimal, of a multiple of a hundred hundredths. *)
Lemma whole_amount (s : Subscription.t) :
  Numeric.whole (Subscription.amount s) →
  Subscription.amount s = Numeric.Finite (Exact.cents s)
  ∧ Exact.cents s `mod` 100 = 0.
Proof.
  unfold Exact.cents. by destruct (Subscription.amount s).
Qed.

(** A reduction that adds, for each row, the amount times a weight
    between 1 and 52 is exact on whole amounts: started from the integer
    [A] it ends in the integer [T] with [100 T = 100 A + sum]. *)
Lemma weighted_fold_exact (w : Subscription.t → Z)
    (step : Num.number → Subscription.t → Num.number) :
  (∀ s, 1 ≤ w s ≤ 52) →
  (∀ acc s, step acc s
            = (acc + Num.parseFloat (Subscription.amount s) * Num.of_Z (w s))%float) →
  ∀ (l : list Subscription.t) (A : Z),
    Forall (λ s, Numeric.whole (Subscription.amount s)) l →
    100 * Z.abs A + 52 * Exact.magnitude l < 2 ^ 53 →
    ∃ T, fold_left step l (Num.of_Z A) = Num.of_Z T
         ∧ 100 * T = 100 * A + Exact.total ((λ s, Exact.cents s * w s) <$> l)
         ∧ Z.abs T < 2 ^ 53.
Proof.
  intros Hw Hstep l. induction l as [|s l IH]; intros A Hwhole Hbound.
  - exists A. cbn in *. repeat split; lia.
  - apply Forall_cons in Hwhole as [[Hamount Hs]%whole_amount Hwhole].
    pose proof (magnitude_nonneg l) as Hl.
    rewrite magnitude_cons in Hbound.
    apply Z.div_exact in Hs; [|done].
    set (n := Exact.cents s `div` 100) in *.
    specialize (Hw s).
    assert (100 * Z.abs (n * w s) ≤ 52 * Z.abs (Exact.cents s)) as Hterm.
    { rewrite Hs, !Z.abs_mul. change (Z.abs 100) with 100. nia. }
    cbn [fold_left]. rewrite Hstep, Hamount, Hs.
    rewrite parseFloat_whole by (rewrite <- Hs; lia).
    rewrite of_Z_mul by lia.
    rewrite of_Z_add by lia.
    destruct (IH (A + n * w s)) as (T & Hfold & HT & HTb); [done|lia|].
    exists T. split; [done|]. split; [|done].
    rewrite HT, fmap_cons, total_cons, Hs. ring.
Qed.

Lemma total_weight_1 (l : list Subscription.t) :
  Exact.total ((λ s, Exact.cents s * 1) <$> l)
  = Exact.total (Exact.cents <$> l).
Proof.
  induction l as [|x l IH]; [done|].
  rewrite !fmap_cons, !total_cons, IH. lia.
Qed.

(** The yearly reduction is exact on whole amounts. *)
Lemma yearlySpend_exact (subscriptions : list Subscription.t) :
  Forall (λ sub, Numeric.whole (Subscription.amount sub)) subscriptions →
  52 * Exact.magnitude subscriptions < 2 ^ 53 →
  Num.is_cents (Routes.stats_yearlySpend subscriptions)
    (Exact.yearly_cents subscriptions).
Proof.
  intros Hwhole Hbound.
  unfold Routes.stats_yearlySpend, Exact.yearly_cents.
  destruct (weighted_fold_exact
              (λ s, Exact.multiplier (Subscription.billingPeriod s))
              (λ sum sub,
                 let amount := Num.parseFloat (Subscription.amount sub) in
                 let period := Subscription.billingPeriod sub in
                 if decide (period = "monthly") then (sum + amount * 12)%float
                 else if decide (period = "yearly") then (sum + amount)%float
                 else if decide (period = "weekly") then (sum + amount * 52)%float
                 else if decide (period = "quarterly") then (sum + amount * 4)%float
                 else (sum + amount)%float))
    with (l := subscriptions) (A := 0) as (T & Hfold & HT & HTb).
  - intros s. unfold Exact.multiplier. repeat case_decide; lia.
  - apply yearly_step.
  - done.
  - cbn. lia.
  - change 0%float with (Num.of_Z 0). unfold Num.number in Hfold. rewrite Hfold.
    rewrite <- (Z.add_0_l (Exact.total _)).
    change 0 with (100 * 0) at 1. rewrite <- HT. by apply is_cents_of_Z.
Qed.

(** C6, as the code has it: [yearlySpend] is the sum, from left to right
    in the binary64 arithmetic of the language, of every amount read as a
    double times the multiplier of its period: 12 for monthly, 1 for
    yearly, 52 for weekly, 4 for quarterly, 1 for custom.  It is the exact
    sum of the amounts times their multipliers when every amount is a whole
    number of units (and fifty-two times the sum of their absolute values,
    in hundredths, is below [2^53]); one monthly subscription of 10.00
    gives 120, one weekly subscription of 5.00 gives 260. *)
Theorem yearlySpend_multiplier_table (subscriptions : list Subscription.t) :
  Exact.multiplier "monthly" = 12
  ∧ Exact.multiplier "yearly" = 1
  ∧ Exact.multiplier "weekly" = 52
  ∧ Exact.multiplier "quarterly" = 4
  ∧ Exact.multiplier "custom" = 1
  ∧ yearlySpend (Routes.stats_of subscriptions)
    = Num.sum
        ((λ sub, (Num.parseFloat (Subscription.amount sub)
                  * Num.of_Z (Exact.multiplier (Subscription.billingPeriod sub)))%float)
           <$> subscriptions)
  ∧ (Forall (λ sub, Numeric.whole (Subscription.amount sub)) subscriptions →
     52 * Exact.magnitude subscriptions < 2 ^ 53 →
     Num.is_cents (yearlySpend (Routes.stats_of subscriptions))
       (Exact.yearly_cents subscriptions))
  ∧ yearlySpend (Routes.stats_of [Examples.priced 1000 "monthly"]) = 120%float
  ∧ Num.is_cents 120%float (Exact.yearly_cents [Examples.priced 1000 "monthly"])
  ∧ yearlySpend (Routes.stats_of [Examples.priced 500 "weekly"]) = 260%float
  ∧ Num.is_cents 260%float (Exact.yearly_cents [Examples.priced 500 "weekly"]).
Proof.
  do 5 (split; [reflexivity|]). split; [|split].
  - cbn [Routes.stats_of yearlySpend]. unfold Routes.stats_yearlySpend, Num.sum.
    rewrite <- fold_left_fmap_sum. apply fold_left_pointwise, yearly_step.
  - apply yearlySpend_exact.
  - split; [reflexivity|]. split; [vm_compute; reflexivity|].
    split; [reflexivity|]. vm_compute. reflexivity.
Qed.

Lemma yearlySpend_multiplier_table_witness :
  let subscriptions :=
    [Examples.priced 1000 "monthly"; Examples.priced 500 "weekly";
     Examples.priced 4500 "quarterly"; Examples.priced 9900 "yearly"] in
  Exact.yearly_cents subscriptions = 12000 + 26000 + 18000 + 9900
  ∧ Num.is_cents (yearlySpend (Routes.stats_of subscriptions))
      (Exact.yearly_cents subscriptions).
Proof.
  cbv zeta. split; [reflexivity|].
  apply (yearlySpend_multiplier_table
           [Examples.priced 1000 "monthly"; Examples.priced 500 "weekly";
            Examples.priced 4500 "quarterly"; Examples.priced 9900 "yearly"]).
  - repeat constructor.
  - vm_compute. reflexivity.
Defined.

(** C6 as stated fails for one monthly subscription of 1.10: the sum of
    amount times multiplier is 13.20, and [yearlySpend] is
    13.200000000000001, which is neither that rational nor the double
    nearest to it. *)
Lemma yearlySpend_drift_counterexample :
  let subscriptions := [Examples.priced 110 "monthly"] in
  Exact.yearly_cents subscriptions = 1320
  ∧ ¬ Num.is_cents (yearlySpend (Routes.stats_of subscriptions)) 1320
  ∧ yearlySpend (Routes.stats_of subscriptions) ≠ Num.parseFloat 1320
  ∧ (Num.parseFloat (Numeric.Finite 1320)
     <? yearlySpend (Routes.stats_of subscriptions))%float = true.
Proof.
  cbv zeta. split; [reflexivity|].
  split; [intros H; vm_compute in H; discriminate|].
  split; [intros H; apply (f_equal Prim2SF) in H; vm_compute in H; discriminate|].
  vm_compute. reflexivity.
Qed.

(** C7, as the code has it: the sums are exact when every amount is a
    whole number of units and the amounts are small enough for every
    partial sum to stay below [2^53] (fifty-two times the sum of their
    absolute values, in hundredths, is below [2^53]).  [monthlySpend], on
    the server and on the client, and [yearlySpend] then equal the exact
    sums. *)
Theorem spend_exact_on_whole_amounts (subscriptions : list Subscription.t) :
  Forall (λ sub, Numeric.whole (Subscription.amount sub)) subscriptions →
  52 * Exact.magnitude subscriptions < 2 ^ 53 →
  Num.is_cents (monthlySpend (Routes.stats_of subscriptions))
    (Exact.monthly_cents subscriptions)
  ∧ Num.is_cents (yearlySpend (Routes.stats_of subscriptions))
      (Exact.yearly_cents subscriptions)
  ∧ Num.is_cents (SubscriptionsPage.getTotalMonthlySpend (Some subscriptions))
      (Exact.monthly_cents subscriptions).
Proof.
  intros Hwhole Hbound.
  assert (Num.is_cents (Routes.stats_monthlySpend subscriptions)
            (Exact.monthly_cents subscriptions)) as Hmonthly.
  { unfold Routes.stats_monthlySpend, Exact.monthly_cents.
    set (l := filter _ subscriptions).
    destruct (weighted_fold_exact (λ _, 1)
                (λ sum sub, (sum + Num.parseFloat (Subscription.amount sub))%float))
      with (l := l) (A := 0) as (T & Hfold & HT & HTb).
    - lia.
    - intros acc s. change (Num.of_Z 1) with 1%float. by rewrite number_mul_1_r.
    - apply Forall_forall. intros s [_ Hs]%list_elem_of_filter.
      by apply (proj1 (Forall_forall _ _) Hwhole).
    - pose proof (magnitude_filter
                    (λ sub, Subscription.billingPeriod sub = "monthly")
                    subscriptions).
      fold l in H. cbn. lia.
    - change 0%float with (Num.of_Z 0). unfold Num.number in Hfold. rewrite Hfold.
      rewrite total_weight_1 in HT. rewrite <- (Z.add_0_l (Exact.total _)).
      change 0 with (100 * 0) at 1. rewrite <- HT. by apply is_cents_of_Z. }
  split; [exact Hmonthly|]. split; [|exact Hmonthly].
  by apply yearlySpend_exact.
Qed.

Lemma spend_exact_on_whole_amounts_witness :
  let subscriptions :=
    [Examples.priced 1000 "monthly"; Examples.priced 500 "weekly";
     Examples.priced 2000 "monthly"] in
  Num.is_cents (monthlySpend (Routes.stats_of subscriptions))
    (Exact.monthly_cents subscriptions)
  ∧ Num.is_cents (yearlySpend (Routes.stats_of subscriptions))
      (Exact.yearly_cents subscriptions)
  ∧ Num.is_cents (SubscriptionsPage.getTotalMonthlySpend (Some subscriptions))
      (Exact.monthly_cents subscriptions).
Proof.
  apply spend_exact_on_whole_amounts.
  - repeat constructor.
  - vm_compute. reflexivity.
Defined.

(** C7 as stated fails for the amounts 0.10 and 0.20, both monthly: the
    exact sum is 0.30, and [monthlySpend] is neither that rational nor
    the double nearest to it; [yearlySpend] misses the exact 3.60 too. *)
Lemma monthlySpend_drift_counterexample :
  let subscriptions :=
    [Examples.priced 10 "monthly"; Examples.priced 20 "monthly"] in
  Exact.monthly_cents subscriptions = 30
  ∧ Exact.yearly_cents subscriptions = 360
  ∧ ¬ Num.is_cents (monthlySpend (Routes.stats_of subscriptions)) 30
  ∧ monthlySpend (Routes.stats_of subscriptions) ≠ Num.parseFloat 30
  ∧ ¬ Num.is_cents (yearlySpend (Routes.stats_of subscriptions)) 360
  ∧ yearlySpend (Routes.stats_of subscriptions) ≠ Num.parseFloat 360.
Proof.
  cbv zeta. split; [reflexivity|]. split; [reflexivity|].
  split; [intros H; vm_compute in H; discriminate|].
  split; [intros H; apply (f_equal Prim2SF) in H; vm_compute in H; discriminate|].
  split; [intros H; vm_compute in H; discriminate|].
  intros H; apply (f_equal Prim2SF) in H; vm_compute in H; discriminate.
Qed.

(** * Further properties *)

(** ** Order and bounds of the list queries *)

Lemma date_le_total : Total Storage.date_le.
Proof. intros a b. unfold Storage.date_le. lia. Qed.

Lemma date_le_trans : Transitive Storage.date_le.
Proof. intros a b c. unfold Storage.date_le. lia. Qed.

Lemma orderBy_sorted (rows : list Subscription.t) :
  StronglySorted Storage.date_le (Storage.orderBy_nextPaymentDate rows).
Proof.
  apply (@StronglySorted_merge_sort _ _ _ date_le_trans date_le_total).
Qed.

(** X1: [getSubscriptions] is in ascending order of payment date and
    holds exactly the active rows of the user, each as often as the
    table has it. *)
Theorem getSubscriptions_sorted_scoped (db : Pg.Db) (userId : string) :
  StronglySorted Storage.date_le (Storage.getSubscriptions db userId)
  ∧ Storage.getSubscriptions db userId
    ≡ₚ filter (λ s, Subscription.userId s = userId ∧ Subscription.isActive s = true)
         (Pg.subscriptions db).
Proof.
  split; [apply orderBy_sorted|].
  apply merge_sort_Permutation.
Qed.

Lemma upcoming_rows_listed (db : Pg.Db) (now : Z) (userId : string)
    (s : Subscription.t) :
  s ∈ filter (λ s, Subscription.userId s = userId
                   ∧ Subscription.isActive s = true
                   ∧ now ≤ Subscription.nextPaymentDate s) (Pg.subscriptions db) →
  s ∈ Storage.getSubscriptions db userId.
Proof.
  intros (Hs & Hin)%list_elem_of_filter. apply getSubscriptions_elem. tauto.
Qed.

(** A number that is at least [0] and denotes an integer denotes one that
    is not negative. *)
Lemma to_Z_nonneg (x : Num.number) (n : Z) :
  (0 <=? x)%float = true → Num.to_Z x = Some n → 0 ≤ n.
Proof.
  rewrite FloatAxioms.leb_spec. unfold Num.to_Z.
  change (Prim2SF 0) with (S754_zero false).
  destruct (Prim2SF x) as [[]|[]| |[] m e]; cbn; try done;
    try (intros _ [= <-]; lia).
  intros _. repeat case_bool_decide; try done; intros [= <-].
  - apply Z.mul_nonneg_nonneg; [lia|]. by apply Z.pow_nonneg.
  - apply Z.div_pos; [lia|]. apply Z.pow_pos_nonneg; lia.
Qed.

(** X2: whatever number the limit is, a list that
    [getUpcomingSubscriptions] answers is in ascending order of payment
    date, and each row of it is owned by the user, active, not due before
    [now], and a row of [getSubscriptions].  For a limit that is at least
    [0] the list has at most that many rows, and the query fails when the
    limit is no [bigint] (a fraction, an infinity, an integer above
    [BIGINT_MAX]); for any other limit ([NaN], a negative number) the list
    is not cut: it holds every row that qualifies. *)
Theorem getUpcomingSubscriptions_bounded (db : Pg.Db) (now : Z)
    (userId : string) (limit : Num.number) :
  let qualifying :=
    filter (λ s, Subscription.userId s = userId
                 ∧ Subscription.isActive s = true
                 ∧ now ≤ Subscription.nextPaymentDate s) (Pg.subscriptions db) in
  match Storage.getUpcomingSubscriptions db now userId limit with
  | Some upcoming =>
      StronglySorted Storage.date_le upcoming
      ∧ Forall (λ s, Subscription.userId s = userId
                     ∧ Subscription.isActive s = true
                     ∧ now ≤ Subscription.nextPaymentDate s
                     ∧ s ∈ Storage.getSubscriptions db userId) upcoming
      ∧ (if (0 <=? limit)%float
         then ∃ n, Num.to_Z limit = Some n
                   ∧ 0 ≤ n ≤ Storage.BIGINT_MAX
                   ∧ Z.of_nat (length upcoming) ≤ n
         else upcoming ≡ₚ qualifying)
  | None =>
      (0 <=? limit)%float = true
      ∧ (Num.to_Z limit = None
         ∨ ∃ n, Num.to_Z limit = Some n ∧ Storage.BIGINT_MAX < n)
  end.
Proof.
  intros qualifying. unfold Storage.getUpcomingSubscriptions. fold qualifying.
  unfold Storage.limit_rows.
  destruct (0 <=? limit)%float eqn:Hleb.
  - destruct (Num.to_Z limit) as [n|] eqn:Hn; cbn; [|by auto].
    case_bool_decide as Hmax; [|split; [done|]; right; exists n; split; [done|lia]].
    split; [|split].
    + eapply StronglySorted_app_1_l. rewrite take_drop. apply orderBy_sorted.
    + apply Forall_forall. intros s Hs%subseteq_take.
      unfold Storage.orderBy_nextPaymentDate in Hs.
      rewrite merge_sort_Permutation in Hs.
      pose proof (upcoming_rows_listed db now userId s Hs) as Hlisted.
      apply list_elem_of_filter in Hs. tauto.
    + exists n. pose proof (to_Z_nonneg limit n Hleb Hn).
      split; [done|]. split; [lia|]. rewrite length_take. lia.
  - split; [apply orderBy_sorted|]. split.
    + apply Forall_forall. intros s Hs.
      unfold Storage.orderBy_nextPaymentDate in Hs.
      rewrite merge_sort_Permutation in Hs.
      pose proof (upcoming_rows_listed db now userId s Hs) as Hlisted.
      apply list_elem_of_filter in Hs. tauto.
    + apply merge_sort_Permutation.
Qed.

(** The limits of the three kinds, on two rows that qualify: a limit of
    one cuts the list, a negative limit and [NaN] do not, and a limit
    beyond the integers of the database makes the query fail. *)
Example getUpcomingSubscriptions_limits :
  Storage.getUpcomingSubscriptions Samples.db_two_users 0 "u1" 1%float
  = Some [Samples.news]
  ∧ Storage.getUpcomingSubscriptions Samples.db_two_users 0 "u1" (-1)%float
    = Some [Samples.news; Samples.gym]
  ∧ Storage.getUpcomingSubscriptions Samples.db_two_users 0 "u1" PrimFloat.nan
    = Some [Samples.news; Samples.gym]
  ∧ Storage.getUpcomingSubscriptions Samples.db_two_users 0 "u1" 0%float
    = Some []
  ∧ Storage.getUpcomingSubscriptions Samples.db_two_users 0 "u1" 1e20%float
    = None
  ∧ Storage.getUpcomingSubscriptions Samples.db_two_users 0 "u1" 2.5%float
    = None
  ∧ Routes.get_upcoming Samples.db_two_users 0 "u1" (Some 1e20%float)
    = Routes.Message 500 "Failed to fetch upcoming subscriptions"
  ∧ Routes.get_upcoming Samples.db_two_users 0 "u1" None
    = Routes.Json 200 [Samples.news; Samples.gym].
Proof. repeat split; vm_compute; reflexivity. Qed.

(** X3: when the limit is a [bigint] and no more rows qualify than it
    allows, [getUpcomingSubscriptions] answers, and returns all of
    them. *)
Theorem getUpcomingSubscriptions_all_when_few (db : Pg.Db) (now : Z)
    (userId : string) (limit : Num.number) (n : Z) :
  let qualifying :=
    filter (λ s, Subscription.userId s = userId
                 ∧ Subscription.isActive s = true
                 ∧ now ≤ Subscription.nextPaymentDate s) (Pg.subscriptions db) in
  Num.to_Z limit = Some n →
  n ≤ Storage.BIGINT_MAX →
  Z.of_nat (length qualifying) ≤ n →
  ∃ upcoming,
    Storage.getUpcomingSubscriptions db now userId limit = Some upcoming
    ∧ upcoming ≡ₚ qualifying.
Proof.
  intros qualifying Hn Hmax Hfew.
  unfold Storage.getUpcomingSubscriptions, Storage.limit_rows. fold qualifying.
  destruct (0 <=? limit)%float.
  - rewrite Hn. cbn. rewrite bool_decide_eq_true_2 by done.
    eexists. split; [done|]. rewrite take_ge.
    + apply merge_sort_Permutation.
    + unfold Storage.orderBy_nextPaymentDate.
      rewrite merge_sort_Permutation. lia.
  - eexists. split; [done|]. apply merge_sort_Permutation.
Qed.

Lemma getUpcomingSubscriptions_all_when_few_witness :
  ∃ upcoming,
    Storage.getUpcomingSubscriptions Samples.db_two_users 0 "u1" 10%float = Some upcoming
    ∧ upcoming
      ≡ₚ filter (λ s, Subscription.userId s = "u1"
                      ∧ Subscription.isActive s = true
                      ∧ 0 ≤ Subscription.nextPaymentDate s)
           (Pg.subscriptions Samples.db_two_users).
Proof.
  apply (getUpcomingSubscriptions_all_when_few Samples.db_two_users 0 "u1" 10%float 10).
  - vm_compute. reflexivity.
  - vm_compute. discriminate.
  - vm_compute. discriminate.
Defined.

(** X4: when more rows qualify than the limit allows, the ones left out
    are due no sooner than any of the ones returned. *)
Theorem getUpcomingSubscriptions_keeps_soonest (db : Pg.Db) (now : Z)
    (userId : string) (limit : Num.number) (upcoming : list Subscription.t)
    (kept left : Subscription.t) :
  Storage.getUpcomingSubscriptions db now userId limit = Some upcoming →
  kept ∈ upcoming →
  left ∈ Pg.subscriptions db →
  Subscription.userId left = userId →
  Subscription.isActive left = true →
  now ≤ Subscription.nextPaymentDate left →
  ¬ (left ∈ upcoming) →
  Subscription.nextPaymentDate kept ≤ Subscription.nextPaymentDate left.
Proof.
  unfold Storage.getUpcomingSubscriptions.
  set (sorted := Storage.orderBy_nextPaymentDate _).
  intros Hupcoming Hkept Hin Hu Ha Hnow Hleft.
  assert (left ∈ sorted) as Hsorted.
  { unfold sorted, Storage.orderBy_nextPaymentDate.
    rewrite merge_sort_Permutation. apply list_elem_of_filter. tauto. }
  apply limit_rows_Some in Hupcoming as [->|[n ->]]; [done|].
  rewrite <- (take_drop n sorted) in Hsorted.
  apply elem_of_app in Hsorted as [?|Hdrop]; [done|].
  apply (StronglySorted_app_1_elem_of Storage.date_le
           (take n sorted) (drop n sorted)); [|done..].
  rewrite take_drop. apply orderBy_sorted.
Qed.

Lemma getUpcomingSubscriptions_keeps_soonest_witness :
  Subscription.nextPaymentDate Samples.news ≤ Subscription.nextPaymentDate Samples.gym.
Proof.
  apply (getUpcomingSubscriptions_keeps_soonest Samples.db_two_users 0 "u1" 1%float
           [Samples.news]).
  - vm_compute. reflexivity.
  - left.
  - left.
  - reflexivity.
  - reflexivity.
  - vm_compute. discriminate.
  - intros H. apply list_elem_of_singleton in H. discriminate.
Defined.

(** ** Rows of one user *)

Lemma filter_fmap_fixed {A} (P : A → Prop) `{∀ x, Decision (P x)}
    (f : A → A) (l : list A) :
  (∀ x, P (f x) ↔ P x) → (∀ x, P x → f x = x) →
  filter P (f <$> l) = filter P l.
Proof.
  intros Hiff Hfix. induction l as [|x l IH]; [done|].
  rewrite fmap_cons. destruct (decide (P x)) as [Hx|Hx].
  - rewrite !filter_cons_True by (done || by apply Hiff).
    by rewrite Hfix, IH.
  - rewrite !filter_cons_False by (done || by rewrite Hiff). done.
Qed.

Lemma filter_and_nested {A} (P Q : A → Prop) `{∀ x, Decision (P x)}
    `{∀ x, Decision (Q x)} (l : list A) :
  filter (λ x, P x ∧ Q x) l = filter Q (filter P l).
Proof.
  rewrite list_filter_filter. apply list_filter_iff. intros x. tauto.
Qed.

Lemma filter_by_id_nested (id userId : string) (l : list Subscription.t) :
  filter (Storage.by_id id userId) l
  = filter (λ s, Subscription.id s = id)
      (filter (λ s, Subscription.userId s = userId) l).
Proof. rewrite list_filter_filter. apply list_filter_iff. intros s. done. Qed.

(** The reads of a user depend on the user's rows only. *)
Lemma reads_agree_of_rows (userId : string) (db db' : Pg.Db) :
  filter (λ s, Subscription.userId s = userId) (Pg.subscriptions db')
  = filter (λ s, Subscription.userId s = userId) (Pg.subscriptions db) →
  filter (λ r, UserSettings.userId r = userId) (Pg.userSettings db')
  = filter (λ r, UserSettings.userId r = userId) (Pg.userSettings db) →
  View.reads_agree userId db db'.
Proof.
  intros Hsubs Hsettings. unfold View.reads_agree.
  split; [|split; [|split]].
  - unfold Storage.getSubscriptions.
    by rewrite !(filter_and_nested (λ s, Subscription.userId s = userId)), Hsubs.
  - intros now limit. unfold Storage.getUpcomingSubscriptions.
    by rewrite !(filter_and_nested (λ s, Subscription.userId s = userId)), Hsubs.
  - intros id. unfold Storage.getSubscription.
    by rewrite !filter_by_id_nested, Hsubs.
  - unfold Storage.getUserSettings. by rewrite Hsettings.
Qed.

Lemma updated_rows_of_other_user (userId userId' id : string)
    (f : Subscription.t → Subscription.t) (rows : list Subscription.t) :
  userId ≠ userId' →
  (∀ s, Subscription.userId (f s) = Subscription.userId s) →
  filter (λ s, Subscription.userId s = userId)
    ((λ s, if decide (Storage.by_id id userId' s) then f s else s) <$> rows)
  = filter (λ s, Subscription.userId s = userId) rows.
Proof.
  intros Hne Hf. apply filter_fmap_fixed.
  - intros s. case_decide; [by rewrite Hf|done].
  - intros s Hs. rewrite decide_False; [done|]. intros [_ Hu]. congruence.
Qed.

(** X5: tenant isolation: whatever one user creates, updates, deletes or
    saves as settings, every read of another user answers as before. *)
Theorem writes_do_not_cross_users (db : Pg.Db) (uuid : string) (now : Z)
    (reader writer id : string) (body : gmap string jsval) :
  reader ≠ writer →
  View.reads_agree reader db (Routes.post_subscriptions db uuid now writer body).2
  ∧ View.reads_agree reader db (Routes.put_subscription db now writer id body).2
  ∧ View.reads_agree reader db (Routes.delete_subscription db now writer id).2
  ∧ View.reads_agree reader db (Routes.put_settings db uuid now writer body).2.
Proof.
  intros Hne. split; [|split; [|split]].
  - unfold Routes.post_subscriptions.
    destruct (Zod.insertSubscriptionSchema body) as [v|];
      [|by apply reads_agree_of_rows].
    destruct (Storage.createSubscription db uuid now v writer)
      as [[s db']|] eqn:Hc; [|by apply reads_agree_of_rows].
    pose proof Hc as Hc'. unfold Storage.createSubscription in Hc'.
    apply createSubscription_row in Hc as (_ & Hu & _ & _ & _ & _ & Hrows).
    apply reads_agree_of_rows.
    + cbn [snd]. rewrite Hrows, filter_app, filter_cons_False, filter_nil, app_nil_r
        by congruence. done.
    + simplify_option_eq. repeat case_decide; by simplify_eq.
  - unfold Routes.put_subscription.
    destruct (Zod.insertSubscriptionSchema_partial body) as [v|];
      [|by apply reads_agree_of_rows].
    unfold Storage.updateSubscription.
    destruct (match InsertSubscription.amount v with
              | Some text => Some <$> Pg.numeric_in text
              | None => Some None
              end) as [amount|]; cbn; [|by apply reads_agree_of_rows].
    destruct (match InsertSubscription.nextPaymentDate v with
              | None => Some None
              | Some date => Some <$> Pg.timestamp_in date
              end) as [date|]; cbn; [|by apply reads_agree_of_rows].
    assert (View.reads_agree reader db
              (Pg.mkDb (Pg.users db)
                 ((λ s, if decide (Storage.by_id id writer s)
                        then Storage.set_subscription now v amount s else s)
                    <$> Pg.subscriptions db)
                 (Pg.userSettings db))) as Hagree.
    { apply reads_agree_of_rows; [|done]. cbn.
      by apply updated_rows_of_other_user. }
    by destruct (head _).
  - unfold Routes.delete_subscription, Storage.deleteSubscription.
    assert (View.reads_agree reader db
              (Pg.mkDb (Pg.users db)
                 ((λ s, if decide (Storage.by_id id writer s)
                        then Storage.set_inactive now s else s)
                    <$> Pg.subscriptions db)
                 (Pg.userSettings db))) as Hagree.
    { apply reads_agree_of_rows; [|done]. cbn.
      by apply updated_rows_of_other_user. }
    by case_bool_decide.
  - unfold Routes.put_settings.
    destruct (Zod.insertUserSettingsSchema body) as [v|];
      [|by apply reads_agree_of_rows].
    unfold Storage.upsertUserSettings.
    destruct (filter _ (Pg.userSettings db)) as [|existing rest] eqn:Hrows.
    + repeat case_decide; try by apply reads_agree_of_rows.
      apply reads_agree_of_rows; [done|]. cbn.
      by rewrite filter_app, filter_cons_False, filter_nil, app_nil_r.
    + apply reads_agree_of_rows; [done|]. cbn.
      apply filter_fmap_fixed.
      * intros r. by case_decide.
      * intros r Hr. rewrite decide_False; [done|]. congruence.
Qed.

Lemma writes_do_not_cross_users_witness :
  View.reads_agree "u1" Samples.db_two_users
    (Routes.post_subscriptions Samples.db_two_users "s9" 5 "u2"
       Examples.netflix_body).2
  ∧ View.reads_agree "u1" Samples.db_two_users
      (Routes.put_subscription Samples.db_two_users 5 "u2" "s2"
         Examples.netflix_body).2
  ∧ View.reads_agree "u1" Samples.db_two_users
      (Routes.delete_subscription Samples.db_two_users 5 "u2" "s2").2
  ∧ View.reads_agree "u1" Samples.db_two_users
      (Routes.put_settings Samples.db_two_users "s9" 5 "u2"
         Examples.netflix_body).2.
Proof. apply writes_do_not_cross_users. discriminate. Defined.

(** ** Ids that are not the caller's *)

Lemma db_eta (db : Pg.Db) :
  Pg.mkDb (Pg.users db) (Pg.subscriptions db) (Pg.userSettings db) = db.
Proof. by destruct db. Qed.

Lemma fmap_unmatched {A} (P : A → Prop) `{∀ x, Decision (P x)} (f : A → A)
    (l : list A) :
  Forall (λ x, ¬ P x) l → (λ x, if decide (P x) then f x else x) <$> l = l.
Proof.
  induction 1 as [|x l Hx _ IH]; [done|].
  rewrite fmap_cons, IH. by rewrite decide_False.
Qed.



(** ** Create, then read *)

(** X7: round trip: the subscription a create answers is the one a read
    by its id returns afterwards, it is listed when it is active, and
    the rows that were there before are all still there. *)
Theorem create_then_get (db db' : Pg.Db) (uuid : string) (now : Z)
    (userId : string) (body : gmap string jsval) (status : Z)
    (s : Subscription.t) :
  Routes.post_subscriptions db uuid now userId body = (Routes.Json status s, db') →
  Routes.get_subscription db' userId (Subscription.id s) = Routes.Json 200 s
  ∧ (Subscription.isActive s = true → s ∈ Storage.getSubscriptions db' userId)
  ∧ (∀ r, r ∈ Pg.subscriptions db → r ∈ Pg.subscriptions db')
  ∧ length (Pg.subscriptions db') = S (length (Pg.subscriptions db)).
Proof.
  unfold Routes.post_subscriptions. intros Hpost.
  destruct (Zod.insertSubscriptionSchema body) as [v|] eqn:Hv; [|done].
  destruct (Storage.createSubscription db uuid now v userId)
    as [[s' db'']|] eqn:Hc; [|done].
  simplify_eq.
  apply createSubscription_row in Hc as (Hid & Hu & _ & _ & _ & Hfresh & Hrows).
  split; [|split; [|split]].
  - unfold Routes.get_subscription, Storage.getSubscription.
    rewrite Hrows, filter_app, filter_cons_True, filter_nil by done.
    rewrite filter_none; [done|].
    apply Forall_forall. intros r Hr [Hrid _]. apply Hfresh.
    apply list_elem_of_fmap. exists r. split; [congruence|done].
  - intros Hactive. apply getSubscriptions_elem. rewrite Hrows.
    split; [|done]. apply elem_of_app. right. left.
  - intros r Hr. rewrite Hrows. apply elem_of_app. by left.
  - rewrite Hrows, length_app. cbn. lia.
Qed.

Lemma create_then_get_witness :
  Routes.get_subscription Examples.db_netflix "u1" (Subscription.id Examples.netflix)
  = Routes.Json 200 Examples.netflix
  ∧ (Subscription.isActive Examples.netflix = true →
     Examples.netflix ∈ Storage.getSubscriptions Examples.db_netflix "u1")
  ∧ (∀ r, r ∈ Pg.subscriptions Examples.db_empty →
          r ∈ Pg.subscriptions Examples.db_netflix)
  ∧ length (Pg.subscriptions Examples.db_netflix)
    = S (length (Pg.subscriptions Examples.db_empty)).
Proof.
  apply (create_then_get Examples.db_empty Examples.db_netflix "s1" 0 "u1"
           Examples.netflix_body 201).
  vm_compute. reflexivity.
Defined.

(** ** Updates *)

Lemma optional_kept_or_set {A} (p : jsval → option A) (x : jsval)
    (o : option A) (old : A) :
  Zod.optional p x = Some o → View.kept_or_set p x old (default old o).
Proof.
  intros Ho. split.
  - intros ->. cbn in Ho. by simplify_eq.
  - intros a Hx Ha. destruct x; try done; cbn in Ho; rewrite Ha in Ho;
      cbn in Ho; by simplify_eq.
Qed.

(** X8: an update answers a subscription only with status 200, and then
    for a row of the caller with the requested id: its id, owner and
    creation time are the old ones, [updatedAt] is the time of the
    update, and every other column keeps its value when the body leaves
    its key out and takes the body's value when the key is there. *)
Theorem put_changes_only_supplied (db db' : Pg.Db) (now : Z)
    (userId id : string) (body : gmap string jsval) (status : Z)
    (s' : Subscription.t) :
  Routes.put_subscription db now userId id body = (Routes.Json status s', db') →
  status = 200
  ∧ ∃ s, s ∈ Pg.subscriptions db
      ∧ Storage.by_id id userId s
      ∧ s' ∈ Pg.subscriptions db'
      ∧ Subscription.id s' = Subscription.id s
      ∧ Subscription.userId s' = Subscription.userId s
      ∧ Subscription.createdAt s' = Subscription.createdAt s
      ∧ Subscription.updatedAt s' = Some now
      ∧ View.kept_or_set Zod.z_string (Zod.field body "name")
          (Subscription.name s) (Subscription.name s')
      ∧ View.kept_or_set (λ x, Zod.z_string x ≫= Pg.numeric_in)
          (Zod.field body "amount")
          (Subscription.amount s) (Subscription.amount s')
      ∧ View.kept_or_set Zod.z_string (Zod.field body "currency")
          (Subscription.currency s) (Subscription.currency s')
      ∧ View.kept_or_set Zod.z_string (Zod.field body "billingPeriod")
          (Subscription.billingPeriod s) (Subscription.billingPeriod s')
      ∧ View.kept_or_set Zod.z_date (Zod.field body "nextPaymentDate")
          (Subscription.nextPaymentDate s) (Subscription.nextPaymentDate s')
      ∧ View.kept_or_set Zod.z_int32 (Zod.field body "reminderDays")
          (Subscription.reminderDays s) (Subscription.reminderDays s')
      ∧ View.kept_or_set (Zod.nullable Zod.z_string) (Zod.field body "description")
          (Subscription.description s) (Subscription.description s')
      ∧ View.kept_or_set Zod.z_boolean (Zod.field body "emailNotifications")
          (Subscription.emailNotifications s) (Subscription.emailNotifications s')
      ∧ View.kept_or_set Zod.z_boolean (Zod.field body "pushNotifications")
          (Subscription.pushNotifications s) (Subscription.pushNotifications s')
      ∧ View.kept_or_set Zod.z_boolean (Zod.field body "isActive")
          (Subscription.isActive s) (Subscription.isActive s').
Proof.
  unfold Routes.put_subscription. intros Hput.
  destruct (Zod.insertSubscriptionSchema_partial body) as [v|] eqn:Hv; [|done].
  unfold Storage.updateSubscription in Hput.
  destruct (match InsertSubscription.amount v with
            | Some text => Some <$> Pg.numeric_in text
            | None => Some None
            end) as [amount|] eqn:Hamount; cbn in Hput; [|done].
  destruct (match InsertSubscription.nextPaymentDate v with
            | None => Some None
            | Some date => Some <$> Pg.timestamp_in date
            end) as [date|]; cbn in Hput; [|done].
  destruct (filter (Storage.by_id id userId) (Pg.subscriptions db))
    as [|s rest] eqn:Hrows; cbn in Hput; [done|].
  simplify_eq. split; [done|]. exists s.
  assert (s ∈ filter (Storage.by_id id userId) (Pg.subscriptions db)) as Hs
    by (rewrite Hrows; left).
  apply list_elem_of_filter in Hs as [Hid Hs].
  split; [done|]. split; [done|]. split.
  { cbn. apply list_elem_of_fmap. exists s. by rewrite decide_True. }
  unfold Zod.insertSubscriptionSchema_partial, Zod.subscription_shape in Hv.
  simplify_option_eq. cbn in *.
  repeat (split; [done|]).
  repeat (match goal with |- _ ∧ _ => split end);
    try (by apply optional_kept_or_set).
  split.
  - intros Hx. match goal with H : Zod.optional _ (Zod.field body "amount") = _ |- _ =>
      rewrite Hx in H; cbn in H; simplify_eq end. cbn in *. by simplify_eq.
  - intros a Hx Ha.
    match goal with H : Zod.optional _ (Zod.field body "amount") = Some ?o |- _ =>
      destruct (Zod.field body "amount"); try done; cbn in H, Ha; simplify_eq end.
    cbn in *. rewrite Ha in Hamount. cbn in Hamount. by simplify_eq.
Qed.

Lemma put_changes_only_supplied_witness :
  200 = 200
  ∧ ∃ s, s ∈ Pg.subscriptions Examples.db_netflix
      ∧ Storage.by_id "s1" "u1" s
      ∧ Examples.netflix_deleted ∈ Pg.subscriptions Examples.db_deleted
      ∧ Subscription.id Examples.netflix_deleted = Subscription.id s
      ∧ Subscription.userId Examples.netflix_deleted = Subscription.userId s
      ∧ Subscription.createdAt Examples.netflix_deleted = Subscription.createdAt s
      ∧ Subscription.updatedAt Examples.netflix_deleted = Some 7
      ∧ View.kept_or_set Zod.z_string (Zod.field Samples.deactivate_body "name")
          (Subscription.name s) (Subscription.name Examples.netflix_deleted)
      ∧ View.kept_or_set (λ x, Zod.z_string x ≫= Pg.numeric_in)
          (Zod.field Samples.deactivate_body "amount")
          (Subscription.amount s) (Subscription.amount Examples.netflix_deleted)
      ∧ View.kept_or_set Zod.z_string (Zod.field Samples.deactivate_body "currency")
          (Subscription.currency s) (Subscription.currency Examples.netflix_deleted)
      ∧ View.kept_or_set Zod.z_string (Zod.field Samples.deactivate_body "billingPeriod")
          (Subscription.billingPeriod s) (Subscription.billingPeriod Examples.netflix_deleted)
      ∧ View.kept_or_set Zod.z_date (Zod.field Samples.deactivate_body "nextPaymentDate")
          (Subscription.nextPaymentDate s) (Subscription.nextPaymentDate Examples.netflix_deleted)
      ∧ View.kept_or_set Zod.z_int32 (Zod.field Samples.deactivate_body "reminderDays")
          (Subscription.reminderDays s) (Subscription.reminderDays Examples.netflix_deleted)
      ∧ View.kept_or_set (Zod.nullable Zod.z_string) (Zod.field Samples.deactivate_body "description")
          (Subscription.description s) (Subscription.description Examples.netflix_deleted)
      ∧ View.kept_or_set Zod.z_boolean (Zod.field Samples.deactivate_body "emailNotifications")
          (Subscription.emailNotifications s) (Subscription.emailNotifications Examples.netflix_deleted)
      ∧ View.kept_or_set Zod.z_boolean (Zod.field Samples.deactivate_body "pushNotifications")
          (Subscription.pushNotifications s) (Subscription.pushNotifications Examples.netflix_deleted)
      ∧ View.kept_or_set Zod.z_boolean (Zod.field Samples.deactivate_body "isActive")
          (Subscription.isActive s) (Subscription.isActive Examples.netflix_deleted).
Proof.
  apply (put_changes_only_supplied Examples.db_netflix Examples.db_deleted 7
           "u1" "s1" Samples.deactivate_body 200 Examples.netflix_deleted).
  vm_compute. reflexivity.
Defined.

(** ** Repeated writes and reads after writes *)

Lemma fmap_update_twice {A} (P : A → Prop) `{∀ x, Decision (P x)}
    (f g : A → A) (l : list A) :
  (∀ x, P x → P (f x)) → (∀ x, g (f x) = g x) →
  (λ x, if decide (P x) then g x else x)
    <$> ((λ x, if decide (P x) then f x else x) <$> l)
  = (λ x, if decide (P x) then g x else x) <$> l.
Proof.
  intros HP Hgf. rewrite <- list_fmap_compose. apply list_fmap_ext.
  intros i x _. cbn. destruct (decide (P x)) as [Hx|Hx].
  - by rewrite decide_True, Hgf by auto.
  - by rewrite decide_False.
Qed.

Lemma set_subscription_twice (now now' : Z) (v : InsertSubscription.t)
    (amount : option Numeric.t) (s : Subscription.t) :
  Storage.set_subscription now' v amount (Storage.set_subscription now v amount s)
  = Storage.set_subscription now' v amount s.
Proof.
  unfold Storage.set_subscription. cbn.
  destruct v as [[] [] [] [] [] [] [] [] [] []], amount; reflexivity.
Qed.

(** X9: a write that is repeated is absorbed: an update sent twice, or a
    delete sent twice, answers the second time and leaves the tables as
    the write would have done when sent once, at the later time. *)
Theorem repeated_write_absorbed (db : Pg.Db) (now now' : Z) (userId id : string)
    (body : gmap string jsval) :
  Routes.put_subscription (Routes.put_subscription db now userId id body).2
    now' userId id body
  = Routes.put_subscription db now' userId id body
  ∧ Routes.delete_subscription (Routes.delete_subscription db now userId id).2
      now' userId id
    = Routes.delete_subscription db now' userId id.
Proof.
  split.
  - unfold Routes.put_subscription.
    destruct (Zod.insertSubscriptionSchema_partial body) as [v|]; [|done].
    unfold Storage.updateSubscription.
    destruct (match InsertSubscription.amount v with
              | None => Some None
              | Some text => Some <$> Pg.numeric_in text
              end) as [amount|]; [|done].
    destruct (match InsertSubscription.nextPaymentDate v with
              | None => Some None
              | Some date => Some <$> Pg.timestamp_in date
              end) as [date|]; [|done].
    cbn [mbind option_bind].
    set (f t := Storage.set_subscription t v amount).
    assert (∀ t x, Storage.by_id id userId x → Storage.by_id id userId (f t x))
      as Hkeep by (by intros t x []).
    fold (f now) (f now').
    destruct (head (f now <$> filter (Storage.by_id id userId) (Pg.subscriptions db)));
      cbn [snd Pg.users Pg.subscriptions Pg.userSettings];
      rewrite (filter_fmap_update (Storage.by_id id userId)) by apply Hkeep;
      rewrite (fmap_update_twice (Storage.by_id id userId) (f now) (f now'))
        by (first [apply Hkeep | intros; apply set_subscription_twice]);
      rewrite <- list_fmap_compose;
      rewrite (list_fmap_ext (f now' ∘ f now) (f now'))
        by (intros; apply set_subscription_twice);
      done.
  - assert ((Routes.delete_subscription db now userId id).2
            = (Storage.deleteSubscription db now id userId).2) as ->.
    { unfold Routes.delete_subscription.
      by destruct (Storage.deleteSubscription db now id userId) as [[] ?]. }
    assert (∀ t x, Storage.by_id id userId x
                   → Storage.by_id id userId (Storage.set_inactive t x))
      as Hkeep by (by intros t x []).
    unfold Routes.delete_subscription, Storage.deleteSubscription.
    cbn [snd Pg.users Pg.subscriptions Pg.userSettings].
    rewrite (filter_fmap_update (Storage.by_id id userId)) by apply Hkeep.
    rewrite length_fmap.
    rewrite (fmap_update_twice (Storage.by_id id userId))
      by (first [apply Hkeep | done]).
    done.
Qed.

(** X10: an update is seen by the reads that follow it: the read of the
    same id answers the row the update answered, and the list has that
    row exactly when the row is active. *)
Theorem update_then_get (db db' : Pg.Db) (now : Z) (userId id : string)
    (body : gmap string jsval) (status : Z) (s' : Subscription.t) :
  Routes.put_subscription db now userId id body = (Routes.Json status s', db') →
  Routes.get_subscription db' userId id = Routes.Json 200 s'
  ∧ (s' ∈ Storage.getSubscriptions db' userId ↔ Subscription.isActive s' = true).
Proof.
  intros H. unfold Routes.put_subscription in H.
  destruct (Zod.insertSubscriptionSchema_partial body) as [v|]; [|done].
  unfold Storage.updateSubscription in H.
  destruct (match InsertSubscription.amount v with
            | None => Some None
            | Some text => Some <$> Pg.numeric_in text
            end) as [amount|]; [|done].
  destruct (match InsertSubscription.nextPaymentDate v with
            | None => Some None
            | Some date => Some <$> Pg.timestamp_in date
            end) as [date|]; [|done].
  cbn [mbind option_bind] in H.
  set (f := Storage.set_subscription now v amount) in *.
  assert (∀ x, Storage.by_id id userId x → Storage.by_id id userId (f x))
    as Hkeep by (by intros x []).
  destruct (head (f <$> filter (Storage.by_id id userId) (Pg.subscriptions db)))
    as [r|] eqn:Hhead; [|done].
  injection H as <- <- <-.
  assert (head (filter (Storage.by_id id userId)
                  ((λ s, if decide (Storage.by_id id userId s) then f s else s)
                     <$> Pg.subscriptions db)) = Some r) as Hget.
  { by rewrite (filter_fmap_update (Storage.by_id id userId)) by apply Hkeep. }
  split.
  - unfold Routes.get_subscription, Storage.getSubscription.
    cbn [Pg.subscriptions]. by rewrite Hget.
  - apply head_Some_elem_of, list_elem_of_filter in Hget as [[_ Hu] Hin].
    rewrite getSubscriptions_elem. cbn [Pg.subscriptions]. tauto.
Qed.

Lemma update_then_get_witness :
  Routes.get_subscription Examples.db_deleted "u1" "s1"
  = Routes.Json 200 Examples.netflix_deleted
  ∧ (Examples.netflix_deleted ∈ Storage.getSubscriptions Examples.db_deleted "u1"
     ↔ Subscription.isActive Examples.netflix_deleted = true).
Proof.
  apply (update_then_get Examples.db_netflix Examples.db_deleted 7 "u1" "s1"
           Samples.deactivate_body 200 Examples.netflix_deleted).
  vm_compute. reflexivity.
Defined.

Lemma filter_deleted (id userId : string) (now : Z) (l : list Subscription.t) :
  filter (λ s, Subscription.userId s = userId ∧ Subscription.isActive s = true)
    ((λ s, if decide (Storage.by_id id userId s) then Storage.set_inactive now s
           else s) <$> l)
  = filter (λ s, Subscription.id s ≠ id)
      (filter (λ s, Subscription.userId s = userId ∧ Subscription.isActive s = true)
         l).
Proof.
  induction l as [|s l IH]; [done|].
  rewrite fmap_cons. destruct (decide (Storage.by_id id userId s)) as [[Hid Hu]|Hn].
  - rewrite filter_cons_False by (by intros [_ ?]).
    destruct (decide (Subscription.userId s = userId
                      ∧ Subscription.isActive s = true)) as [Hs|Hs].
    + rewrite (filter_cons_True _ s l) by done.
      by rewrite filter_cons_False by (by intros ?).
    + by rewrite (filter_cons_False _ s l).
  - destruct (decide (Subscription.userId s = userId
                      ∧ Subscription.isActive s = true)) as [Hs|Hs].
    + rewrite !(filter_cons_True _ s) by done.
      rewrite filter_cons_True; [by f_equal|].
      intros Hid. apply Hn. split; [done|apply Hs].
    + by rewrite !(filter_cons_False _ s) by done.
Qed.

(** X11: a delete takes the subscriptions with the given id out of the
    caller's list and nothing else: what the list holds afterwards is
    what it held before, without that id. *)
Theorem delete_removes_exactly (db : Pg.Db) (now : Z) (userId id : string) :
  Storage.getSubscriptions (Routes.delete_subscription db now userId id).2 userId
  ≡ₚ filter (λ s, Subscription.id s ≠ id) (Storage.getSubscriptions db userId).
Proof.
  assert ((Routes.delete_subscription db now userId id).2
          = (Storage.deleteSubscription db now id userId).2) as ->.
  { unfold Routes.delete_subscription.
    by destruct (Storage.deleteSubscription db now id userId) as [[] ?]. }
  unfold Storage.getSubscriptions, Storage.orderBy_nextPaymentDate.
  rewrite !merge_sort_Permutation. cbn [Storage.deleteSubscription snd Pg.subscriptions].
  by rewrite filter_deleted.
Qed.

(** X12: a soft delete can be undone through the update endpoint: after
    a delete, an update of the same id with [{ isActive: true }] answers
    the row as active, and the subscription is back in [list]. *)
Theorem deleted_subscription_reactivated (db : Pg.Db) (now now' : Z)
    (s : Subscription.t) :
  s ∈ Pg.subscriptions db →
  let userId := Subscription.userId s in
  let id := Subscription.id s in
  let deleted := Routes.delete_subscription db now userId id in
  let updated := Routes.put_subscription deleted.2 now' userId id Samples.activate_body in
  deleted.1 = Routes.Empty 204
  ∧ (∀ r, r ∈ Storage.getSubscriptions deleted.2 userId → Subscription.id r ≠ id)
  ∧ ∃ s', updated.1 = Routes.Json 200 s'
      ∧ Subscription.id s' = id
      ∧ Subscription.isActive s' = true
      ∧ s' ∈ Storage.getSubscriptions updated.2 userId.
Proof.
  intros Hs userId id deleted updated.
  assert (Storage.by_id id userId s) as Hid by done.
  pose proof (deleteSubscription_found db now id userId s Hs Hid) as Hfound.
  assert (deleted = (Routes.Empty 204, (Storage.deleteSubscription db now id userId).2))
    as Hdeleted.
  { unfold deleted, Routes.delete_subscription.
    destruct (Storage.deleteSubscription db now id userId) as [found db1].
    cbn in Hfound. by rewrite Hfound. }
  split; [by rewrite Hdeleted|]. split.
  { rewrite Hdeleted. cbn [snd]. apply deleted_not_listed. }
  pose proof (deleteSubscription_row db now s Hs) as Hrow.
  fold id userId in Hrow.
  unfold updated. rewrite Hdeleted. cbn [snd].
  set (db1 := (Storage.deleteSubscription db now id userId).2) in *.
  unfold Routes.put_subscription.
  change (Zod.insertSubscriptionSchema_partial Samples.activate_body)
    with (Some (InsertSubscription.mk None None None None None None None None None
                  (Some true))).
  unfold Storage.updateSubscription. cbn [InsertSubscription.amount mbind option_bind].
  assert (Storage.set_inactive now s
          ∈ filter (Storage.by_id id userId) (Pg.subscriptions db1)) as Hin
    by by apply list_elem_of_filter.
  destruct (filter (Storage.by_id id userId) (Pg.subscriptions db1))
    as [|r rest] eqn:Hrows; [by apply elem_of_nil in Hin|].
  assert (r ∈ filter (Storage.by_id id userId) (Pg.subscriptions db1)) as Hr
    by (rewrite Hrows; left).
  apply list_elem_of_filter in Hr as [[Hrid Hru] Hr].
  cbn [fst snd]. eexists. split; [done|]. split; [done|]. split; [done|].
  apply getSubscriptions_elem. split; [|done].
  cbn [Pg.subscriptions]. apply list_elem_of_fmap. exists r. by rewrite decide_True.
Qed.

Lemma deleted_subscription_reactivated_witness :
  let deleted := Routes.delete_subscription Examples.db_netflix 7 "u1" "s1" in
  let updated := Routes.put_subscription deleted.2 8 "u1" "s1" Samples.activate_body in
  deleted.1 = Routes.Empty 204
  ∧ (∀ r, r ∈ Storage.getSubscriptions deleted.2 "u1" → Subscription.id r ≠ "s1")
  ∧ ∃ s', updated.1 = Routes.Json 200 s'
      ∧ Subscription.id s' = "s1"
      ∧ Subscription.isActive s' = true
      ∧ s' ∈ Storage.getSubscriptions updated.2 "u1".
Proof.
  apply (deleted_subscription_reactivated Examples.db_netflix 7 8 Examples.netflix).
  left.
Defined.

(** ** Deletes *)

(** X13: a delete removes no row and rewrites no column but [isActive]
    and [updatedAt]: the other tables and every other column of
    [subscriptions] are as before, and no row becomes active. *)
Theorem delete_keeps_columns (db : Pg.Db) (now : Z) (userId id : string) :
  let db' := (Routes.delete_subscription db now userId id).2 in
  Pg.users db' = Pg.users db
  ∧ Pg.userSettings db' = Pg.userSettings db
  ∧ Subscription.id <$> Pg.subscriptions db' = Subscription.id <$> Pg.subscriptions db
  ∧ Subscription.userId <$> Pg.subscriptions db'
    = Subscription.userId <$> Pg.subscriptions db
  ∧ Subscription.name <$> Pg.subscriptions db'
    = Subscription.name <$> Pg.subscriptions db
  ∧ Subscription.amount <$> Pg.subscriptions db'
    = Subscription.amount <$> Pg.subscriptions db
  ∧ Subscription.currency <$> Pg.subscriptions db'
    = Subscription.currency <$> Pg.subscriptions db
  ∧ Subscription.billingPeriod <$> Pg.subscriptions db'
    = Subscription.billingPeriod <$> Pg.subscriptions db
  ∧ Subscription.nextPaymentDate <$> Pg.subscriptions db'
    = Subscription.nextPaymentDate <$> Pg.subscriptions db
  ∧ Subscription.reminderDays <$> Pg.subscriptions db'
    = Subscription.reminderDays <$> Pg.subscriptions db
  ∧ Subscription.description <$> Pg.subscriptions db'
    = Subscription.description <$> Pg.subscriptions db
  ∧ Subscription.emailNotifications <$> Pg.subscriptions db'
    = Subscription.emailNotifications <$> Pg.subscriptions db
  ∧ Subscription.pushNotifications <$> Pg.subscriptions db'
    = Subscription.pushNotifications <$> Pg.subscriptions db
  ∧ Subscription.createdAt <$> Pg.subscriptions db'
    = Subscription.createdAt <$> Pg.subscriptions db
  ∧ Forall2 (λ r r', Subscription.isActive r' = true → r' = r)
      (Pg.subscriptions db) (Pg.subscriptions db').
Proof.
  intros db'.
  assert (db' = (Storage.deleteSubscription db now id userId).2) as ->.
  { unfold db', Routes.delete_subscription.
    destruct (Storage.deleteSubscription db now id userId) as [[] db1]; done. }
  cbn [Storage.deleteSubscription snd Pg.users Pg.userSettings Pg.subscriptions].
  repeat (match goal with |- _ ∧ _ => split end); try done;
    try (rewrite <- list_fmap_compose; apply list_fmap_ext; intros i r _;
         cbn; by case_decide).
  apply Forall2_fmap_r, Forall_Forall2_diag, Forall_forall.
  intros r _. cbn. case_decide; [cbn; intros; discriminate|done].
Qed.

(** ** The constraints of the schema are kept *)

(** A stored amount fits [decimal(10, 2)]. *)
Lemma numeric_in_range (text : string) (amount : Numeric.t) :
  Pg.numeric_in text = Some amount →
  Z.abs (Numeric.hundredths amount) < 10000000000.
Proof.
  unfold Pg.numeric_in.
  destruct (Pg.sign _) as [negative number].
  destruct number as [|c number]; [done|].
  case_bool_decide.
  - destruct (Pg.magnitude (c :: number)) as [[cents rest]|]; [|done]. cbn.
    destruct (forallb Pg.is_space rest); [|done]. cbn.
    case_bool_decide as Hcents; [|done]. intros [= <-]. cbn.
    destruct negative; lia.
  - unfold Pg.not_a_number. intros Hnan.
    repeat (match type of Hnan with
            | match ?l with _ => _ end = _ => destruct l; [done|]
            | (if ?b then _ else _) = _ => destruct b; [|done]
            end).
    by injection Hnan as <-.
Qed.

Lemma constraints_createSubscription db uuid now v userId s db' :
  Constraints.holds db →
  Storage.createSubscription db uuid now v userId = Some (s, db') →
  Constraints.holds db'.
Proof.
  intros (Hid & Hsid & Hsu & Hu & Hsuu & Ham) H.
  unfold Storage.createSubscription in H.
  destruct (InsertSubscription.name v) as [name|]; [|done].
  destruct (InsertSubscription.amount v) as [text|]; [|done]. cbn in H.
  destruct (Pg.numeric_in text) as [amount|] eqn:Hamount; [|done].
  destruct (InsertSubscription.billingPeriod v) as [period|]; [|done].
  destruct (InsertSubscription.nextPaymentDate v) as [date|]; [|done]. cbn in H.
  destruct (Pg.timestamp_in date) as [nextPaymentDate|]; [|done]. cbn in H.
  case_decide; [done|]. case_decide; [|done]. injection H as <- <-.
  unfold Constraints.holds. cbn [Pg.users Pg.subscriptions Pg.userSettings].
  rewrite fmap_app, !Forall_app, !Forall_singleton. cbn.
  repeat (match goal with |- _ ∧ _ => split end); try done.
  - apply NoDup_app. split; [done|]. split; [|apply NoDup_singleton].
    intros x Hx ->%list_elem_of_singleton. done.
  - by eapply numeric_in_range.
Qed.

Lemma constraints_updateSubscription db now id userId v r db' :
  Constraints.holds db →
  Storage.updateSubscription db now id userId v = Some (r, db') →
  Constraints.holds db'.
Proof.
  intros (Hid & Hsid & Hsu & Hu & Hsuu & Ham) H.
  unfold Storage.updateSubscription in H.
  destruct (match InsertSubscription.amount v with
            | None => Some None
            | Some text => Some <$> Pg.numeric_in text
            end) as [amount|] eqn:Hamount; [|done].
  destruct (match InsertSubscription.nextPaymentDate v with
            | None => Some None
            | Some date => Some <$> Pg.timestamp_in date
            end) as [date|]; [|done].
  cbn in H. injection H as <- <-.
  assert (∀ c, amount = Some c → Z.abs (Numeric.hundredths c) < 10000000000) as Hc.
  { intros c ->. destruct (InsertSubscription.amount v) as [text|]; [|done].
    destruct (Pg.numeric_in text) as [c'|] eqn:Hn; [|done].
    injection Hamount as ->. by eapply numeric_in_range. }
  unfold Constraints.holds. cbn [Pg.users Pg.subscriptions Pg.userSettings].
  repeat (match goal with |- _ ∧ _ => split end); try done.
  - rewrite <- list_fmap_compose.
    erewrite list_fmap_ext; [exact Hid|]. intros i s _. cbn. by case_decide.
  - apply Forall_fmap. eapply Forall_impl; [exact Hu|].
    intros s Hs. cbn. by case_decide.
  - apply Forall_fmap. eapply Forall_impl; [exact Ham|].
    intros s Hs. cbn. case_decide; [|done]. cbn.
    destruct amount as [c|]; cbn; [by apply Hc|done].
Qed.

Lemma constraints_deleteSubscription db now id userId :
  Constraints.holds db →
  Constraints.holds (Storage.deleteSubscription db now id userId).2.
Proof.
  intros (Hid & Hsid & Hsu & Hu & Hsuu & Ham).
  unfold Constraints.holds, Storage.deleteSubscription.
  cbn [snd Pg.users Pg.subscriptions Pg.userSettings].
  repeat (match goal with |- _ ∧ _ => split end); try done.
  - rewrite <- list_fmap_compose.
    erewrite list_fmap_ext; [exact Hid|]. intros i s _. cbn. by case_decide.
  - apply Forall_fmap. eapply Forall_impl; [exact Hu|].
    intros s Hs. cbn. by case_decide.
  - apply Forall_fmap. eapply Forall_impl; [exact Ham|].
    intros s Hs. cbn. by case_decide.
Qed.

Lemma constraints_upsertUserSettings db uuid now userId v r db' :
  Constraints.holds db →
  Storage.upsertUserSettings db uuid now userId v = Some (r, db') →
  Constraints.holds db'.
Proof.
  intros (Hid & Hsid & Hsu & Hu & Hsuu & Ham) H.
  unfold Storage.upsertUserSettings in H.
  destruct (filter (λ r, UserSettings.userId r = userId) (Pg.userSettings db))
    as [|existing rest] eqn:Hrows.
  - case_decide; [done|]. case_decide; [|done]. injection H as <- <-.
    unfold Constraints.holds. cbn [Pg.users Pg.subscriptions Pg.userSettings].
    rewrite !fmap_app, !Forall_app, !Forall_singleton. cbn.
    repeat (match goal with |- _ ∧ _ => split end); try done.
    + apply NoDup_app. split; [done|]. split; [|apply NoDup_singleton].
      intros x Hx ->%list_elem_of_singleton. done.
    + apply NoDup_app. split; [done|]. split; [|apply NoDup_singleton].
      intros x Hx ->%list_elem_of_singleton.
      apply list_elem_of_fmap in Hx as (r0 & Hr0 & Hin).
      assert (r0 ∈ filter (λ r, UserSettings.userId r = userId) (Pg.userSettings db))
        as Hf by by apply list_elem_of_filter.
      rewrite Hrows in Hf. by apply elem_of_nil in Hf.
  - injection H as <- <-.
    unfold Constraints.holds. cbn [Pg.users Pg.subscriptions Pg.userSettings].
    repeat (match goal with |- _ ∧ _ => split end); try done.
    + rewrite <- list_fmap_compose.
      erewrite list_fmap_ext; [exact Hsid|]. intros i s _. cbn. by case_decide.
    + rewrite <- list_fmap_compose.
      erewrite list_fmap_ext; [exact Hsu|]. intros i s _. cbn. by case_decide.
    + apply Forall_fmap. eapply Forall_impl; [exact Hsuu|].
      intros s Hs. cbn. by case_decide.
Qed.

(** X14: every write handler leaves the tables within the constraints
    [shared/schema.ts] declares: the primary keys and
    [user_settings.userId] stay unique, every [userId] is a user, and
    every amount fits [decimal(10, 2)]. *)
Theorem handlers_keep_constraints (db : Pg.Db) (uuid : string) (now : Z)
    (userId id : string) (body : gmap string jsval) :
  Constraints.holds db →
  Constraints.holds (Routes.post_subscriptions db uuid now userId body).2
  ∧ Constraints.holds (Routes.put_subscription db now userId id body).2
  ∧ Constraints.holds (Routes.delete_subscription db now userId id).2
  ∧ Constraints.holds (Routes.put_settings db uuid now userId body).2.
Proof.
  intros H. repeat (match goal with |- _ ∧ _ => split end).
  - unfold Routes.post_subscriptions.
    destruct (Zod.insertSubscriptionSchema body) as [v|]; [|done].
    destruct (Storage.createSubscription db uuid now v userId) as [[s db']|] eqn:E;
      [|done].
    by eapply constraints_createSubscription.
  - unfold Routes.put_subscription.
    destruct (Zod.insertSubscriptionSchema_partial body) as [v|]; [|done].
    destruct (Storage.updateSubscription db now id userId v) as [[r db']|] eqn:E;
      [|done].
    pose proof (constraints_updateSubscription _ _ _ _ _ _ _ H E).
    by destruct r.
  - pose proof (constraints_deleteSubscription db now id userId H) as Hd.
    unfold Routes.delete_subscription.
    destruct (Storage.deleteSubscription db now id userId) as [[] db']; done.
  - unfold Routes.put_settings.
    destruct (Zod.insertUserSettingsSchema body) as [v|]; [|done].
    destruct (Storage.upsertUserSettings db uuid now userId v) as [[s db']|] eqn:E;
      [|done].
    by eapply constraints_upsertUserSettings.
Qed.

Lemma handlers_keep_constraints_witness :
  Constraints.holds
    (Routes.post_subscriptions Samples.db_two_users "s9" 7 "u2" Examples.netflix_body).2
  ∧ Constraints.holds
      (Routes.put_subscription Samples.db_two_users 7 "u2" "s4" Examples.netflix_body).2
  ∧ Constraints.holds (Routes.delete_subscription Samples.db_two_users 7 "u2" "s4").2
  ∧ Constraints.holds
      (Routes.put_settings Samples.db_two_users "s9" 7 "u2" Examples.netflix_body).2.
Proof.
  apply (handlers_keep_constraints Samples.db_two_users "s9" 7 "u2" "s4"
           Examples.netflix_body).
  by apply (bool_decide_unpack _).
Defined.

Lemma NoDup_fmap_same_key {A B} (f : A → B) (l : list A) (x y : A) :
  NoDup (f <$> l) → x ∈ l → y ∈ l → f x = f y → x = y.
Proof.
  induction l as [|a l IH]; cbn; [by intros _ ?%elem_of_nil|].
  intros [Ha Hl]%NoDup_cons [->|Hx]%elem_of_cons [->|Hy]%elem_of_cons Hxy; try done.
  - destruct Ha. rewrite Hxy. apply list_elem_of_fmap. by exists y.
  - destruct Ha. rewrite <- Hxy. apply list_elem_of_fmap. by exists x.
  - by apply IH.
Qed.

(** X15: under the constraints an id names at most one row: an update
    answers the only row it changed, and every other row of the table is
    as it was. *)
Theorem put_changes_one_row (db db' : Pg.Db) (now : Z) (userId id : string)
    (body : gmap string jsval) (status : Z) (s' : Subscription.t) :
  Constraints.holds db →
  Routes.put_subscription db now userId id body = (Routes.Json status s', db') →
  length (Pg.subscriptions db') = length (Pg.subscriptions db)
  ∧ (∀ r, r ∈ Pg.subscriptions db → Subscription.id r ≠ id →
          r ∈ Pg.subscriptions db')
  ∧ (∀ r', r' ∈ Pg.subscriptions db' → Subscription.id r' = id → r' = s')
  ∧ Pg.users db' = Pg.users db
  ∧ Pg.userSettings db' = Pg.userSettings db.
Proof.
  intros (Hid & _) H. unfold Routes.put_subscription in H.
  destruct (Zod.insertSubscriptionSchema_partial body) as [v|]; [|done].
  unfold Storage.updateSubscription in H.
  destruct (match InsertSubscription.amount v with
            | None => Some None
            | Some text => Some <$> Pg.numeric_in text
            end) as [amount|]; [|done].
  destruct (match InsertSubscription.nextPaymentDate v with
            | None => Some None
            | Some date => Some <$> Pg.timestamp_in date
            end) as [date|]; [|done].
  cbn in H.
  destruct (filter (Storage.by_id id userId) (Pg.subscriptions db))
    as [|s rest] eqn:Hrows; [done|].
  cbn in H. injection H as <- <- <-.
  cbn [Pg.users Pg.subscriptions Pg.userSettings].
  assert (s ∈ filter (Storage.by_id id userId) (Pg.subscriptions db)) as Hs
    by (rewrite Hrows; left).
  apply list_elem_of_filter in Hs as [[Hsid Hsu] Hs].
  split; [by rewrite length_fmap|]. split; [|split; [|done]].
  - intros r Hr Hne. apply list_elem_of_fmap. exists r. split; [|done].
    rewrite decide_False; [done|]. by intros [? _].
  - intros r' (r & -> & Hr)%list_elem_of_fmap Hr'.
    assert (Subscription.id r = id) as Hrid by (by case_decide).
    assert (r = s) as ->.
    { apply (NoDup_fmap_same_key Subscription.id (Pg.subscriptions db)); try done.
      congruence. }
    by rewrite decide_True.
Qed.

Lemma put_changes_one_row_witness :
  length (Pg.subscriptions Examples.db_deleted) = length (Pg.subscriptions Examples.db_netflix)
  ∧ (∀ r, r ∈ Pg.subscriptions Examples.db_netflix → Subscription.id r ≠ "s1" →
          r ∈ Pg.subscriptions Examples.db_deleted)
  ∧ (∀ r', r' ∈ Pg.subscriptions Examples.db_deleted → Subscription.id r' = "s1" →
           r' = Examples.netflix_deleted)
  ∧ Pg.users Examples.db_deleted = Pg.users Examples.db_netflix
  ∧ Pg.userSettings Examples.db_deleted = Pg.userSettings Examples.db_netflix.
Proof.
  apply (put_changes_one_row Examples.db_netflix Examples.db_deleted 7 "u1" "s1"
           Samples.deactivate_body 200 Examples.netflix_deleted).
  - by apply (bool_decide_unpack _).
  - vm_compute. reflexivity.
Defined.

(** ** Request bodies *)

Lemma field_insert_ne (body : gmap string jsval) (k key : string) (x : jsval) :
  k ≠ key → Zod.field (<[k:=x]> body) key = Zod.field body key.
Proof. intros Hne. unfold Zod.field. by rewrite lookup_insert_ne. Qed.

Lemma subscription_shape_insert req (body : gmap string jsval) (k : string)
    (x : jsval) :
  ¬ (k ∈ Shape.subscription_keys) →
  Zod.subscription_shape req (<[k:=x]> body) = Zod.subscription_shape req body.
Proof.
  intros Hk. unfold Zod.subscription_shape.
  rewrite !field_insert_ne; [done|..]; intros ->; apply Hk;
    unfold Shape.subscription_keys; set_solver.
Qed.

(** X16: a key outside the schema of a request is stripped before the
    handler acts.  A subscription request with a key added that is none
    of the ten keys of its schema (["id"], ["userId"], ["createdAt"], ...)
    is answered exactly as the request without it, so a caller cannot
    choose the id, the owner or the timestamps of a row; and a settings
    request with a key added that is none of the five keys of its schema
    is answered exactly as the request without it. *)
Theorem unknown_keys_ignored (db : Pg.Db) (uuid : string) (now : Z)
    (userId id k : string) (x : jsval) (body : gmap string jsval) :
  (¬ (k ∈ Shape.subscription_keys) →
   Routes.post_subscriptions db uuid now userId (<[k:=x]> body)
   = Routes.post_subscriptions db uuid now userId body
   ∧ Routes.put_subscription db now userId id (<[k:=x]> body)
     = Routes.put_subscription db now userId id body)
  ∧ (¬ (k ∈ Shape.settings_keys) →
     Routes.put_settings db uuid now userId (<[k:=x]> body)
     = Routes.put_settings db uuid now userId body).
Proof.
  split.
  - intros Hk. split.
    + unfold Routes.post_subscriptions, Zod.insertSubscriptionSchema.
      by rewrite subscription_shape_insert.
    + unfold Routes.put_subscription, Zod.insertSubscriptionSchema_partial.
      by rewrite subscription_shape_insert.
  - intros Hk. unfold Routes.put_settings, Zod.insertUserSettingsSchema.
    rewrite !field_insert_ne; [done|..]; intros ->; apply Hk;
      unfold Shape.settings_keys; set_solver.
Qed.

(** A stray [userId] in a subscription request, and a stray [amount] in a
    settings request. *)
Lemma unknown_keys_ignored_witness :
  (Routes.post_subscriptions Examples.db_empty "s1" 0 "u1"
     (<["userId" := JString "u2"]> Examples.netflix_body)
   = Routes.post_subscriptions Examples.db_empty "s1" 0 "u1" Examples.netflix_body
   ∧ Routes.put_subscription Examples.db_empty 0 "u1" "s1"
       (<["userId" := JString "u2"]> Examples.netflix_body)
     = Routes.put_subscription Examples.db_empty 0 "u1" "s1" Examples.netflix_body)
  ∧ Routes.put_settings Examples.db_empty "k1" 0 "u1"
      (<["amount" := JString "1"]> Examples.dark_mode_body)
    = Routes.put_settings Examples.db_empty "k1" 0 "u1" Examples.dark_mode_body.
Proof.
  split.
  - apply (unknown_keys_ignored Examples.db_empty "s1" 0 "u1" "s1" "userId"
             (JString "u2") Examples.netflix_body).
    by apply (bool_decide_unpack _).
  - apply (unknown_keys_ignored Examples.db_empty "k1" 0 "u1" "s1" "amount"
             (JString "1") Examples.dark_mode_body).
    by apply (bool_decide_unpack _).
Defined.

Lemma required_optional {A} (p : jsval → option A) (x : jsval) (o : option A) :
  p JUndefined = None →
  Zod.required p x = Some o ↔ Zod.optional p x = Some o ∧ is_Some o.
Proof.
  intros Hu. unfold Zod.required, Zod.optional. split.
  - intros H. destruct (p x) as [a|] eqn:Hp; [|done]. injection H as <-.
    split; [|by eexists]. destruct x; rewrite ?Hp; try done. congruence.
  - intros [H [a ->]]. destruct x; [done|..]; done.
Qed.

(** X17: the schema of an update is the schema of a create with every
    key made optional: a body is accepted for a create exactly when it
    is accepted for an update and supplies [name], [amount],
    [billingPeriod] and [nextPaymentDate], and both read it as the same
    values. *)
Theorem partial_schema_relaxes_required (body : gmap string jsval)
    (v : InsertSubscription.t) :
  Zod.insertSubscriptionSchema body = Some v
  ↔ Zod.insertSubscriptionSchema_partial body = Some v
    ∧ is_Some (InsertSubscription.name v)
    ∧ is_Some (InsertSubscription.amount v)
    ∧ is_Some (InsertSubscription.billingPeriod v)
    ∧ is_Some (InsertSubscription.nextPaymentDate v).
Proof.
  unfold Zod.insertSubscriptionSchema, Zod.insertSubscriptionSchema_partial,
    Zod.subscription_shape.
  split.
  - intros H.
    destruct (Zod.required Zod.z_string (Zod.field body "name")) as [n|] eqn:Hn;
      [|done].
    destruct (Zod.required Zod.z_string (Zod.field body "amount")) as [a|] eqn:Ha;
      [|done].
    cbn in H.
    destruct (Zod.optional Zod.z_string (Zod.field body "currency")) as [c|];
      [|done].
    cbn in H.
    destruct (Zod.required Zod.z_string (Zod.field body "billingPeriod"))
      as [b|] eqn:Hb; [|done].
    destruct (Zod.required Zod.z_date (Zod.field body "nextPaymentDate"))
      as [d|] eqn:Hd; [|done].
    apply required_optional in Hn as [-> ?]; [|done].
    apply required_optional in Ha as [-> ?]; [|done].
    apply required_optional in Hb as [-> ?]; [|done].
    apply required_optional in Hd as [-> ?]; [|done].
    cbn in H |- *. split; [exact H|].
    simplify_option_eq. done.
  - intros (H & Hn & Ha & Hb & Hd).
    destruct (Zod.optional Zod.z_string (Zod.field body "name")) as [n|] eqn:En;
      [|done].
    destruct (Zod.optional Zod.z_string (Zod.field body "amount")) as [a|] eqn:Ea;
      [|done].
    cbn in H.
    destruct (Zod.optional Zod.z_string (Zod.field body "currency")) as [c|];
      [|done].
    cbn in H.
    destruct (Zod.optional Zod.z_string (Zod.field body "billingPeriod"))
      as [b|] eqn:Eb; [|done].
    destruct (Zod.optional Zod.z_date (Zod.field body "nextPaymentDate"))
      as [d|] eqn:Ed; [|done].
    cbn in H.
    assert (n = InsertSubscription.name v ∧ a = InsertSubscription.amount v
            ∧ b = InsertSubscription.billingPeriod v
            ∧ d = InsertSubscription.nextPaymentDate v) as (-> & -> & -> & ->).
    { simplify_option_eq. done. }
    rewrite (proj2 (required_optional _ _ _ eq_refl) (conj En Hn)).
    rewrite (proj2 (required_optional _ _ _ eq_refl) (conj Ea Ha)).
    rewrite (proj2 (required_optional _ _ _ eq_refl) (conj Eb Hb)).
    rewrite (proj2 (required_optional _ _ _ eq_refl) (conj Ed Hd)).
    exact H.
Qed.

(** ** Error responses *)

(** X18: a write that answers an error (400 for a body the schema
    refuses, 404 for an id that is not the caller's, 500 for a statement
    the database refuses) leaves every table as it was; and these are
    the only statuses an error carries.  The delete handler answers 404
    when the store reports no row and 500 when the call of the store
    throws, whatever the store does. *)
Theorem error_responses_change_nothing (db : Pg.Db) (uuid : string) (now : Z)
    (userId id : string) (body : gmap string jsval) :
  (∀ status message db',
     Routes.post_subscriptions db uuid now userId body
     = (Routes.Message status message, db') →
     db' = db ∧ (status = 400 ∨ status = 500))
  ∧ (∀ status message db',
       Routes.put_subscription db now userId id body
       = (Routes.Message status message, db') →
       db' = db ∧ (status = 400 ∨ status = 404 ∨ status = 500))
  ∧ (∀ status message db',
       Routes.delete_subscription db now userId id
       = (Routes.Message status message, db') →
       db' = db ∧ (status = 404 ∨ status = 500))
  ∧ (∀ deleted status message db',
       Routes.delete_handler db deleted = (Routes.Message status message, db') →
       (status = 404 ∧ deleted = Some (false, db'))
       ∨ (status = 500 ∧ deleted = None ∧ db' = db))
  ∧ (∀ status message db',
       Routes.put_settings db uuid now userId body
       = (Routes.Message status message, db') →
       db' = db ∧ (status = 400 ∨ status = 500)).
Proof.
  repeat (match goal with |- _ ∧ _ => split end);
    [intros status message db'..|intros deleted|intros status message db'].
  - unfold Routes.post_subscriptions.
    destruct (Zod.insertSubscriptionSchema body) as [v|];
      [|intros [= <- _ <-]; auto].
    destruct (Storage.createSubscription db uuid now v userId) as [[s db1]|];
      [done|intros [= <- _ <-]; auto].
  - unfold Routes.put_subscription.
    destruct (Zod.insertSubscriptionSchema_partial body) as [v|];
      [|intros [= <- _ <-]; auto].
    unfold Storage.updateSubscription.
    destruct (match InsertSubscription.amount v with
              | None => Some None
              | Some text => Some <$> Pg.numeric_in text
              end) as [amount|]; [|intros [= <- _ <-]; auto].
    destruct (match InsertSubscription.nextPaymentDate v with
              | None => Some None
              | Some date => Some <$> Pg.timestamp_in date
              end) as [date|]; [|intros [= <- _ <-]; auto].
    cbn.
    destruct (filter (Storage.by_id id userId) (Pg.subscriptions db))
      as [|s rest] eqn:Hrows; [|done].
    cbn. intros [= <- _ <-]. split; [|auto].
    rewrite fmap_unmatched; [apply db_eta|].
    apply Forall_forall. intros r Hr Hid.
    assert (r ∈ filter (Storage.by_id id userId) (Pg.subscriptions db)) as Hf
      by by apply list_elem_of_filter.
    rewrite Hrows in Hf. by apply elem_of_nil in Hf.
  - unfold Routes.delete_subscription, Routes.delete_handler,
      Storage.deleteSubscription.
    case_bool_decide as Hcount; [done|]. intros [= <- _ <-]. split; [|auto].
    rewrite fmap_unmatched; [apply db_eta|].
    apply Forall_forall. intros r Hr Hid. apply Hcount.
    assert (r ∈ filter (Storage.by_id id userId) (Pg.subscriptions db)) as Hf
      by by apply list_elem_of_filter.
    destruct (filter (Storage.by_id id userId) (Pg.subscriptions db));
      [by apply elem_of_nil in Hf|cbn; lia].
  - intros status message db'. unfold Routes.delete_handler.
    destruct deleted as [[[] db1]|]; [done|..]; intros [= <- _ <-]; auto.
  - unfold Routes.put_settings.
    destruct (Zod.insertUserSettingsSchema body) as [v|];
      [|intros [= <- _ <-]; auto].
    destruct (Storage.upsertUserSettings db uuid now userId v) as [[s db1]|];
      [done|intros [= <- _ <-]; auto].
Qed.

(** ** Settings *)

(** X19: an update of the settings of a user who has a row changes that
    row in place: its [id], owner and [createdAt] stay, [updatedAt] is
    the time of the request, a key the body leaves out keeps its value
    and a supplied key takes the supplied one; no row is added and the
    subscriptions are untouched. The generated key is not used. *)
Theorem put_settings_updates_in_place (db db' : Pg.Db) (uuid : string) (now : Z)
    (userId : string) (body : gmap string jsval) (old r : UserSettings.t)
    (status : Z) :
  Storage.getUserSettings db userId = Some old →
  Routes.put_settings db uuid now userId body = (Routes.Json status r, db') →
  status = 200
  ∧ UserSettings.id r = UserSettings.id old
  ∧ UserSettings.userId r = userId
  ∧ UserSettings.createdAt r = UserSettings.createdAt old
  ∧ UserSettings.updatedAt r = Some now
  ∧ View.kept_or_set Zod.z_boolean (Zod.field body "emailNotifications")
      (UserSettings.emailNotifications old) (UserSettings.emailNotifications r)
  ∧ View.kept_or_set Zod.z_boolean (Zod.field body "pushNotifications")
      (UserSettings.pushNotifications old) (UserSettings.pushNotifications r)
  ∧ View.kept_or_set Zod.z_boolean (Zod.field body "weeklySummary")
      (UserSettings.weeklySummary old) (UserSettings.weeklySummary r)
  ∧ View.kept_or_set Zod.z_boolean (Zod.field body "darkMode")
      (UserSettings.darkMode old) (UserSettings.darkMode r)
  ∧ View.kept_or_set Zod.z_string (Zod.field body "defaultCurrency")
      (UserSettings.defaultCurrency old) (UserSettings.defaultCurrency r)
  ∧ Storage.getUserSettings db' userId = Some r
  ∧ length (Pg.userSettings db') = length (Pg.userSettings db)
  ∧ Pg.subscriptions db' = Pg.subscriptions db
  ∧ Pg.users db' = Pg.users db.
Proof.
  intros Hold H. unfold Routes.put_settings in H.
  destruct (Zod.insertUserSettingsSchema body) as [v|] eqn:Hv; [|done].
  unfold Storage.upsertUserSettings in H.
  unfold Storage.getUserSettings in Hold.
  destruct (filter (λ r, UserSettings.userId r = userId) (Pg.userSettings db))
    as [|existing rest] eqn:Hrows; [done|].
  injection Hold as ->. injection H as <- <- <-.
  assert (old ∈ filter (λ r, UserSettings.userId r = userId) (Pg.userSettings db))
    as Hin by (rewrite Hrows; left).
  apply list_elem_of_filter in Hin as [Hu Hin].
  unfold Zod.insertUserSettingsSchema in Hv.
  destruct (Zod.optional Zod.z_boolean (Zod.field body "emailNotifications"))
    as [e|] eqn:He; [|done].
  destruct (Zod.optional Zod.z_boolean (Zod.field body "pushNotifications"))
    as [p|] eqn:Hp; [|done].
  destruct (Zod.optional Zod.z_boolean (Zod.field body "weeklySummary"))
    as [w|] eqn:Hw; [|done].
  destruct (Zod.optional Zod.z_boolean (Zod.field body "darkMode"))
    as [d|] eqn:Hd; [|done].
  destruct (Zod.optional Zod.z_string (Zod.field body "defaultCurrency"))
    as [c|] eqn:Hc; [|done].
  cbn in Hv. injection Hv as <-.
  cbn [Pg.users Pg.subscriptions Pg.userSettings Storage.set_settings
       UserSettings.id UserSettings.userId UserSettings.createdAt
       UserSettings.updatedAt UserSettings.emailNotifications
       UserSettings.pushNotifications UserSettings.weeklySummary
       UserSettings.darkMode UserSettings.defaultCurrency
       InsertUserSettings.emailNotifications InsertUserSettings.pushNotifications
       InsertUserSettings.weeklySummary InsertUserSettings.darkMode
       InsertUserSettings.defaultCurrency].
  repeat (match goal with |- _ ∧ _ => split end); try done;
    try (by apply optional_kept_or_set).
  - unfold Storage.getUserSettings. cbn [Pg.userSettings].
    erewrite (filter_fmap_update (λ r, UserSettings.userId r = userId));
      [by rewrite Hrows|done].
  - by rewrite length_fmap.
Qed.

Lemma put_settings_updates_in_place_witness :
  let old := UserSettings.mk "k1" "u1" true true false false "USD" (Some 1) (Some 1) in
  let r := UserSettings.mk "k1" "u1" true true false true "USD" (Some 1) (Some 9) in
  let db := Pg.mkDb ["u1"] [] [old] in
  let db' := Pg.mkDb ["u1"] [] [r] in
  let body := Examples.dark_mode_body in
  200 = 200
  ∧ UserSettings.id r = UserSettings.id old
  ∧ UserSettings.userId r = "u1"
  ∧ UserSettings.createdAt r = UserSettings.createdAt old
  ∧ UserSettings.updatedAt r = Some 9
  ∧ View.kept_or_set Zod.z_boolean (Zod.field body "emailNotifications")
      (UserSettings.emailNotifications old) (UserSettings.emailNotifications r)
  ∧ View.kept_or_set Zod.z_boolean (Zod.field body "pushNotifications")
      (UserSettings.pushNotifications old) (UserSettings.pushNotifications r)
  ∧ View.kept_or_set Zod.z_boolean (Zod.field body "weeklySummary")
      (UserSettings.weeklySummary old) (UserSettings.weeklySummary r)
  ∧ View.kept_or_set Zod.z_boolean (Zod.field body "darkMode")
      (UserSettings.darkMode old) (UserSettings.darkMode r)
  ∧ View.kept_or_set Zod.z_string (Zod.field body "defaultCurrency")
      (UserSettings.defaultCurrency old) (UserSettings.defaultCurrency r)
  ∧ Storage.getUserSettings db' "u1" = Some r
  ∧ length (Pg.userSettings db') = length (Pg.userSettings db)
  ∧ Pg.subscriptions db' = Pg.subscriptions db
  ∧ Pg.users db' = Pg.users db.
Proof.
  intros old r db db' body.
  apply (put_settings_updates_in_place db db' "k2" 9 "u1" body old r 200).
  - reflexivity.
  - vm_compute. reflexivity.
Defined.

(** X20: the first update of a user's settings inserts the user's row:
    it gets the generated key, both timestamps are the time of the
    request, and a key the body leaves out gets the default of its
    column ([true], [true], [false], [false], ["USD"]), the values a
    read answered before the row existed. *)
Theorem put_settings_first_write (db db' : Pg.Db) (uuid : string) (now : Z)
    (userId : string) (body : gmap string jsval) (r : UserSettings.t)
    (status : Z) :
  Storage.getUserSettings db userId = None →
  Routes.put_settings db uuid now userId body = (Routes.Json status r, db') →
  status = 200
  ∧ UserSettings.id r = uuid
  ∧ ¬ (uuid ∈ UserSettings.id <$> Pg.userSettings db)
  ∧ userId ∈ Pg.users db
  ∧ UserSettings.userId r = userId
  ∧ UserSettings.createdAt r = Some now
  ∧ UserSettings.updatedAt r = Some now
  ∧ View.kept_or_set Zod.z_boolean (Zod.field body "emailNotifications")
      true (UserSettings.emailNotifications r)
  ∧ View.kept_or_set Zod.z_boolean (Zod.field body "pushNotifications")
      true (UserSettings.pushNotifications r)
  ∧ View.kept_or_set Zod.z_boolean (Zod.field body "weeklySummary")
      false (UserSettings.weeklySummary r)
  ∧ View.kept_or_set Zod.z_boolean (Zod.field body "darkMode")
      false (UserSettings.darkMode r)
  ∧ View.kept_or_set Zod.z_string (Zod.field body "defaultCurrency")
      "USD" (UserSettings.defaultCurrency r)
  ∧ Pg.userSettings db' = Pg.userSettings db ++ [r]
  ∧ Pg.subscriptions db' = Pg.subscriptions db
  ∧ Pg.users db' = Pg.users db.
Proof.
  intros Hold H. unfold Routes.put_settings in H.
  destruct (Zod.insertUserSettingsSchema body) as [v|] eqn:Hv; [|done].
  unfold Storage.upsertUserSettings in H.
  unfold Storage.getUserSettings in Hold.
  destruct (filter (λ r, UserSettings.userId r = userId) (Pg.userSettings db))
    as [|existing rest] eqn:Hrows; [|done].
  case_decide as Hfresh; [done|]. case_decide as Huser; [|done].
  injection H as <- <- <-.
  unfold Zod.insertUserSettingsSchema in Hv.
  destruct (Zod.optional Zod.z_boolean (Zod.field body "emailNotifications"))
    as [e|] eqn:He; [|done].
  destruct (Zod.optional Zod.z_boolean (Zod.field body "pushNotifications"))
    as [p|] eqn:Hp; [|done].
  destruct (Zod.optional Zod.z_boolean (Zod.field body "weeklySummary"))
    as [w|] eqn:Hw; [|done].
  destruct (Zod.optional Zod.z_boolean (Zod.field body "darkMode"))
    as [d|] eqn:Hd; [|done].
  destruct (Zod.optional Zod.z_string (Zod.field body "defaultCurrency"))
    as [c|] eqn:Hc; [|done].
  cbn in Hv. injection Hv as <-.
  cbn [Pg.users Pg.subscriptions Pg.userSettings
       UserSettings.id UserSettings.userId UserSettings.createdAt
       UserSettings.updatedAt UserSettings.emailNotifications
       UserSettings.pushNotifications UserSettings.weeklySummary
       UserSettings.darkMode UserSettings.defaultCurrency
       InsertUserSettings.emailNotifications InsertUserSettings.pushNotifications
       InsertUserSettings.weeklySummary InsertUserSettings.darkMode
       InsertUserSettings.defaultCurrency].
  repeat (match goal with |- _ ∧ _ => split end); try done;
    by apply optional_kept_or_set.
Qed.

Lemma put_settings_first_write_witness :
  let r := UserSettings.mk "k1" "u1" true true false true "USD" (Some 9) (Some 9) in
  let db := Examples.db_empty in
  let db' := Pg.mkDb ["u1"] [] [r] in
  let body := Examples.dark_mode_body in
  200 = 200
  ∧ UserSettings.id r = "k1"
  ∧ ¬ ("k1" ∈ UserSettings.id <$> Pg.userSettings db)
  ∧ "u1" ∈ Pg.users db
  ∧ UserSettings.userId r = "u1"
  ∧ UserSettings.createdAt r = Some 9
  ∧ UserSettings.updatedAt r = Some 9
  ∧ View.kept_or_set Zod.z_boolean (Zod.field body "emailNotifications")
      true (UserSettings.emailNotifications r)
  ∧ View.kept_or_set Zod.z_boolean (Zod.field body "pushNotifications")
      true (UserSettings.pushNotifications r)
  ∧ View.kept_or_set Zod.z_boolean (Zod.field body "weeklySummary")
      false (UserSettings.weeklySummary r)
  ∧ View.kept_or_set Zod.z_boolean (Zod.field body "darkMode")
      false (UserSettings.darkMode r)
  ∧ View.kept_or_set Zod.z_string (Zod.field body "defaultCurrency")
      "USD" (UserSettings.defaultCurrency r)
  ∧ Pg.userSettings db' = Pg.userSettings db ++ [r]
  ∧ Pg.subscriptions db' = Pg.subscriptions db
  ∧ Pg.users db' = Pg.users db.
Proof.
  intros r db db' body.
  apply (put_settings_first_write db db' "k1" 9 "u1" body r 200).
  - reflexivity.
  - vm_compute. reflexivity.
Defined.

(** ** Statistics on the analytics page *)




(** ** The breakdown by billing period *)

Lemma breakdown_get_set (acc : list (string * Breakdown.data)) (p q : string)
    (d : Breakdown.data) :
  Breakdown.get (Breakdown.set acc p d) q
  = if decide (p = q) then Some d else Breakdown.get acc q.
Proof.
  induction acc as [|[k d'] acc IH]; cbn.
  - by repeat case_decide.
  - repeat (case_decide; cbn; simplify_eq); try done;
      rewrite IH; by repeat case_decide.
Qed.

Lemma breakdown_keys_set (acc : list (string * Breakdown.data)) (p : string)
    (d : Breakdown.data) :
  (Breakdown.set acc p d).*1
  = if Breakdown.get acc p is Some _ then acc.*1 else acc.*1 ++ [p].
Proof.
  induction acc as [|[k d'] acc IH]; cbn; [done|].
  case_decide; cbn; [done|]. rewrite IH. by destruct (Breakdown.get acc p).
Qed.

Lemma breakdown_get_None (acc : list (string * Breakdown.data)) (p : string) :
  Breakdown.get acc p = None ↔ ¬ (p ∈ acc.*1).
Proof.
  induction acc as [|[k d] acc IH]; cbn.
  - split; [intros _ []%elem_of_nil|done].
  - rewrite not_elem_of_cons. case_decide as Hk.
    + split; [done|]. intros [? _]. congruence.
    + rewrite IH. split; [by split|by intros [_ ?]].
Qed.

Lemma breakdown_get_elem (acc : list (string * Breakdown.data)) (p : string)
    (d : Breakdown.data) :
  NoDup acc.*1 → (p, d) ∈ acc ↔ Breakdown.get acc p = Some d.
Proof.
  induction acc as [|[k d'] acc IH]; cbn.
  - intros _. split; [intros []%elem_of_nil|done].
  - intros [Hk Hacc]%NoDup_cons. rewrite elem_of_cons, IH by done.
    case_decide as Hkp.
    + subst k. split; [intros [[= ->]|Hget]; [done|]|intros [= ->]; by left].
      destruct Hk. apply dec_stable. intros Hn%breakdown_get_None. congruence.
    + split; [intros [[= -> ->]|Hget]; done|by right].
Qed.

Lemma breakdown_get_step (acc : list (string * Breakdown.data))
    (sub : Subscription.t) (q : string) :
  Breakdown.get (Breakdown.step acc sub) q
  = if decide (Subscription.billingPeriod sub = q) then
      let d := default (Breakdown.mkData 0%float 0%float) (Breakdown.get acc q) in
      Some (Breakdown.mkData (Breakdown.count d + 1)%float
              (Breakdown.amount d + Num.parseFloat (Subscription.amount sub))%float)
    else Breakdown.get acc q.
Proof.
  unfold Breakdown.step.
  destruct (Breakdown.get acc (Subscription.billingPeriod sub)) as [d|] eqn:Hget.
  - rewrite Hget, breakdown_get_set. case_decide; [|done]. subst q.
    by rewrite Hget.
  - rewrite breakdown_get_set, decide_True by done.
    rewrite !breakdown_get_set. case_decide; [|done]. subst q. by rewrite Hget.
Qed.

Lemma breakdown_keys_step (acc : list (string * Breakdown.data))
    (sub : Subscription.t) :
  (Breakdown.step acc sub).*1
  = if Breakdown.get acc (Subscription.billingPeriod sub) is Some _ then acc.*1
    else acc.*1 ++ [Subscription.billingPeriod sub].
Proof.
  unfold Breakdown.step.
  destruct (Breakdown.get acc (Subscription.billingPeriod sub)) as [d|] eqn:Hget.
  - by rewrite Hget, breakdown_keys_set, Hget.
  - rewrite breakdown_get_set, decide_True by done.
    rewrite breakdown_keys_set, breakdown_get_set, decide_True by done.
    by rewrite breakdown_keys_set, Hget.
Qed.

Lemma breakdown_fold_NoDup (subscriptions : list Subscription.t) :
  NoDup (fold_left Breakdown.step subscriptions []).*1.
Proof.
  induction subscriptions as [|s l IH] using rev_ind; [constructor|].
  rewrite fold_left_app. cbn. rewrite breakdown_keys_step.
  destruct (Breakdown.get _ _) eqn:Hget; [done|].
  apply NoDup_app. split; [done|]. split; [|apply NoDup_singleton].
  intros x Hx ->%list_elem_of_singleton. by apply breakdown_get_None in Hget.
Qed.

Lemma of_period_snoc (p : string) (l : list Subscription.t) (s : Subscription.t) :
  Breakdown.of_period p (l ++ [s])
  = Breakdown.of_period p l
    ++ (if decide (Subscription.billingPeriod s = p) then [s] else []).
Proof.
  unfold Breakdown.of_period. by rewrite filter_app.
Qed.

(** What the fold keeps for a period: nothing when no subscription has it,
    and otherwise the running count and the running sum over the
    subscriptions that have it. *)
Lemma breakdown_fold_get (subscriptions : list Subscription.t) (p : string) :
  Breakdown.get (fold_left Breakdown.step subscriptions []) p
  = if decide (Breakdown.of_period p subscriptions = []) then None
    else
      Some (Breakdown.mkData
              (fold_left (λ c _, (c + 1)%float)
                 (Breakdown.of_period p subscriptions) 0%float)
              (fold_left
                 (λ sum sub, (sum + Num.parseFloat (Subscription.amount sub))%float)
                 (Breakdown.of_period p subscriptions) 0%float)).
Proof.
  induction subscriptions as [|s l IH] using rev_ind; [done|].
  rewrite fold_left_app. cbn [fold_left]. rewrite breakdown_get_step, of_period_snoc.
  destruct (decide (Subscription.billingPeriod s = p)) as [Hp|Hp];
    [|by rewrite IH, app_nil_r].
  cbn zeta. rewrite IH, (decide_False (P := _ ++ [s] = [])) by (by intros [_ ?]%app_nil).
  rewrite !fold_left_app. by case_decide as Hl; [rewrite Hl|].
Qed.

Lemma count_fold {A} (l : list A) :
  Z.of_nat (length l) < 2 ^ 53 →
  fold_left (λ c _, (c + 1)%float) l 0%float = Num.of_Z (Z.of_nat (length l)).
Proof.
  induction l as [|x l IH] using rev_ind; [done|].
  rewrite length_app, fold_left_app. cbn [length fold_left]. intros Hlen.
  rewrite IH by lia. change 1%float with (Num.of_Z 1).
  rewrite of_Z_add by lia. f_equal. lia.
Qed.

Lemma capitalize_periods (p q : string) :
  p ∈ Breakdown.periods → q ∈ Breakdown.periods →
  Breakdown.capitalize p = Breakdown.capitalize q → p = q.
Proof.
  unfold Breakdown.periods. intros Hp Hq.
  repeat (apply elem_of_cons in Hp as [->|Hp]);
    [..|by apply elem_of_nil in Hp];
    (repeat (apply elem_of_cons in Hq as [->|Hq]);
       [..|by apply elem_of_nil in Hq]); done.
Qed.

(** X22: the breakdown has one row for each billing period in use and
    none for the others; a row carries the number of the subscriptions
    of its period and the sum of their amounts, added in the order of
    the list, so that the row [Monthly] shows the figure the server
    reports as [monthlySpend]. *)
Theorem getBillingPeriodStats_rows (subscriptions : list Subscription.t) :
  Forall (λ sub, Subscription.billingPeriod sub ∈ Breakdown.periods) subscriptions →
  Z.of_nat (length subscriptions) < 2 ^ 53 →
  let rows := Breakdown.getBillingPeriodStats (Some subscriptions) in
  NoDup (Breakdown.period <$> rows)
  ∧ (∀ p, p ∈ Breakdown.periods →
          Breakdown.capitalize p ∈ Breakdown.period <$> rows
          ↔ p ∈ Subscription.billingPeriod <$> subscriptions)
  ∧ (∀ r, r ∈ rows →
       ∃ p, p ∈ Breakdown.periods
            ∧ Breakdown.period r = Breakdown.capitalize p
            ∧ Breakdown.of_period p subscriptions ≠ []
            ∧ Breakdown.row_count r
              = Num.of_Z (Z.of_nat (length (Breakdown.of_period p subscriptions)))
            ∧ Breakdown.row_amount r
              = fold_left
                  (λ sum sub, (sum + Num.parseFloat (Subscription.amount sub))%float)
                  (Breakdown.of_period p subscriptions) 0%float)
  ∧ (∀ r, r ∈ rows → Breakdown.period r = "Monthly" →
          Breakdown.row_amount r = Routes.stats_monthlySpend subscriptions).
Proof.
  intros Hperiods Hlen rows.
  set (acc := fold_left Breakdown.step subscriptions []).
  assert (∀ p d, (p, d) ∈ acc ↔ Breakdown.get acc p = Some d) as Helem.
  { intros p d. apply breakdown_get_elem, breakdown_fold_NoDup. }
  assert (∀ p, p ∈ acc.*1 ↔ Breakdown.of_period p subscriptions ≠ []) as Hkeys.
  { intros p. pose proof (breakdown_fold_get subscriptions p) as Hget. fold acc in Hget.
    case_decide as Hl.
    - apply breakdown_get_None in Hget. split; [done|by intros []].
    - split; [done|]. intros _. apply dec_stable.
      intros Hn%breakdown_get_None. congruence. }
  assert (∀ p, Breakdown.of_period p subscriptions ≠ []
               ↔ p ∈ Subscription.billingPeriod <$> subscriptions) as Hused.
  { intros p. unfold Breakdown.of_period. split.
    - intros Hne. destruct (filter _ subscriptions) as [|s l] eqn:Hl; [done|].
      assert (s ∈ filter (λ sub, Subscription.billingPeriod sub = p) subscriptions)
        as [Hs Hin]%list_elem_of_filter by (rewrite Hl; left).
      apply list_elem_of_fmap. by exists s.
    - intros (s & -> & Hin)%list_elem_of_fmap Hnil.
      assert (s ∈ filter (λ sub, Subscription.billingPeriod sub
                                 = Subscription.billingPeriod s) subscriptions)
        as Hs by by apply list_elem_of_filter.
      rewrite Hnil in Hs. by apply elem_of_nil in Hs. }
  assert (∀ p, p ∈ acc.*1 → p ∈ Breakdown.periods) as Hfive.
  { intros p (s & -> & Hin)%Hkeys%Hused%list_elem_of_fmap.
    by eapply Forall_forall in Hperiods. }
  assert (∀ r, r ∈ rows →
            ∃ p d, (p, d) ∈ acc ∧ r = Breakdown.mkRow (Breakdown.capitalize p)
                                        (Breakdown.count d) (Breakdown.amount d))
    as Hrow.
  { intros r ([p d] & -> & Hin)%list_elem_of_fmap. by exists p, d. }
  assert (∀ r, r ∈ rows →
       ∃ p, p ∈ Breakdown.periods
            ∧ Breakdown.period r = Breakdown.capitalize p
            ∧ Breakdown.of_period p subscriptions ≠ []
            ∧ Breakdown.row_count r
              = Num.of_Z (Z.of_nat (length (Breakdown.of_period p subscriptions)))
            ∧ Breakdown.row_amount r
              = fold_left
                  (λ sum sub, (sum + Num.parseFloat (Subscription.amount sub))%float)
                  (Breakdown.of_period p subscriptions) 0%float) as Hrows.
  { intros r (p & d & Hin & ->)%Hrow. exists p.
    assert (p ∈ acc.*1) as Hp by (apply list_elem_of_fmap; by exists (p, d)).
    split; [by apply Hfive|]. split; [done|]. split; [by apply Hkeys|].
    apply Helem in Hin. unfold acc in Hin. rewrite breakdown_fold_get in Hin.
    case_decide as Hl; [done|]. injection Hin as <-. cbn. split; [|done].
    apply count_fold. unfold Breakdown.of_period.
    pose proof (length_filter (λ sub, Subscription.billingPeriod sub = p)
                  subscriptions). lia. }
  repeat (match goal with |- _ ∧ _ => split end).
  - unfold rows, Breakdown.getBillingPeriodStats. fold acc.
    rewrite <- list_fmap_compose.
    apply (NoDup_fmap_2_strong _ acc).
    + intros [p d] [q e] Hp Hq Heq. cbn in Heq.
      assert (p = q) as <-.
      { apply capitalize_periods; [apply Hfive|apply Hfive|done];
          apply list_elem_of_fmap; by eexists (_, _). }
      f_equal. apply Helem in Hp, Hq. congruence.
    + apply (NoDup_fmap_1 fst), breakdown_fold_NoDup.
  - intros p Hp. rewrite <- Hused, <- Hkeys. split.
    + intros (r & Hr & (q & d & Hin & ->)%Hrow)%list_elem_of_fmap. cbn in Hr.
      assert (q ∈ acc.*1) as Hq by (apply list_elem_of_fmap; by exists (q, d)).
      apply capitalize_periods in Hr; [by subst|done|by apply Hfive].
    + intros ([q d] & -> & Hin)%list_elem_of_fmap. cbn.
      apply list_elem_of_fmap.
      exists (Breakdown.mkRow (Breakdown.capitalize q) (Breakdown.count d)
                (Breakdown.amount d)).
      split; [done|]. apply list_elem_of_fmap. by exists (q, d).
  - exact Hrows.
  - intros r (p & Hp & Hr & _ & _ & Hamount)%Hrows Hmonthly.
    rewrite Hr in Hmonthly.
    assert (p = "monthly") as ->.
    { apply capitalize_periods; [done| |done]. unfold Breakdown.periods. left. }
    exact Hamount.
Qed.

Lemma getBillingPeriodStats_rows_witness :
  let subscriptions := [Samples.gym; Samples.news; Examples.netflix] in
  let rows := Breakdown.getBillingPeriodStats (Some subscriptions) in
  NoDup (Breakdown.period <$> rows)
  ∧ (∀ p, p ∈ Breakdown.periods →
          Breakdown.capitalize p ∈ Breakdown.period <$> rows
          ↔ p ∈ Subscription.billingPeriod <$> subscriptions)
  ∧ (∀ r, r ∈ rows →
       ∃ p, p ∈ Breakdown.periods
            ∧ Breakdown.period r = Breakdown.capitalize p
            ∧ Breakdown.of_period p subscriptions ≠ []
            ∧ Breakdown.row_count r
              = Num.of_Z (Z.of_nat (length (Breakdown.of_period p subscriptions)))
            ∧ Breakdown.row_amount r
              = fold_left
                  (λ sum sub, (sum + Num.parseFloat (Subscription.amount sub))%float)
                  (Breakdown.of_period p subscriptions) 0%float)
  ∧ (∀ r, r ∈ rows → Breakdown.period r = "Monthly" →
          Breakdown.row_amount r = Routes.stats_monthlySpend subscriptions).
Proof.
  intros subscriptions.
  apply (getBillingPeriodStats_rows subscriptions).
  - by apply (bool_decide_unpack _).
  - cbn. lia.
Defined.

(** ** Due texts by time *)

Lemma ceil_div_le (a b k : Z) : 0 < b → Day.ceil_div a b ≤ k ↔ a ≤ k * b.
Proof.
  intros Hb. unfold Day.ceil_div.
  pose proof (Z.div_mod (- a) b) as Hdiv.
  pose proof (Z.mod_pos_bound (- a) b Hb) as Hmod.
  split; intros H; nia.
Qed.

Lemma diffDays_le (now date k : Z) :
  Day.diffDays now date ≤ k ↔ date ≤ now + k * Day.MS_PER_DAY.
Proof.
  unfold Day.diffDays. rewrite ceil_div_le by done. lia.
Qed.

Lemma diffDays_lt (now date k : Z) :
  k < Day.diffDays now date ↔ now + k * Day.MS_PER_DAY < date.
Proof. pose proof (diffDays_le now date k). lia. Qed.

(** X23: the texts of a card by the time left: a payment is [Overdue]
    once it is a full day late, [Due today] from its date until a day
    after it, and [Due tomorrow] during the day before it; a card is
    urgent exactly when the payment is at most a day ahead. *)
Theorem getDueText_by_time (now : Z) (s : Subscription.t) :
  let date := Subscription.nextPaymentDate s in
  let due := SubscriptionCard.getDueText now s in
  (SubscriptionCard.text due = "Overdue" ↔ date + Day.MS_PER_DAY ≤ now)
  ∧ (SubscriptionCard.text due = "Due today"
     ↔ date ≤ now < date + Day.MS_PER_DAY)
  ∧ (SubscriptionCard.text due = "Due tomorrow"
     ↔ now < date ≤ now + Day.MS_PER_DAY)
  ∧ (SubscriptionCard.urgent due = true ↔ date ≤ now + Day.MS_PER_DAY).
Proof.
  intros date due. subst due. unfold SubscriptionCard.getDueText. fold date.
  pose proof (diffDays_le now date (-1)) as Hm1.
  pose proof (diffDays_le now date 0) as H0.
  pose proof (diffDays_le now date 1) as H1.
  repeat case_decide; cbn [SubscriptionCard.text SubscriptionCard.urgent];
    (repeat split; try done; try lia; try discriminate);
    intros; exfalso; lia.
Qed.

(** X24: a card of the list [Due This Week], drawn at the time of the
    grouping or later, never counts in weeks: it reads [Due today], [Due
    tomorrow] or [Due in N days] with [N] from 2 to 7, and [Overdue]
    only when the clock has moved on since the grouping. *)
Theorem due_this_week_cards (now now' : Z) (subscriptions : list Subscription.t)
    (s : Subscription.t) :
  now ≤ now' →
  s ∈ SubscriptionsPage.upcoming
        (SubscriptionsPage.groupSubscriptionsByStatus now (Some subscriptions)) →
  let due := SubscriptionCard.getDueText now' s in
  (SubscriptionCard.text due = "Overdue" ∧ now < now'
   ∨ SubscriptionCard.text due = "Due today"
   ∨ SubscriptionCard.text due = "Due tomorrow"
   ∨ ∃ n, 2 ≤ n ≤ 7
          ∧ SubscriptionCard.text due = "Due in " +:+ pretty n +:+ " days")
  ∧ (SubscriptionCard.urgent due = false
     → now' + Day.MS_PER_DAY < Subscription.nextPaymentDate s).
Proof.
  intros Hnow [[H7 H0] _]%list_elem_of_filter due.
  apply diffDays_le in H7.
  assert (-1 < Day.diffDays now (Subscription.nextPaymentDate s)) as H0' by lia.
  apply diffDays_lt in H0'.
  assert (Day.diffDays now' (Subscription.nextPaymentDate s) ≤ 7) as H7'
    by (apply diffDays_le; lia).
  pose proof (diffDays_le now' (Subscription.nextPaymentDate s) (-1)) as Hm1.
  pose proof (diffDays_le now' (Subscription.nextPaymentDate s) 1) as H1.
  subst due. unfold SubscriptionCard.getDueText.
  repeat case_decide; cbn [SubscriptionCard.text SubscriptionCard.urgent];
    try lia; (split; [|try done; intros _; lia]).
  - left. split; [done|]. lia.
  - by right; left.
  - by right; right; left.
  - right; right; right. eexists. split; [|done]. lia.
Qed.

Lemma due_this_week_cards_witness :
  let due := SubscriptionCard.getDueText 0 (Examples.netflix_due 432000000) in
  (SubscriptionCard.text due = "Overdue" ∧ 0 < 0
   ∨ SubscriptionCard.text due = "Due today"
   ∨ SubscriptionCard.text due = "Due tomorrow"
   ∨ ∃ n, 2 ≤ n ≤ 7
          ∧ SubscriptionCard.text due = "Due in " +:+ pretty n +:+ " days")
  ∧ (SubscriptionCard.urgent due = false
     → 0 + Day.MS_PER_DAY < Subscription.nextPaymentDate (Examples.netflix_due 432000000)).
Proof.
  apply (due_this_week_cards 0 0 [Examples.netflix_due 432000000]
           (Examples.netflix_due 432000000)).
  - lia.
  - apply list_elem_of_filter. split; [|left].
    cbn zeta. by apply (bool_decide_unpack _).
Defined.

(** X25: a card of the home page shows a subscription the server
    answered as upcoming: drawn at the time of the query or later, it
    reads [Overdue] only a full day after the query, and [Due today]
    only for a payment dated between the query and the drawing. *)
Theorem upcoming_cards (db : Pg.Db) (now now' : Z) (userId : string)
    (limit : option Num.number) (rows : list Subscription.t)
    (s : Subscription.t) :
  now ≤ now' →
  Routes.get_upcoming db now userId limit = Routes.Json 200 rows →
  s ∈ rows →
  let due := SubscriptionCard.getDueText now' s in
  (SubscriptionCard.text due = "Overdue" → now + Day.MS_PER_DAY ≤ now')
  ∧ (SubscriptionCard.text due = "Due today"
     → now ≤ Subscription.nextPaymentDate s ≤ now').
Proof.
  intros Hnow Hroute Hs due. unfold Routes.get_upcoming in Hroute.
  destruct (Storage.getUpcomingSubscriptions db now userId (default 10%float limit))
    as [upcoming|] eqn:Hupcoming; [|done].
  injection Hroute as <-.
  apply (getUpcomingSubscriptions_elem _ _ _ _ _ _ Hupcoming)
    in Hs as (_ & _ & _ & Hdate).
  pose proof (diffDays_le now' (Subscription.nextPaymentDate s) (-1)) as Hm1.
  pose proof (diffDays_le now' (Subscription.nextPaymentDate s) 0) as H0.
  subst due. unfold SubscriptionCard.getDueText.
  repeat case_decide; cbn [SubscriptionCard.text];
    (split; intros Htext; try discriminate); lia.
Qed.

(** A row due at the time of the query reads [Due today] when drawn at
    once and [Overdue] when drawn a day later. *)
Lemma upcoming_cards_witness :
  let s := Examples.netflix_due 0 in
  SubscriptionCard.text (SubscriptionCard.getDueText 0 s) = "Due today"
  ∧ 0 ≤ Subscription.nextPaymentDate s ≤ 0
  ∧ SubscriptionCard.text (SubscriptionCard.getDueText Day.MS_PER_DAY s) = "Overdue"
  ∧ 0 + Day.MS_PER_DAY ≤ Day.MS_PER_DAY.
Proof.
  intros s.
  assert (SubscriptionCard.text (SubscriptionCard.getDueText 0 s) = "Due today")
    as Htoday by reflexivity.
  assert (SubscriptionCard.text (SubscriptionCard.getDueText Day.MS_PER_DAY s)
          = "Overdue") as Hoverdue by reflexivity.
  split; [exact Htoday|]. split; [|split; [exact Hoverdue|]].
  - refine (proj2 (upcoming_cards Samples.db_due_now 0 0 "u1" None [s] s
                     _ _ _) Htoday);
      [lia|vm_compute; reflexivity|left].
  - refine (proj1 (upcoming_cards Samples.db_due_now 0 Day.MS_PER_DAY "u1"
                     (Some 5%float) [s] s _ _ _) Hoverdue);
      [vm_compute; discriminate|vm_compute; reflexivity|left].
Defined.

(** ** The colour of a card *)

Lemma wrap_range (x : Z) : - 2 ^ 31 ≤ Int32.wrap x < 2 ^ 31.
Proof.
  unfold Int32.wrap. pose proof (Z.mod_pos_bound (x + 2 ^ 31) (2 ^ 32)). lia.
Qed.

Lemma wrap_add_multiple (x k : Z) : Int32.wrap (x + k * 2 ^ 32) = Int32.wrap x.
Proof.
  unfold Int32.wrap.
  replace (x + k * 2 ^ 32 + 2 ^ 31) with (x + 2 ^ 31 + k * 2 ^ 32) by lia.
  by rewrite Z.mod_add.
Qed.

Lemma wrap_multiple (x : Z) : ∃ k, Int32.wrap x = x + k * 2 ^ 32.
Proof.
  exists (- ((x + 2 ^ 31) `div` 2 ^ 32)). unfold Int32.wrap.
  pose proof (Z.div_mod (x + 2 ^ 31) (2 ^ 32)). lia.
Qed.

Lemma wrap_small (x : Z) : - 2 ^ 31 ≤ x < 2 ^ 31 → Int32.wrap x = x.
Proof. intros Hx. unfold Int32.wrap. rewrite Z.mod_small; lia. Qed.

(** One step of the hash multiplies by 31 and adds the code unit, within
    32 bits. *)
Lemma step_wrap (a b : Z) :
  ServiceColor.step (Int32.wrap a) b = Int32.wrap (31 * a + b).
Proof.
  unfold ServiceColor.step, Int32.and, Int32.shl. cbn zeta.
  rewrite Z.land_diag, Z.shiftl_mul_pow2 by lia.
  rewrite (wrap_small (Int32.wrap _)) by apply wrap_range.
  rewrite (wrap_small (Int32.wrap a)) by apply wrap_range.
  destruct (wrap_multiple a) as [k ->].
  destruct (wrap_multiple ((a + k * 2 ^ 32) * 2 ^ 5)) as [k' ->].
  replace ((a + k * 2 ^ 32) * 2 ^ 5 + k' * 2 ^ 32 - (a + k * 2 ^ 32) + b)
    with (31 * a + b + (31 * k + k') * 2 ^ 32) by lia.
  apply wrap_add_multiple.
Qed.

Lemma hash_polynomial (name : list Z) :
  ServiceColor.hash name = Int32.wrap (ServiceColor.polynomial name).
Proof.
  unfold ServiceColor.hash, ServiceColor.polynomial.
  induction name as [|b name IH] using rev_ind; [done|].
  rewrite !fold_left_app. cbn [fold_left]. rewrite IH. apply step_wrap.
Qed.

(** X26: every name has a colour: the hash is the polynomial of the code
    units in powers of 31 taken within 32 bits, the index computed from
    it is within the array whatever the sign of the hash, and so the
    card never gets an [undefined] class; the empty name gets the first
    colour. *)
Theorem getServiceColor_defined (name : list Z) :
  ServiceColor.hash name = Int32.wrap (ServiceColor.polynomial name)
  ∧ (∃ color, ServiceColor.getServiceColor name = Some color
              ∧ color ∈ ServiceColor.colors)
  ∧ (Z.abs (ServiceColor.hash name) < 2 ^ 31 ∨ ServiceColor.hash name = - 2 ^ 31)
  ∧ (name = [] → ServiceColor.getServiceColor name = Some "bg-red-500").
Proof.
  split; [apply hash_polynomial|]. split; [|split].
  - unfold ServiceColor.getServiceColor.
    set (i := Z.to_nat _).
    assert (i < length ServiceColor.colors)%nat as Hi.
    { unfold i. pose proof (Z.mod_pos_bound (Z.abs (ServiceColor.hash name))
                              (Z.of_nat (length ServiceColor.colors))).
      cbn in *. lia. }
    apply lookup_lt_is_Some in Hi as [color Hcolor].
    exists color. split; [done|]. by eapply list_elem_of_lookup_2.
  - rewrite hash_polynomial. pose proof (wrap_range (ServiceColor.polynomial name)).
    lia.
  - by intros ->.
Qed.
